(** * Appoint: appointment booking backend

    A shallow embedding of the Django/DRF views and serializers of the
    repository (main_app and account_app), with the relational store
    written as explicit tables and every view as a computation in a
    small state-and-exception monad over those tables. *)

From Stdlib Require Import List String ZArith Arith Bool Lia.
From Stdlib Require Import Sorting.Sorted.
From Stdlib Require Import NArith Ascii DecimalString DecimalFacts DecimalN.
Import ListNotations.

Local Open Scope string_scope.
Local Open Scope nat_scope.

(* ================================================================== *)
(** * datetime: calendar dates and times of day *)
(* ================================================================== *)

(** Python compares [date] and [time] objects by comparing the tuples of
    their fields, most significant first. *)
Fixpoint tuple_cmp (x y : list nat) : comparison :=
  match x, y with
  | [], [] => Eq
  | [], _ :: _ => Lt
  | _ :: _, [] => Gt
  | a :: x', b :: y' =>
      match Nat.compare a b with
      | Eq => tuple_cmp x' y'
      | c => c
      end
  end.

Definition cmp_lt (c : comparison) : bool :=
  match c with Lt => true | _ => false end.
Definition cmp_le (c : comparison) : bool :=
  match c with Gt => false | _ => true end.
Definition cmp_gt (c : comparison) : bool :=
  match c with Gt => true | _ => false end.
Definition cmp_ge (c : comparison) : bool :=
  match c with Lt => false | _ => true end.
Definition cmp_eq (c : comparison) : bool :=
  match c with Eq => true | _ => false end.

Module datetime.

Record date : Type := mkdate { year : nat; month : nat; day : nat }.

Record time : Type :=
  mktime { hour : nat; minute : nat; second : nat; microsecond : nat }.

Definition date_key (d : date) : list nat := [year d; month d; day d].
Definition time_key (t : time) : list nat :=
  [hour t; minute t; second t; microsecond t].

Definition date_cmp (a b : date) : comparison :=
  tuple_cmp (date_key a) (date_key b).
Definition time_cmp (a b : time) : comparison :=
  tuple_cmp (time_key a) (time_key b).

Definition date_eq (a b : date) : bool := cmp_eq (date_cmp a b).
Definition date_lt (a b : date) : bool := cmp_lt (date_cmp a b).
Definition date_gt (a b : date) : bool := cmp_gt (date_cmp a b).
Definition date_ge (a b : date) : bool := cmp_ge (date_cmp a b).

Definition time_eq (a b : time) : bool := cmp_eq (time_cmp a b).
Definition time_lt (a b : time) : bool := cmp_lt (time_cmp a b).
Definition time_le (a b : time) : bool := cmp_le (time_cmp a b).
Definition time_gt (a b : time) : bool := cmp_gt (time_cmp a b).
Definition time_ge (a b : time) : bool := cmp_ge (time_cmp a b).

(** [time(h, m)]: seconds and microseconds default to zero. *)
Definition time_hm (h m : nat) : time := mktime h m 0 0.

(** [timedelta(minutes=3)], in microseconds. *)
Definition three_minutes : Z := (3 * 60 * 1000000)%Z.

End datetime.

Import datetime.

(** One reading of the clock.  [instant] is [timezone.now()] as
    microseconds on the time line; [today] and [now_time] are
    [date.today()] and [datetime.now().time()] on the local clock.  A
    request is handled at a single reading. *)
Record Clock : Type :=
  mkClock { instant : Z; today : date; now_time : time }.

(* ================================================================== *)
(** * main_app/models.py *)
(* ================================================================== *)

Inductive Role : Type := role_scheduler | role_booker.

Module OTP.
Record t : Type := mk { phone : string; code : string; created_at : Z }.

(** [timezone.now() > self.created_at + datetime.timedelta(minutes=3)] *)
Definition is_expired (now : Z) (o : t) : bool :=
  (created_at o + three_minutes <? now)%Z.
End OTP.

Module RoleUser.
Record t : Type := mk { id : nat; user : nat; role : Role }.
End RoleUser.

Module Scheduler.
Record t : Type :=
  mk { id : nat; owner : option nat; name : string; family : string;
       phone : string; bio : string; is_public_search : bool }.
End Scheduler.

Module Booker.
Record t : Type :=
  mk { id : nat; owner : option nat; name : string; family : string;
       phone : string }.
End Booker.

Module Appointment.
Record t : Type :=
  mk { id : nat;
       scheduler : nat;
       booker : option nat;
       booker_name : string;
       date : datetime.date;
       time : datetime.time;
       note : option string;
       created_at : Z }.

(** The columns of [unique_together = ('scheduler', 'date', 'time')]. *)
Definition same_slot (s : nat) (d : datetime.date) (tm : datetime.time)
    (a : t) : bool :=
  (scheduler a =? s) && date_eq (date a) d && time_eq (time a) tm.

(** [Meta.ordering = ['date', 'time']] *)
Definition meta_ordering (a b : t) : bool :=
  cmp_le (tuple_cmp (date_key (date a) ++ time_key (time a))
                    (date_key (date b) ++ time_key (time b))).

Definition has_booker (b : nat) (a : t) : bool :=
  match booker a with Some b' => b' =? b | None => false end.

(** [Q(date__gt=today) | Q(date=today, time__gt=current_time)] *)
Definition upcoming (clk : Clock) (a : t) : bool :=
  date_gt (date a) (today clk)
  || (date_eq (date a) (today clk) && time_gt (time a) (now_time clk)).

(** [Q(date__lt=today) | Q(date=today, time__lte=current_time)] *)
Definition past (clk : Clock) (a : t) : bool :=
  date_lt (date a) (today clk)
  || (date_eq (date a) (today clk) && time_le (time a) (now_time clk)).
End Appointment.

(** The store: one list per table, rows in primary-key order.
    [booker_schedulers] is the join table of [Booker.schedulers];
    [appointment_seq] is the next primary key of the appointment table. *)
Record DB : Type :=
  mkDB { otps : list OTP.t;
         role_users : list RoleUser.t;
         schedulers : list Scheduler.t;
         bookers : list Booker.t;
         booker_schedulers : list (nat * nat);
         appointments : list Appointment.t;
         appointment_seq : nat }.

Definition empty_db : DB := mkDB [] [] [] [] [] [] 1.

Definition set_appointments (l : list Appointment.t) (db : DB) : DB :=
  mkDB (otps db) (role_users db) (schedulers db) (bookers db)
       (booker_schedulers db) l (appointment_seq db).

Definition set_booker_schedulers (l : list (nat * nat)) (db : DB) : DB :=
  mkDB (otps db) (role_users db) (schedulers db) (bookers db)
       l (appointments db) (appointment_seq db).

(* ================================================================== *)
(** * Outcomes of a request *)
(* ================================================================== *)

(** The ways a request is refused.  A validation error stands for the
    message raised in the source; from [Http404] on they are framework
    responses and exceptions that the views do not catch. *)
Inductive Error : Type :=
| InvalidTimeWindow        (* time outside 08:00 - 20:00 *)
| SlotAlreadyBooked        (* "This time slot has already been booked.", and
                              the refusal of the derived validator: "The
                              fields scheduler, date, time must make a
                              unique set." *)
| PastDateOrTime           (* past date, or today at or before now *)
| SchedulerNotInRoster     (* "... schedulers you have added." *)
| ActiveAppointmentExists  (* "You already have an active appointment ..." *)
| MissingBookerIdentity    (* "At least one of 'booker' or 'booker_name' ..." *)
| SchedulerNotFound        (* "Scheduler not found or not publicly visible." *)
| InvalidBookerPk          (* field booker: 'Invalid pk - object does not
                              exist.' *)
| InvalidSchedulerPk       (* field scheduler: the same *)
| NotFound                 (* 'OTP not found' / 'Invalid OTP' *)
| Expired                  (* 'OTP has expired' *)
| UserNotFound             (* 'User not found for this phone' *)
| Http404                  (* get_object_or_404 / 'No appointment found ...' *)
| InvalidAction            (* "Invalid action type." *)
| IntegrityError           (* the store refuses a write: unique_together *)
| MultipleObjectsReturned
| KeyError.

Inductive Response (A : Type) : Type :=
| Ok (a : A)
| Raise (errs : list Error).

Arguments Ok {A} a.
Arguments Raise {A} errs.

(** A view runs against the store and leaves a store behind, whether it
    answers or raises. *)
Definition M (A : Type) : Type := DB -> Response A * DB.

Definition ret {A : Type} (a : A) : M A := fun db => (Ok a, db).

Definition bind {A B : Type} (m : M A) (k : A -> M B) : M B :=
  fun db =>
    match m db with
    | (Ok a, db') => k a db'
    | (Raise e, db') => (Raise e, db')
    end.

Definition raise {A : Type} (e : list Error) : M A :=
  fun db => (Raise e, db).

Definition gets {A : Type} (f : DB -> A) : M A := fun db => (Ok (f db), db).

Definition modify (f : DB -> DB) : M unit := fun db => (Ok tt, f db).

Declare Scope view_scope.
Delimit Scope view_scope with view.
Notation "x <- m ;; k" := (bind m (fun x => k))
  (at level 61, m at next level, right associativity) : view_scope.
Notation "m ;; k" := (bind m (fun _ => k))
  (at level 61, right associativity) : view_scope.
Local Open Scope view_scope.

(** [raise ValidationError] when the list of collected errors is not
    empty. *)
Definition raise_if_any (errs : list Error) : M unit :=
  match errs with
  | [] => ret tt
  | _ :: _ => raise errs
  end.

(* ================================================================== *)
(** * Querysets and writes *)
(* ================================================================== *)

Section QuerySet.
Context {A : Type}.

(** [ORDER BY]: a stable insertion sort, so that rows with equal keys
    stay in primary-key order. *)
Fixpoint insert_by (le : A -> A -> bool) (x : A) (l : list A) : list A :=
  match l with
  | [] => [x]
  | y :: l' => if le x y then x :: l else y :: insert_by le x l'
  end.

Definition order_by (le : A -> A -> bool) (l : list A) : list A :=
  fold_right (insert_by le) [] l.

(** [.first()] of an ordered queryset, [.last()] of a table in
    primary-key order. *)
Definition first (l : list A) : option A := hd_error l.
Definition last_row (l : list A) : option A := hd_error (rev l).

(** [.exists()] *)
Definition exists_ (l : list A) : bool :=
  match l with [] => false | _ :: _ => true end.
End QuerySet.

(** [Appointment.objects.filter(scheduler=.., date=.., time=..)] *)
Definition appointments_at (s : nat) (d : date) (tm : time) (db : DB)
    : list Appointment.t :=
  filter (Appointment.same_slot s d tm) (appointments db).

(** [Appointment.objects.filter(booker=booker).filter(Q(date__gt=today) |
    Q(date=today, time__gt=current_time))], in the model's default
    ordering. *)
Definition upcoming_of (b : nat) (clk : Clock) (db : DB)
    : list Appointment.t :=
  order_by Appointment.meta_ordering
    (filter (Appointment.upcoming clk)
       (filter (Appointment.has_booker b) (appointments db))).

(** [booker.schedulers.all()]: the schedulers joined to the booker. *)
Definition joined (b s : nat) (row : nat * nat) : bool :=
  (fst row =? b) && (snd row =? s).

Definition schedulers_all (b : nat) (db : DB) : list Scheduler.t :=
  filter (fun s => existsb (joined b (Scheduler.id s)) (booker_schedulers db))
         (schedulers db).

Definition in_roster (b s : nat) (db : DB) : bool :=
  existsb (fun x => Scheduler.id x =? s) (schedulers_all b db).

(** [booker.schedulers.add(scheduler)]: the join row is written only
    when it is missing. *)
Definition schedulers_add (b s : nat) : M unit :=
  rows <- gets booker_schedulers ;;
  if existsb (joined b s) rows then ret tt
  else modify (set_booker_schedulers (rows ++ [(b, s)])).

(** [INSERT] into the appointment table.  The store enforces
    [unique_together] and hands out the next primary key. *)
Definition insert_appointment (row : nat -> Appointment.t)
    : M Appointment.t :=
  rows <- gets appointments ;;
  pk <- gets appointment_seq ;;
  let a := row pk in
  if exists_ (filter (Appointment.same_slot (Appointment.scheduler a)
                        (Appointment.date a) (Appointment.time a)) rows)
  then raise [IntegrityError]
  else
    modify (fun db =>
      mkDB (otps db) (role_users db) (schedulers db) (bookers db)
           (booker_schedulers db) (rows ++ [a]) (S pk)) ;;
    ret a.

(** The table after [UPDATE ... WHERE id = ..]: [a] takes the place of
    the row that has its primary key. *)
Definition written (a x : Appointment.t) : Appointment.t :=
  if Appointment.id x =? Appointment.id a then a else x.

(** [instance.save()] of an existing row, refused when another row holds
    the same slot. *)
Definition save_appointment (a : Appointment.t) : M unit :=
  rows <- gets appointments ;;
  if exists_ (filter (fun x => negb (Appointment.id x =? Appointment.id a))
                (filter (Appointment.same_slot (Appointment.scheduler a)
                           (Appointment.date a) (Appointment.time a)) rows))
  then raise [IntegrityError]
  else
    modify (set_appointments (map (written a) rows)).

(** [instance.delete()] *)
Definition delete_appointment (a : Appointment.t) : M unit :=
  rows <- gets appointments ;;
  modify (set_appointments
            (filter (fun x => negb (Appointment.id x =? Appointment.id a))
                    rows)).

(** [get_object_or_404(Appointment, pk=pk)] *)
Definition get_appointment_or_404 (pk : nat) : M Appointment.t :=
  rows <- gets appointments ;;
  match find (fun x => Appointment.id x =? pk) rows with
  | Some a => ret a
  | None => raise [Http404]
  end.

(** [get_object_or_404(Appointment, id=appointment_id,
    scheduler=scheduler)] *)
Definition get_appointment_of_or_404 (pk scheduler : nat)
    : M Appointment.t :=
  rows <- gets appointments ;;
  match find (fun x => (Appointment.id x =? pk)
                       && (Appointment.scheduler x =? scheduler)) rows with
  | Some a => ret a
  | None => raise [Http404]
  end.

(** [scheduler.delete()]: the appointments of the scheduler and its join
    rows go with it ([on_delete=models.CASCADE]). *)
Definition delete_scheduler (pk : nat) (db : DB) : DB :=
  mkDB (otps db) (role_users db)
       (filter (fun s => negb (Scheduler.id s =? pk)) (schedulers db))
       (bookers db)
       (filter (fun r => negb (snd r =? pk)) (booker_schedulers db))
       (filter (fun a => negb (Appointment.scheduler a =? pk))
               (appointments db))
       (appointment_seq db).

(** [booker.delete()], with the same cascade. *)
Definition delete_booker (pk : nat) (db : DB) : DB :=
  mkDB (otps db) (role_users db) (schedulers db)
       (filter (fun b => negb (Booker.id b =? pk)) (bookers db))
       (filter (fun r => negb (fst r =? pk)) (booker_schedulers db))
       (filter (fun a => negb (Appointment.has_booker pk a))
               (appointments db))
       (appointment_seq db).

(** [PrimaryKeyRelatedField(queryset=Booker.objects.all())] and the
    field that the framework builds for the foreign key [scheduler]: the
    key must name a stored row. *)
Definition is_booker_pk (pk : nat) (db : DB) : bool :=
  existsb (fun b => Booker.id b =? pk) (bookers db).

Definition is_scheduler_pk (pk : nat) (db : DB) : bool :=
  existsb (fun s => Scheduler.id s =? pk) (schedulers db).

(** The related object behind [obj.booker]. *)
Definition related_booker (a : Appointment.t) (db : DB) : option Booker.t :=
  match Appointment.booker a with
  | Some b => find (fun x => Booker.id x =? b) (bookers db)
  | None => None
  end.

(** Python truthiness of a string. *)
Definition truthy (s : string) : bool :=
  match s with EmptyString => false | String _ _ => true end.

(** [ModelSerializer.update]: every supplied attribute is set on the
    instance; the others keep their value. *)
Definition supplied {A : Type} (new : option A) (old : A) : A :=
  match new with Some v => v | None => old end.

(* ================================================================== *)
(** * main_app/pagination.py *)
(* ================================================================== *)

Module AppointmentsCPagination.

Definition page_size : nat := 5.

(** [ordering = 'time']: ascending time of day. *)
Definition ordering (a b : Appointment.t) : bool :=
  time_le (Appointment.time a) (Appointment.time b).

Definition reverse_ordering (a b : Appointment.t) : bool :=
  time_ge (Appointment.time a) (Appointment.time b).

(** The order of the table, by primary key: the order in which the
    store returns rows that an [ORDER BY] does not tell apart. *)
Definition pk_ordering (a b : Appointment.t) : bool :=
  Appointment.id a <=? Appointment.id b.

(** A decoded cursor: an offset, the direction, and the value of the
    ordering key to continue from. *)
Record Cursor : Type :=
  mkCursor { offset : nat; reverse : bool; position : option time }.

(** [paginate_queryset], inherited from the framework's
    [CursorPagination].  Cursor pagination enforces its own ordering:
    [queryset.order_by('time')] replaces the ordering that the queryset
    came with ("Orders appointments by 'time' field in ascending order",
    says the docstring of the class), so that the rows are ordered by the
    [ordering] attribute alone, rows of equal time in the order of the
    table.  The paginator then keeps the rows beyond the cursor position,
    skips [offset] of them and returns at most [page_size], in ascending
    key order. *)
Definition paginate_queryset (queryset : list Appointment.t)
    (cursor : option Cursor) : list Appointment.t :=
  let c := match cursor with
           | Some c => c
           | None => mkCursor 0 false None
           end in
  let rows := order_by pk_ordering queryset in
  let ordered :=
    if reverse c then order_by reverse_ordering rows
    else order_by ordering rows in
  let beyond :=
    match position c with
    | None => ordered
    | Some p =>
        if reverse c
        then filter (fun a => time_lt (Appointment.time a) p) ordered
        else filter (fun a => time_gt (Appointment.time a) p) ordered
    end in
  let page := firstn page_size (skipn (offset c) beyond) in
  if reverse c then rev page else page.

End AppointmentsCPagination.

(* ================================================================== *)
(** * main_app/api/serializers.py *)
(* ================================================================== *)

(** A serializer runs in three steps.  First the fields, in the order of
    [Meta.fields]: a related field checks that its key names a row of its
    queryset, and [validate_<field>] runs on the value; the errors of all
    fields are collected.  Then, when no field failed, the validators of
    the serializer; then [validate].  Payloads are taken after parsing:
    a date is a date, a time is a time, a key is a number. *)

(** The one validator of the serializer that matters here is the
    [UniqueTogetherValidator] that [ModelSerializer] derives from
    [Meta.unique_together] when the serializer writes the three columns
    [scheduler], [date] and [time]: on a creation it refuses a slot that
    a stored appointment holds.  [AppointmentCreateSerializer] and
    [BookerAppointmentCreateSerializer] write the three columns; the
    serializers of the scheduler panel and the update serializers do not
    write [scheduler] and have no such validator. *)
Definition unique_together_validator (s : nat) (d : date) (tm : time)
    : M unit :=
  rows <- gets (appointments_at s d tm) ;;
  if exists_ rows then raise [SlotAlreadyBooked] else ret tt.

(** The payload of a partial update of the writable fields [date],
    [time] and [note]: [None] is a key the request does not carry. *)
Record PartialData : Type :=
  mkPartial { new_date : option date;
              new_time : option time;
              new_note : option (option string) }.

Definition apply_partial (a : Appointment.t) (d : PartialData)
    : Appointment.t :=
  Appointment.mk (Appointment.id a) (Appointment.scheduler a)
    (Appointment.booker a) (Appointment.booker_name a)
    (supplied (new_date d) (Appointment.date a))
    (supplied (new_time d) (Appointment.time a))
    (supplied (new_note d) (Appointment.note a))
    (Appointment.created_at a).

Module AppointmentCreateSerializer.

Record data : Type :=
  mk { booker : nat; date : datetime.date; time : datetime.time;
       scheduler : nat; note : option string }.

Definition validate_time (value : datetime.time) : list Error :=
  if time_lt value (time_hm 8 0) || time_ge value (time_hm 20 0)
  then [InvalidTimeWindow] else [].

Definition validate (d : data) : M unit :=
  rows <- gets (appointments_at (scheduler d) (date d) (time d)) ;;
  if exists_ rows then raise [SlotAlreadyBooked] else ret tt.

(** The errors of the fields [booker], [time] and [scheduler], in the
    order of [Meta.fields]. *)
Definition field_errors (d : data) (db : DB) : list Error :=
  (if is_booker_pk (booker d) db then [] else [InvalidBookerPk])
  ++ validate_time (time d)
  ++ (if is_scheduler_pk (scheduler d) db then [] else [InvalidSchedulerPk]).

Definition is_valid (d : data) : M unit :=
  errs <- gets (field_errors d) ;;
  raise_if_any errs ;;
  unique_together_validator (scheduler d) (date d) (time d) ;;
  validate d.

Definition save (clk : Clock) (d : data) : M Appointment.t :=
  insert_appointment (fun pk =>
    Appointment.mk pk (scheduler d) (Some (booker d)) "" (date d)
      (time d) (note d) (instant clk)).

End AppointmentCreateSerializer.

(** [AppointmentDetailSerializer] declares no validator: a partial
    update goes straight to [save]. *)
Module AppointmentDetailSerializer.

Definition is_valid (d : PartialData) : M unit := ret tt.

Definition save (instance : Appointment.t) (d : PartialData)
    : M Appointment.t :=
  let a := apply_partial instance d in
  save_appointment a ;; ret a.

End AppointmentDetailSerializer.

(** [get_display_name], shared by the two scheduler-panel serializers. *)
Definition get_display_name (obj_booker : option Booker.t)
    (obj_booker_name : string) : string :=
  match obj_booker with
  | Some b => Booker.name b ++ " " ++ Booker.family b
  | None => if truthy obj_booker_name then obj_booker_name else "Unnamed"
  end.

(** [not data.get('booker') and not data.get('booker_name')] *)
Definition no_identity {B : Type} (booker : option B)
    (booker_name : option string) : bool :=
  negb (match booker with Some _ => true | None => false end)
  && negb (match booker_name with Some s => truthy s | None => false end).

Module SchedulerPanelAppointmentCreateSerializer.

Record data : Type :=
  mk { date : datetime.date; time : datetime.time;
       booker : option nat; booker_name : option string;
       note : option string }.

Definition validate (context_scheduler : option nat)
    (instance : option Appointment.t) (d : data) : M unit :=
  if no_identity (booker d) (booker_name d)
  then raise [MissingBookerIdentity]
  else
    match context_scheduler, instance with
    | Some scheduler, None =>
        rows <- gets (appointments_at scheduler (date d) (time d)) ;;
        if exists_ rows then raise [SlotAlreadyBooked] else ret tt
    | _, _ => ret tt
    end.

(** The field [booker]: a key that is supplied must name a stored
    booker. *)
Definition field_errors (d : data) (db : DB) : list Error :=
  match booker d with
  | Some b => if is_booker_pk b db then [] else [InvalidBookerPk]
  | None => []
  end.

Definition is_valid (context_scheduler : option nat) (d : data)
    : M unit :=
  errs <- gets (field_errors d) ;;
  raise_if_any errs ;;
  validate context_scheduler None d.

(** [serializer.save(scheduler=scheduler)] *)
Definition save (clk : Clock) (scheduler : nat) (d : data)
    : M Appointment.t :=
  insert_appointment (fun pk =>
    Appointment.mk pk scheduler (booker d)
      (match booker_name d with Some s => s | None => "" end)
      (date d) (time d) (note d) (instant clk)).

End SchedulerPanelAppointmentCreateSerializer.

Module SchedulerPanelAppointmentUpdateSerializer.

(** A partial payload: every key may be missing; [booker] may also be
    present and null. *)
Record data : Type :=
  mk { date : option datetime.date; time : option datetime.time;
       booker : option (option nat); booker_name : option string;
       note : option (option string) }.

(** [data.get('booker')]: a missing key and a null both read [None]. *)
Definition get_booker (d : data) : option nat :=
  match booker d with Some b => b | None => None end.

Definition validate (context_scheduler : option nat)
    (instance : option Appointment.t) (d : data) : M unit :=
  if no_identity (get_booker d) (booker_name d)
  then raise [MissingBookerIdentity]
  else
    match context_scheduler, instance with
    | Some scheduler, None =>
        match date d, time d with
        | Some dt, Some tm =>
            rows <- gets (appointments_at scheduler dt tm) ;;
            if exists_ rows then raise [SlotAlreadyBooked] else ret tt
        | _, _ => raise [KeyError]
        end
    | _, _ => ret tt
    end.

(** The field [booker]: a key that is supplied and is not null must
    name a stored booker. *)
Definition field_errors (d : data) (db : DB) : list Error :=
  match get_booker d with
  | Some b => if is_booker_pk b db then [] else [InvalidBookerPk]
  | None => []
  end.

Definition is_valid (context_scheduler : option nat)
    (instance : Appointment.t) (d : data) : M unit :=
  errs <- gets (field_errors d) ;;
  raise_if_any errs ;;
  validate context_scheduler (Some instance) d.

(** [ModelSerializer.update]: the supplied attributes are set on the
    instance. *)
Definition update (instance : Appointment.t) (d : data) : Appointment.t :=
  Appointment.mk (Appointment.id instance)
    (Appointment.scheduler instance)
    (supplied (booker d) (Appointment.booker instance))
    (supplied (booker_name d) (Appointment.booker_name instance))
    (supplied (date d) (Appointment.date instance))
    (supplied (time d) (Appointment.time instance))
    (supplied (note d) (Appointment.note instance))
    (Appointment.created_at instance).

Definition save (instance : Appointment.t) (d : data)
    : M Appointment.t :=
  let a := update instance d in
  save_appointment a ;; ret a.

End SchedulerPanelAppointmentUpdateSerializer.

Module BookerPanelUpdateAppointmentProfileSerializer.

Definition validate_date (clk : Clock) (value : date) : list Error :=
  if date_lt value (today clk) then [PastDateOrTime] else [].

Definition validate_time (value : time) : list Error :=
  if time_lt value (time_hm 8 0) || time_ge value (time_hm 20 0)
  then [InvalidTimeWindow] else [].

Definition validate (clk : Clock) (instance : Appointment.t)
    (d : PartialData) : M unit :=
  let selected_date := supplied (new_date d) (Appointment.date instance) in
  let selected_time := supplied (new_time d) (Appointment.time instance) in
  let scheduler := Appointment.scheduler instance in
  if date_eq selected_date (today clk)
     && time_le selected_time (now_time clk)
  then raise [PastDateOrTime]
  else
    rows <- gets (appointments_at scheduler selected_date selected_time) ;;
    let conflict :=
      exists_ (filter (fun x => negb (Appointment.id x
                                      =? Appointment.id instance)) rows) in
    if conflict then raise [SlotAlreadyBooked] else ret tt.

(** The validators of the supplied fields all run and their errors are
    collected. *)
Definition field_errors (clk : Clock) (d : PartialData) : list Error :=
  match new_date d with Some v => validate_date clk v | None => [] end
  ++ match new_time d with Some v => validate_time v | None => [] end.

(** [validate] runs when no field validator failed. *)
Definition is_valid (clk : Clock) (instance : Appointment.t)
    (d : PartialData) : M unit :=
  raise_if_any (field_errors clk d) ;;
  validate clk instance d.

Definition save (instance : Appointment.t) (d : PartialData)
    : M Appointment.t :=
  let a := apply_partial instance d in
  save_appointment a ;; ret a.

End BookerPanelUpdateAppointmentProfileSerializer.

Module AddSchedulerSerializer.

(** [Scheduler.objects.get(phone=value, is_public_search=True)] *)
Definition validate_scheduler_code (value : string) : M Scheduler.t :=
  rows <- gets schedulers ;;
  match filter (fun s => String.eqb (Scheduler.phone s) value
                         && Scheduler.is_public_search s) rows with
  | [] => raise [SchedulerNotFound]
  | [scheduler] => ret scheduler
  | _ :: _ :: _ => raise [MultipleObjectsReturned]
  end.

Definition save (booker : nat) (scheduler : Scheduler.t)
    : M Scheduler.t :=
  schedulers_add booker (Scheduler.id scheduler) ;;
  ret scheduler.

End AddSchedulerSerializer.

Module BookerAppointmentCreateSerializer.

Record data : Type :=
  mk { date : datetime.date; time : datetime.time;
       scheduler : nat; note : option string }.

(** [__init__] narrows the queryset of the [scheduler] field to
    [booker.schedulers.all()]: any other primary key is a field
    error. *)
Definition scheduler_field (booker : nat) (d : data) : M unit :=
  listed <- gets (in_roster booker (scheduler d)) ;;
  if listed then ret tt else raise [SchedulerNotInRoster].

Definition validate (clk : Clock) (booker : nat) (d : data) : M unit :=
  listed <- gets (in_roster booker (scheduler d)) ;;
  if negb listed then raise [SchedulerNotInRoster]
  else if date_eq (date d) (today clk) && time_le (time d) (now_time clk)
  then raise [PastDateOrTime]
  else if date_lt (date d) (today clk)
  then raise [PastDateOrTime]
  else
    rows <- gets (appointments_at (scheduler d) (date d) (time d)) ;;
    if exists_ rows then raise [SlotAlreadyBooked] else ret tt.

Definition is_valid (clk : Clock) (booker : nat) (d : data) : M unit :=
  scheduler_field booker d ;;
  unique_together_validator (scheduler d) (date d) (time d) ;;
  validate clk booker d.

(** [serializer.save(booker=booker)] *)
Definition save (clk : Clock) (booker : nat) (d : data)
    : M Appointment.t :=
  insert_appointment (fun pk =>
    Appointment.mk pk (scheduler d) (Some booker) "" (date d) (time d)
      (note d) (instant clk)).

End BookerAppointmentCreateSerializer.

(* ================================================================== *)
(** * main_app/api/views.py *)
(* ================================================================== *)

(** [order_by('-created_at')] and [order_by('-date')] *)
Definition created_at_desc (a b : Appointment.t) : bool :=
  (Appointment.created_at b <=? Appointment.created_at a)%Z.

Definition date_desc (a b : Appointment.t) : bool :=
  date_ge (Appointment.date a) (Appointment.date b).

(** [order_by('-date', '-time')] *)
Definition date_time_desc (a b : Appointment.t) : bool :=
  cmp_ge (tuple_cmp
            (date_key (Appointment.date a) ++ time_key (Appointment.time a))
            (date_key (Appointment.date b) ++ time_key (Appointment.time b))).

Module AdminPanelViewSet.

Definition list_appointments
    (cursor : option AppointmentsCPagination.Cursor)
    : M (list Appointment.t) :=
  queryset <- gets (fun db => order_by created_at_desc (appointments db)) ;;
  ret (AppointmentsCPagination.paginate_queryset queryset cursor).

(** [appointment_detail], PUT *)
Definition appointment_detail_put (pk : nat) (d : PartialData)
    : M Appointment.t :=
  appointment <- get_appointment_or_404 pk ;;
  AppointmentDetailSerializer.is_valid d ;;
  AppointmentDetailSerializer.save appointment d.

(** [appointment_detail], DELETE *)
Definition appointment_detail_delete (pk : nat) : M unit :=
  appointment <- get_appointment_or_404 pk ;;
  delete_appointment appointment.

(** [scheduler_detail], DELETE *)
Definition scheduler_detail_delete (pk : nat) : M unit :=
  rows <- gets schedulers ;;
  match find (fun s => Scheduler.id s =? pk) rows with
  | None => raise [Http404]
  | Some _ => modify (delete_scheduler pk)
  end.

(** [booker_detail], DELETE *)
Definition booker_detail_delete (pk : nat) : M unit :=
  rows <- gets bookers ;;
  match find (fun b => Booker.id b =? pk) rows with
  | None => raise [Http404]
  | Some _ => modify (delete_booker pk)
  end.

Definition create_appointment (clk : Clock)
    (d : AppointmentCreateSerializer.data) : M Appointment.t :=
  AppointmentCreateSerializer.is_valid d ;;
  AppointmentCreateSerializer.save clk d.

End AdminPanelViewSet.

Module SchedulerPanelViewSet.

Definition appointments (scheduler : nat)
    (cursor : option AppointmentsCPagination.Cursor)
    : M (list Appointment.t) :=
  queryset <- gets (fun db =>
    order_by date_desc
      (filter (fun a => Appointment.scheduler a =? scheduler)
              (appointments db))) ;;
  ret (AppointmentsCPagination.paginate_queryset queryset cursor).

(** The [action] key of the payload and what comes with it. *)
Inductive Action : Type :=
| create (d : SchedulerPanelAppointmentCreateSerializer.data)
| update (id : nat) (d : SchedulerPanelAppointmentUpdateSerializer.data)
| delete (id : nat)
| other.

(** What the serializer renders: the row and its [display_name]. *)
Definition rendered (a : Appointment.t) : M (Appointment.t * string) :=
  b <- gets (related_booker a) ;;
  ret (a, get_display_name b (Appointment.booker_name a)).

Definition manage_appointments (clk : Clock) (scheduler : nat)
    (action : Action) : M (option (Appointment.t * string)) :=
  match action with
  | create d =>
      SchedulerPanelAppointmentCreateSerializer.is_valid
        (Some scheduler) d ;;
      a <- SchedulerPanelAppointmentCreateSerializer.save clk scheduler d ;;
      r <- rendered a ;;
      ret (Some r)
  | update appointment_id d =>
      appointment <- get_appointment_of_or_404 appointment_id scheduler ;;
      SchedulerPanelAppointmentUpdateSerializer.is_valid
        None appointment d ;;
      a <- SchedulerPanelAppointmentUpdateSerializer.save appointment d ;;
      r <- rendered a ;;
      ret (Some r)
  | delete appointment_id =>
      appointment <- get_appointment_of_or_404 appointment_id scheduler ;;
      delete_appointment appointment ;;
      ret None
  | other => raise [InvalidAction]
  end.

End SchedulerPanelViewSet.

Module BookerPanelViewSet.

Definition my_appointment (clk : Clock) (booker : nat)
    : M Appointment.t :=
  appointment <- gets (fun db => first (upcoming_of booker clk db)) ;;
  match appointment with
  | None => raise [Http404]
  | Some a => ret a
  end.

Definition update_my_appointment (clk : Clock) (booker : nat)
    (d : PartialData) : M Appointment.t :=
  appointment <- gets (fun db => first (upcoming_of booker clk db)) ;;
  match appointment with
  | None => raise [Http404]
  | Some a =>
      BookerPanelUpdateAppointmentProfileSerializer.is_valid clk a d ;;
      BookerPanelUpdateAppointmentProfileSerializer.save a d
  end.

Definition reserve_appointment (clk : Clock) (booker : nat)
    (d : BookerAppointmentCreateSerializer.data) : M Appointment.t :=
  active_appointment_exists <-
    gets (fun db => exists_ (upcoming_of booker clk db)) ;;
  if active_appointment_exists then raise [ActiveAppointmentExists]
  else
    BookerAppointmentCreateSerializer.is_valid clk booker d ;;
    BookerAppointmentCreateSerializer.save clk booker d.

Definition past_appointments (clk : Clock) (booker : nat)
    : M (list Appointment.t) :=
  gets (fun db =>
    order_by date_time_desc
      (filter (Appointment.past clk)
         (filter (Appointment.has_booker booker) (appointments db)))).

Definition add_scheduler (booker : nat) (scheduler_code : string)
    : M Scheduler.t :=
  scheduler <- AddSchedulerSerializer.validate_scheduler_code
                 scheduler_code ;;
  AddSchedulerSerializer.save booker scheduler.

Definition list_schedulers (booker : nat) : M (list Scheduler.t) :=
  gets (schedulers_all booker).

End BookerPanelViewSet.

(* ================================================================== *)
(** * account_app/api/views.py *)
(* ================================================================== *)

(** [RefreshToken.for_user(role_user.user)]: the pair of tokens issued
    to a user. *)
Inductive Tokens : Type := for_user (user : nat).

Definition owner_is (ru : RoleUser.t) (owner : option nat) : bool :=
  match owner with Some o => o =? RoleUser.id ru | None => false end.

(** [RoleUser.objects.filter(Q(booker_owner__phone=phone) |
    Q(scheduler_owner__phone=phone))] *)
Definition role_users_of_phone (phone : string) (db : DB)
    : list RoleUser.t :=
  filter (fun ru =>
            existsb (fun b => owner_is ru (Booker.owner b)
                              && String.eqb (Booker.phone b) phone)
                    (bookers db)
            || existsb (fun s => owner_is ru (Scheduler.owner s)
                                 && String.eqb (Scheduler.phone s) phone)
                       (schedulers db))
         (role_users db).

(** [OTP.objects.filter(phone=phone, code=code)] *)
Definition otps_matching (phone code : string) (db : DB) : list OTP.t :=
  filter (fun o => String.eqb (OTP.phone o) phone
                   && String.eqb (OTP.code o) code) (otps db).

(** [OTP.objects.create(phone=phone, code=code)] at reading [clk]. *)
Definition create_otp (clk : Clock) (phone code : string) : M unit :=
  modify (fun db =>
    mkDB (otps db ++ [OTP.mk phone code (instant clk)]) (role_users db)
         (schedulers db) (bookers db) (booker_schedulers db)
         (appointments db) (appointment_seq db)).

Module VerifyOTPView.

Definition post (clk : Clock) (phone code : string) : M Tokens :=
  otp <- gets (fun db => last_row (otps_matching phone code db)) ;;
  match otp with
  | None => raise [NotFound]
  | Some o =>
      if OTP.is_expired (instant clk) o then raise [Expired]
      else
        role_user <- gets (fun db => first (role_users_of_phone phone db)) ;;
        match role_user with
        | Some ru => ret (for_user (RoleUser.user ru))
        | None => raise [UserNotFound]
        end
  end.

End VerifyOTPView.

Module OTPLoginView.

(** [generated] is the value drawn by [generate_otp()]. *)
Definition post (clk : Clock) (phone generated : string) : M unit :=
  found <- gets (role_users_of_phone phone) ;;
  match found with
  | [] => raise [Http404]
  | [_] => create_otp clk phone generated
  | _ :: _ :: _ => raise [MultipleObjectsReturned]
  end.

End OTPLoginView.

Module OTPLoginVerifyView.

Definition post (clk : Clock) (phone code : string) : M Tokens :=
  found <- gets (fun db => exists_ (otps_matching phone code db)) ;;
  if found then
    role_user <- gets (fun db => first (role_users_of_phone phone db)) ;;
    match role_user with
    | Some ru => ret (for_user (RoleUser.user ru))
    | None => raise [UserNotFound]
    end
  else raise [NotFound].

End OTPLoginVerifyView.

(* ================================================================== *)
(** * Requests and histories *)
(* ================================================================== *)

(** The requests that write to the store. *)
Inductive Request : Type :=
| AdminCreateAppointment (d : AppointmentCreateSerializer.data)
| AdminUpdateAppointment (pk : nat) (d : PartialData)
| AdminDeleteAppointment (pk : nat)
| AdminDeleteScheduler (pk : nat)
| AdminDeleteBooker (pk : nat)
| SchedulerManage (scheduler : nat) (action : SchedulerPanelViewSet.Action)
| BookerUpdate (booker : nat) (d : PartialData)
| BookerReserve (booker : nat) (d : BookerAppointmentCreateSerializer.data)
| BookerAddScheduler (booker : nat) (scheduler_code : string).

(** The store a request leaves behind. *)
Definition handle (clk : Clock) (r : Request) (db : DB) : DB :=
  match r with
  | AdminCreateAppointment d =>
      snd (AdminPanelViewSet.create_appointment clk d db)
  | AdminUpdateAppointment pk d =>
      snd (AdminPanelViewSet.appointment_detail_put pk d db)
  | AdminDeleteAppointment pk =>
      snd (AdminPanelViewSet.appointment_detail_delete pk db)
  | AdminDeleteScheduler pk =>
      snd (AdminPanelViewSet.scheduler_detail_delete pk db)
  | AdminDeleteBooker pk =>
      snd (AdminPanelViewSet.booker_detail_delete pk db)
  | SchedulerManage s action =>
      snd (SchedulerPanelViewSet.manage_appointments clk s action db)
  | BookerUpdate b d =>
      snd (BookerPanelViewSet.update_my_appointment clk b d db)
  | BookerReserve b d =>
      snd (BookerPanelViewSet.reserve_appointment clk b d db)
  | BookerAddScheduler b c =>
      snd (BookerPanelViewSet.add_scheduler b c db)
  end.

(** A history: requests served one after the other, each at its own
    reading of the clock. *)
Fixpoint serve (history : list (Clock * Request)) (db : DB) : DB :=
  match history with
  | [] => db
  | (clk, r) :: rest => serve rest (handle clk r db)
  end.

(* ================================================================== *)
(** * What the claims speak about *)
(* ================================================================== *)

(** The slot of an appointment: the columns of [unique_together]. *)
Definition slot (a : Appointment.t) : nat * date * time :=
  (Appointment.scheduler a, Appointment.date a, Appointment.time a).

(** The slot [(s, d, tm)] is held by a stored appointment. *)
Definition taken (db : DB) (s : nat) (d : date) (tm : time) : Prop :=
  exists a, In a (appointments db) /\ slot a = (s, d, tm).

(** The integrity of the appointment table: primary keys are unique and
    below the sequence, and no two rows hold the same slot. *)
Definition rows_ok (rows : list Appointment.t) (seq : nat) : Prop :=
  NoDup (map Appointment.id rows)
  /\ (forall a, In a rows -> Appointment.id a < seq)
  /\ NoDup (map slot rows).

Definition table_ok (db : DB) : Prop :=
  rows_ok (appointments db) (appointment_seq db).

(** The foreign key [Appointment.scheduler]: the scheduler of a stored
    appointment is a stored scheduler. *)
Definition scheduler_refs_ok (db : DB) : Prop :=
  forall a, In a (appointments db) ->
            is_scheduler_pk (Appointment.scheduler a) db = true.

(** The roster as a set: no join row is stored twice. *)
Definition roster_ok (db : DB) : Prop := NoDup (booker_schedulers db).

(** A computation that keeps an invariant of the store. *)
Definition preserves (P : DB -> Prop) {A : Type} (m : M A) : Prop :=
  forall db, P db -> P (snd (m db)).

(** The time-of-day window [08:00 <= t < 20:00]. *)
Definition in_window (t : time) : bool :=
  time_ge t (time_hm 8 0) && time_lt t (time_hm 20 0).

(** The date rule of the booker paths is broken: the date is before
    today, or it is today and the time is not after now. *)
Definition in_the_past (clk : Clock) (d : date) (tm : time) : bool :=
  date_lt d (today clk)
  || (date_eq d (today clk) && time_le tm (now_time clk)).

(** The booker holds an upcoming appointment. *)
Definition holds_upcoming (db : DB) (clk : Clock) (b : nat) : Prop :=
  exists a, In a (appointments db)
            /\ Appointment.booker a = Some b
            /\ Appointment.upcoming clk a = true.

(** Ascending time of day along a page. *)
Definition time_ascending (page : list Appointment.t) : Prop :=
  StronglySorted
    (fun a b => time_le (Appointment.time a) (Appointment.time b) = true)
    page.

(** Descending creation along a page. *)
Definition creation_descending (page : list Appointment.t) : Prop :=
  StronglySorted
    (fun a b => (Appointment.created_at b <= Appointment.created_at a)%Z)
    page.


(* ================================================================== *)
(** * main_app/permissions.py *)
(* ================================================================== *)

(** [request.user.role_profile]: the role profile of an account, when it
    has one. *)
Definition role_profile (user : nat) (db : DB) : option RoleUser.t :=
  find (fun ru => RoleUser.user ru =? user) (role_users db).

Module IsScheduler.
(** [hasattr(request.user, 'role_profile') and
    request.user.role_profile.role == 'scheduler'] *)
Definition has_permission (user : nat) (db : DB) : bool :=
  match role_profile user db with
  | Some ru =>
      match RoleUser.role ru with
      | role_scheduler => true
      | role_booker => false
      end
  | None => false
  end.
End IsScheduler.

Module IsBooker.
Definition has_permission (user : nat) (db : DB) : bool :=
  match role_profile user db with
  | Some ru =>
      match RoleUser.role ru with
      | role_booker => true
      | role_scheduler => false
      end
  | None => false
  end.
End IsBooker.

(** [get_scheduler] and [get_booker] of the panels:
    [get_object_or_404(Scheduler, owner=role_user)], which is
    [Scheduler.objects.get(owner=role_user)] with [DoesNotExist] turned
    into a 404. *)
Definition get_scheduler (role_user : RoleUser.t) : M Scheduler.t :=
  rows <- gets schedulers ;;
  match filter (fun s => owner_is role_user (Scheduler.owner s)) rows with
  | [] => raise [Http404]
  | [s] => ret s
  | _ :: _ :: _ => raise [MultipleObjectsReturned]
  end.

Definition get_booker (role_user : RoleUser.t) : M Booker.t :=
  rows <- gets bookers ;;
  match filter (fun b => owner_is role_user (Booker.owner b)) rows with
  | [] => raise [Http404]
  | [b] => ret b
  | _ :: _ :: _ => raise [MultipleObjectsReturned]
  end.

(* ================================================================== *)
(** * account_app/api/utils.py *)
(* ================================================================== *)

(** Python's [str] of a non-negative integer: its decimal numeral. *)
Definition str (n : N) : string := NilEmpty.string_of_uint (N.to_uint n).

(** [str(random.randint(100000, 999999))]; [randint] is the number
    drawn. *)
Definition generate_otp (randint : N) : string := str randint.

(* ================================================================== *)
(** * account_app/api/serializers.py *)
(* ================================================================== *)

(** Text is a Rocq string, a character being a code point below 256.
    On these, [str.isdigit] holds of the ten decimal digits and of the
    superscripts one, two and three; the empty string is not a digit
    string. *)
Definition isdigit_char (c : ascii) : bool :=
  let n := nat_of_ascii c in
  ((48 <=? n) && (n <=? 57)) || (n =? 178) || (n =? 179) || (n =? 185).

Fixpoint all_chars (p : ascii -> bool) (s : string) : bool :=
  match s with
  | EmptyString => true
  | String c s' => p c && all_chars p s'
  end.

Definition isdigit (s : string) : bool :=
  match s with
  | EmptyString => false
  | String _ _ => all_chars isdigit_char s
  end.

Definition len (s : string) : nat := String.length s.

(** What [CharField(max_length=n)] hands on to [validate_<field>]: text
    that is not blank and has at most [n] characters. *)
Definition char_field (n : nat) (value : string) : bool :=
  negb (len value =? 0) && (len value <=? n).

(** The errors of the account serializers. *)
Inductive PhoneError : Type :=
| must_be_11_digits   (* "Phone number must be exactly 11 digits." *)
| already_registered  (* "This phone number is already registered." *)
| invalid_format.     (* "Invalid phone number format." *)

(** The accounts: the table of [django.contrib.auth]'s [User], whose
    [username] is unique. *)
Module User.
Record t : Type := mk { id : nat; username : string }.
End User.

(** The whole site: the accounts, the sequences of the tables that the
    registration writes, and the store of main_app. *)
Record Site : Type :=
  mkSite { users : list User.t;
           user_seq : nat;
           role_user_seq : nat;
           scheduler_seq : nat;
           booker_seq : nat;
           store : DB }.

Definition set_store (db : DB) (site : Site) : Site :=
  mkSite (users site) (user_seq site) (role_user_seq site)
         (scheduler_seq site) (booker_seq site) db.

(** [User.objects.create(username=..)]: [None] is the IntegrityError of
    a username that is taken. *)
Definition create_user (username : string) (site : Site)
    : option (User.t * Site) :=
  if existsb (fun u => String.eqb (User.username u) username) (users site)
  then None
  else
    let user := User.mk (user_seq site) username in
    Some (user,
          mkSite (users site ++ [user]) (S (user_seq site))
                 (role_user_seq site) (scheduler_seq site) (booker_seq site)
                 (store site)).

(** [RoleUser.objects.create(user=user, role=..)] *)
Definition create_role_user (user : User.t) (role : Role) (site : Site)
    : RoleUser.t * Site :=
  let db := store site in
  let ru := RoleUser.mk (role_user_seq site) (User.id user) role in
  (ru,
   mkSite (users site) (user_seq site) (S (role_user_seq site))
          (scheduler_seq site) (booker_seq site)
          (mkDB (otps db) (role_users db ++ [ru]) (schedulers db)
                (bookers db) (booker_schedulers db) (appointments db)
                (appointment_seq db))).

(** [Booker.objects.create(owner=role_user, **validated_data)]; [phone]
    is unique in the table. *)
Definition create_booker (owner : RoleUser.t) (phone name family : string)
    (site : Site) : option (Booker.t * Site) :=
  let db := store site in
  if existsb (fun b => String.eqb (Booker.phone b) phone) (bookers db)
  then None
  else
    let b := Booker.mk (booker_seq site) (Some (RoleUser.id owner))
               name family phone in
    Some (b,
          mkSite (users site) (user_seq site) (role_user_seq site)
                 (scheduler_seq site) (S (booker_seq site))
                 (mkDB (otps db) (role_users db) (schedulers db)
                       (bookers db ++ [b]) (booker_schedulers db)
                       (appointments db) (appointment_seq db))).

(** [Scheduler.objects.create(owner=role_user, **validated_data)];
    [is_public_search] takes its default, [True]. *)
Definition create_scheduler (owner : RoleUser.t)
    (phone name family bio : string) (site : Site)
    : option (Scheduler.t * Site) :=
  let db := store site in
  if existsb (fun s => String.eqb (Scheduler.phone s) phone) (schedulers db)
  then None
  else
    let s := Scheduler.mk (scheduler_seq site) (Some (RoleUser.id owner))
               name family phone bio true in
    Some (s,
          mkSite (users site) (user_seq site) (role_user_seq site)
                 (S (scheduler_seq site)) (booker_seq site)
                 (mkDB (otps db) (role_users db) (schedulers db ++ [s])
                       (bookers db) (booker_schedulers db)
                       (appointments db) (appointment_seq db))).

(** The payload of a registration is taken as the fields hand it on:
    text that has passed the checks of [CharField]. *)
Module RegisterBookerWithPhoneSerializer.

Record data : Type := mk { phone : string; name : string; family : string }.

Definition validate_phone (value : string) (db : DB) : list PhoneError :=
  if negb (isdigit value) || negb (len value =? 11)
  then [must_be_11_digits]
  else if exists_ (filter (fun b => String.eqb (Booker.phone b) value)
                     (bookers db))
  then [already_registered]
  else [].

(** [create]: the account, its role profile and the booker profile, in
    that order; an IntegrityError stops it where it is raised. *)
Definition create (d : data) (site : Site) : option Booker.t * Site :=
  match create_user (phone d) site with
  | None => (None, site)
  | Some (user, site1) =>
      let (role_user, site2) := create_role_user user role_booker site1 in
      match create_booker role_user (phone d) (name d) (family d) site2 with
      | None => (None, site2)
      | Some (b, site3) => (Some b, site3)
      end
  end.

End RegisterBookerWithPhoneSerializer.

Module RegisterSchedulerWithPhoneSerializer.

Record data : Type :=
  mk { phone : string; name : string; family : string; bio : string }.

Definition validate_phone (value : string) (db : DB) : list PhoneError :=
  if negb (isdigit value) || negb (len value =? 11)
  then [must_be_11_digits]
  else if exists_ (filter (fun s => String.eqb (Scheduler.phone s) value)
                     (schedulers db))
  then [already_registered]
  else [].

Definition create (d : data) (site : Site) : option Scheduler.t * Site :=
  match create_user (phone d) site with
  | None => (None, site)
  | Some (user, site1) =>
      let (role_user, site2) := create_role_user user role_scheduler site1 in
      match create_scheduler role_user (phone d) (name d) (family d) (bio d)
              site2 with
      | None => (None, site2)
      | Some (s, site3) => (Some s, site3)
      end
  end.

End RegisterSchedulerWithPhoneSerializer.

Module PhoneLoginSerializer.

Definition validate_phone (value : string) : list PhoneError :=
  if negb (isdigit value) || negb (len value =? 11)
  then [invalid_format]
  else [].

End PhoneLoginSerializer.

(* ================================================================== *)
(** * account_app/api/views.py: registration and login *)
(* ================================================================== *)

(** What a registration answers: [{"message": "OTP sent"}], the errors
    of the serializer with status 400, or an IntegrityError that the
    view does not catch. *)
Inductive Registration : Type :=
| otp_sent
| bad_request (errors : list PhoneError)
| integrity_error.

Module RegisterBookerWithPhoneView.

Definition post (clk : Clock) (d : RegisterBookerWithPhoneSerializer.data)
    (randint : N) (site : Site) : Registration * Site :=
  match RegisterBookerWithPhoneSerializer.validate_phone
          (RegisterBookerWithPhoneSerializer.phone d) (store site) with
  | [] =>
      match RegisterBookerWithPhoneSerializer.create d site with
      | (Some _, site') =>
          let code := generate_otp randint in
          (otp_sent,
           set_store
             (snd (create_otp clk (RegisterBookerWithPhoneSerializer.phone d)
                     code (store site'))) site')
      | (None, site') => (integrity_error, site')
      end
  | e :: errors => (bad_request (e :: errors), site)
  end.

End RegisterBookerWithPhoneView.

Module RegisterSchedulerWithPhoneView.

Definition post (clk : Clock) (d : RegisterSchedulerWithPhoneSerializer.data)
    (randint : N) (site : Site) : Registration * Site :=
  match RegisterSchedulerWithPhoneSerializer.validate_phone
          (RegisterSchedulerWithPhoneSerializer.phone d) (store site) with
  | [] =>
      match RegisterSchedulerWithPhoneSerializer.create d site with
      | (Some _, site') =>
          let code := generate_otp randint in
          (otp_sent,
           set_store
             (snd (create_otp clk
                     (RegisterSchedulerWithPhoneSerializer.phone d)
                     code (store site'))) site')
      | (None, site') => (integrity_error, site')
      end
  | e :: errors => (bad_request (e :: errors), site)
  end.

End RegisterSchedulerWithPhoneView.

(** [OTPLoginView.post] with its serializer: [validate_phone] checks the
    format of the phone before the view looks the account up. *)
Definition otp_login (clk : Clock) (phone : string) (randint : N) (db : DB)
    : list PhoneError + Response unit * DB :=
  match PhoneLoginSerializer.validate_phone phone with
  | [] => inr (OTPLoginView.post clk phone (generate_otp randint) db)
  | e :: errors => inl (e :: errors)
  end.

(* ================================================================== *)
(** * What the further properties speak about *)
(* ================================================================== *)

(** The form that the serializers ask of a phone: eleven characters,
    all of them digits. *)
Definition well_formed (phone : string) : bool :=
  isdigit phone && (len phone =? 11).

(** The site after a booker has registered: the account, named after the
    phone, its role profile, the booker profile and the code sent. *)
Definition booker_registered (clk : Clock)
    (d : RegisterBookerWithPhoneSerializer.data) (code : string)
    (site : Site) : Site :=
  let db := store site in
  let phone := RegisterBookerWithPhoneSerializer.phone d in
  mkSite (users site ++ [User.mk (user_seq site) phone])
         (S (user_seq site)) (S (role_user_seq site))
         (scheduler_seq site) (S (booker_seq site))
         (mkDB (otps db ++ [OTP.mk phone code (instant clk)])
               (role_users db
                ++ [RoleUser.mk (role_user_seq site) (user_seq site)
                      role_booker])
               (schedulers db)
               (bookers db
                ++ [Booker.mk (booker_seq site) (Some (role_user_seq site))
                      (RegisterBookerWithPhoneSerializer.name d)
                      (RegisterBookerWithPhoneSerializer.family d) phone])
               (booker_schedulers db) (appointments db)
               (appointment_seq db)).

Definition scheduler_registered (clk : Clock)
    (d : RegisterSchedulerWithPhoneSerializer.data) (code : string)
    (site : Site) : Site :=
  let db := store site in
  let phone := RegisterSchedulerWithPhoneSerializer.phone d in
  mkSite (users site ++ [User.mk (user_seq site) phone])
         (S (user_seq site)) (S (role_user_seq site))
         (S (scheduler_seq site)) (booker_seq site)
         (mkDB (otps db ++ [OTP.mk phone code (instant clk)])
               (role_users db
                ++ [RoleUser.mk (role_user_seq site) (user_seq site)
                      role_scheduler])
               (schedulers db
                ++ [Scheduler.mk (scheduler_seq site)
                      (Some (role_user_seq site))
                      (RegisterSchedulerWithPhoneSerializer.name d)
                      (RegisterSchedulerWithPhoneSerializer.family d) phone
                      (RegisterSchedulerWithPhoneSerializer.bio d) true])
               (bookers db)
               (booker_schedulers db) (appointments db)
               (appointment_seq db)).

(** A decimal digit, ['0'] to ['9']. *)
Definition decimal_digit (c : ascii) : bool :=
  (48 <=? nat_of_ascii c) && (nat_of_ascii c <=? 57).

(** Descending date, then time, along a list. *)
Definition date_time_descending (l : list Appointment.t) : Prop :=
  StronglySorted (fun a b => date_time_desc a b = true) l.

(** The integrity of the accounts: keys, and the keys that rows refer
    to, are below their sequences; usernames, booker phones and scheduler
    phones are unique, and an account has one role profile at most. *)
Definition site_ok (site : Site) : Prop :=
  (forall u, In u (users site) -> User.id u < user_seq site)
  /\ (forall ru, In ru (role_users (store site)) ->
                 RoleUser.id ru < role_user_seq site
                 /\ RoleUser.user ru < user_seq site)
  /\ (forall b, In b (bookers (store site)) ->
                Booker.id b < booker_seq site
                /\ forall k, Booker.owner b = Some k ->
                             k < role_user_seq site)
  /\ (forall s, In s (schedulers (store site)) ->
                Scheduler.id s < scheduler_seq site
                /\ forall k, Scheduler.owner s = Some k ->
                             k < role_user_seq site)
  /\ NoDup (map User.username (users site))
  /\ NoDup (map Booker.phone (bookers (store site)))
  /\ NoDup (map Scheduler.phone (schedulers (store site)))
  /\ NoDup (map RoleUser.user (role_users (store site))).

(** The reading [later] of the local clock is not before the reading
    [clk]. *)
Definition not_before (clk later : Clock) : bool :=
  cmp_le (tuple_cmp (date_key (today clk) ++ time_key (now_time clk))
                    (date_key (today later) ++ time_key (now_time later))).

(** The appointments of a booker, in the order of the table. *)
Definition appointments_of (b : nat) (db : DB) : list Appointment.t :=
  filter (Appointment.has_booker b) (appointments db).

(** From the store [db] to the store [db']: the sequence of the
    appointment table has not gone back, and the appointments of [db']
    under a key that [db] had already handed out bear keys of
    appointments of [db]. *)
Definition keys_from (db db' : DB) : Prop :=
  appointment_seq db <= appointment_seq db'
  /\ forall a, In a (appointments db') ->
               Appointment.id a < appointment_seq db ->
               In (Appointment.id a) (map Appointment.id (appointments db)).

(** From the store [db] to the store [db']: the codes and the role
    profiles are the same, and no scheduler and no booker has come. *)
Definition accounts_kept (db db' : DB) : Prop :=
  otps db' = otps db
  /\ role_users db' = role_users db
  /\ incl (schedulers db') (schedulers db)
  /\ incl (bookers db') (bookers db).

(** The store [db'] is the store [db] with the appointment [a'] written
    over the row of its key: the other rows, the sequence and the other
    tables are as before. *)
Definition rewritten (db db' : DB) (a' : Appointment.t) : Prop :=
  appointments db' = map (written a') (appointments db)
  /\ appointment_seq db' = appointment_seq db
  /\ otps db' = otps db
  /\ role_users db' = role_users db
  /\ schedulers db' = schedulers db
  /\ bookers db' = bookers db
  /\ booker_schedulers db' = booker_schedulers db.

(** The store [db'] is the store [db] with the appointment [a] stored
    under the next key. *)
Definition appended (db db' : DB) (a : Appointment.t) : Prop :=
  appointments db' = (appointments db ++ [a])%list
  /\ Appointment.id a = appointment_seq db
  /\ appointment_seq db' = S (appointment_seq db)
  /\ otps db' = otps db
  /\ role_users db' = role_users db
  /\ schedulers db' = schedulers db
  /\ bookers db' = bookers db
  /\ booker_schedulers db' = booker_schedulers db.

(* ================================================================== *)
(** * A sample store *)
(* ================================================================== *)

(** One scheduler, Alice Smith, and one booker, John Doe, who has her in
    his roster and holds appointment 1 with her tomorrow at 10:00.  The
    clock reads 09:00 on 10 June 2025. *)
Definition june (d : nat) : date := mkdate 2025 6 d.

Definition sample_clock : Clock :=
  mkClock 1749546000000000 (june 10) (time_hm 9 0).

Definition alice : Scheduler.t :=
  Scheduler.mk 1 (Some 1) "Alice" "Smith" "09987654321" "Scheduler bio" true.

Definition john : Booker.t :=
  Booker.mk 1 (Some 2) "John" "Doe" "09123456789".

Definition appointment_1 : Appointment.t :=
  Appointment.mk 1 1 (Some 1) "" (june 11) (time_hm 10 0) None
    1749540000000000.

Definition sample_db : DB :=
  mkDB []
       [RoleUser.mk 1 10 role_scheduler; RoleUser.mk 2 20 role_booker]
       [alice] [john] [(1, 1)] [appointment_1] 2.

(** The same store with a second appointment of Alice, a walk-in at
    11:00 on the same day, entered an hour after the first. *)
Definition appointment_2 : Appointment.t :=
  Appointment.mk 2 1 None "Walk-in" (june 11) (time_hm 11 0) None
    1749543600000000.

Definition two_appointments : DB :=
  mkDB []
       [RoleUser.mk 1 10 role_scheduler; RoleUser.mk 2 20 role_booker]
       [alice] [john] [(1, 1)] [appointment_1; appointment_2] 3.

(** John logs in at the sample reading of the clock and is sent the code
    654321; [four_minutes_later] is the reading four minutes after. *)
Definition code_sent : DB :=
  snd (OTPLoginView.post sample_clock "09123456789" "654321" sample_db).

Definition four_minutes_later : Clock :=
  mkClock (instant sample_clock + 4 * 60 * 1000000) (june 10) (time_hm 9 4).

(** The sample store with a second booker, Mary Major, who has Alice in
    her roster and no appointment. *)
Definition mary : Booker.t :=
  Booker.mk 2 (Some 3) "Mary" "Major" "09120000000".

Definition with_mary : DB :=
  mkDB []
       [RoleUser.mk 1 10 role_scheduler; RoleUser.mk 2 20 role_booker;
        RoleUser.mk 3 30 role_booker]
       [alice] [john; mary] [(1, 1); (2, 1)] [appointment_1] 2.

(** The store of the two appointments with a third one, a walk-in that
    Alice entered for today at 08:30, half an hour before the sample
    reading of the clock. *)
Definition appointment_3 : Appointment.t :=
  Appointment.mk 3 1 None "Early bird" (june 10) (time_hm 8 30) None
    1749544000000000.

Definition three_appointments : DB :=
  mkDB []
       [RoleUser.mk 1 10 role_scheduler; RoleUser.mk 2 20 role_booker]
       [alice] [john] [(1, 1)]
       [appointment_1; appointment_2; appointment_3] 4.

(** The accounts behind the sample store: Alice's account 10 and John's
    account 20, each named after its phone. *)
Definition sample_site : Site :=
  mkSite [User.mk 10 "09987654321"; User.mk 20 "09123456789"] 21 3 2 2
         sample_db.

(** A site with no account and an empty store. *)
Definition empty_site : Site := mkSite [] 1 1 1 1 empty_db.

(** Mary asks for Alice on 12 June at 10:00. *)
Definition mary_reserves : BookerAppointmentCreateSerializer.data :=
  BookerAppointmentCreateSerializer.mk (june 12) (time_hm 10 0) 1 None.

(** The reading of the clock two days after the sample one. *)
Definition two_days_later : Clock :=
  mkClock (instant sample_clock + 2 * 24 * 3600 * 1000000) (june 12)
    (time_hm 9 0).

(** The admin books John with Alice on 12 June at 10:00. *)
Definition admin_books : AppointmentCreateSerializer.data :=
  AppointmentCreateSerializer.mk 1 (june 12) (time_hm 10 0) 1 None.

(** A new note for an appointment, and nothing else. *)
Definition note_only : PartialData :=
  mkPartial None None (Some (Some "Bring the documents")).
(* ================================================================== *)
(** * Comparison of dates and times *)
(* ================================================================== *)

Lemma tuple_cmp_refl (x : list nat) : tuple_cmp x x = Eq.
Proof.
  induction x as [|a x IH]; simpl; [reflexivity|].
  now rewrite Nat.compare_refl.
Qed.

Lemma tuple_cmp_eq (x y : list nat) : tuple_cmp x y = Eq -> x = y.
Proof.
  revert y; induction x as [|a x IH]; intros [|b y]; simpl;
    try discriminate; [reflexivity|].
  destruct (Nat.compare_spec a b); try discriminate.
  intros H'; subst; f_equal; auto.
Qed.

Lemma tuple_cmp_antisym (x y : list nat) :
  tuple_cmp y x = CompOpp (tuple_cmp x y).
Proof.
  revert y; induction x as [|a x IH]; intros [|b y]; simpl; try reflexivity.
  rewrite (Nat.compare_antisym a b).
  destruct (Nat.compare a b); simpl; auto.
Qed.

Lemma tuple_cmp_lt_trans (x y z : list nat) :
  tuple_cmp x y = Lt -> tuple_cmp y z = Lt -> tuple_cmp x z = Lt.
Proof.
  revert y z; induction x as [|a x IH]; intros [|b y] [|c z]; simpl;
    try discriminate; try reflexivity.
  destruct (Nat.compare_spec a b), (Nat.compare_spec b c);
    try discriminate; intros H1 H2; subst.
  - rewrite Nat.compare_refl; eauto.
  - now apply Nat.compare_lt_iff in H0 as ->.
  - now apply Nat.compare_lt_iff in H as ->.
  - assert (a < c) as L by lia. now apply Nat.compare_lt_iff in L as ->.
Qed.

Lemma tuple_cmp_le_trans (x y z : list nat) :
  cmp_le (tuple_cmp x y) = true -> cmp_le (tuple_cmp y z) = true ->
  cmp_le (tuple_cmp x z) = true.
Proof.
  destruct (tuple_cmp x y) eqn:E1; try discriminate;
    destruct (tuple_cmp y z) eqn:E2; try discriminate; intros _ _.
  - apply tuple_cmp_eq in E1, E2; subst. now rewrite tuple_cmp_refl.
  - apply tuple_cmp_eq in E1; subst. now rewrite E2.
  - apply tuple_cmp_eq in E2; subst. now rewrite E1.
  - now rewrite (tuple_cmp_lt_trans _ _ _ E1 E2).
Qed.

Lemma date_eq_true (a b : date) : date_eq a b = true <-> a = b.
Proof.
  unfold date_eq, date_cmp; split.
  - destruct (tuple_cmp (date_key a) (date_key b)) eqn:E; try discriminate.
    intros _; apply tuple_cmp_eq in E.
    destruct a, b; unfold date_key in E; simpl in E. congruence.
  - intros ->. now rewrite tuple_cmp_refl.
Qed.

Lemma time_eq_true (a b : time) : time_eq a b = true <-> a = b.
Proof.
  unfold time_eq, time_cmp; split.
  - destruct (tuple_cmp (time_key a) (time_key b)) eqn:E; try discriminate.
    intros _; apply tuple_cmp_eq in E.
    destruct a, b; unfold time_key in E; simpl in E. congruence.
  - intros ->. now rewrite tuple_cmp_refl.
Qed.

Lemma date_eq_refl (a : date) : date_eq a a = true.
Proof. now apply date_eq_true. Qed.

Lemma time_eq_refl (a : time) : time_eq a a = true.
Proof. now apply time_eq_true. Qed.

(** [a < b] is the negation of [a >= b], and so on. *)
Lemma time_lt_ge (a b : time) : time_lt a b = negb (time_ge a b).
Proof. unfold time_lt, time_ge; now destruct (time_cmp a b). Qed.

Lemma time_gt_le (a b : time) : time_gt a b = negb (time_le a b).
Proof. unfold time_gt, time_le; now destruct (time_cmp a b). Qed.

Lemma time_ge_le (a b : time) : time_ge a b = time_le b a.
Proof.
  unfold time_ge, time_le, time_cmp.
  rewrite (tuple_cmp_antisym (time_key a) (time_key b)).
  now destruct (tuple_cmp (time_key a) (time_key b)).
Qed.

Lemma time_le_total (a b : time) : time_le a b = false -> time_le b a = true.
Proof.
  rewrite <- (time_ge_le a b). unfold time_le, time_ge.
  now destruct (time_cmp a b).
Qed.

Lemma time_le_trans (a b c : time) :
  time_le a b = true -> time_le b c = true -> time_le a c = true.
Proof. apply tuple_cmp_le_trans. Qed.

Lemma date_trichotomy (a b : date) :
  (date_lt a b = true /\ date_eq a b = false /\ date_gt a b = false)
  \/ (date_lt a b = false /\ date_eq a b = true /\ date_gt a b = false)
  \/ (date_lt a b = false /\ date_eq a b = false /\ date_gt a b = true).
Proof.
  unfold date_lt, date_eq, date_gt; destruct (date_cmp a b); simpl; auto.
Qed.

(** Upcoming and Past are complementary. *)
Lemma upcoming_not_past (clk : Clock) (a : Appointment.t) :
  Appointment.upcoming clk a = negb (Appointment.past clk a).
Proof.
  unfold Appointment.upcoming, Appointment.past.
  rewrite time_gt_le.
  destruct (date_trichotomy (Appointment.date a) (today clk))
    as [(-> & -> & ->)|[(-> & -> & ->)|(-> & -> & ->)]]; simpl; auto.
Qed.

(** An upcoming appointment is not in the past in the sense of the date
    rule, and conversely. *)
Lemma upcoming_in_the_past (clk : Clock) (a : Appointment.t) :
  Appointment.upcoming clk a
  = negb (in_the_past clk (Appointment.date a) (Appointment.time a)).
Proof. apply upcoming_not_past. Qed.

Lemma in_window_validate_time (t : time) :
  AppointmentCreateSerializer.validate_time t
  = if in_window t then [] else [InvalidTimeWindow].
Proof.
  unfold AppointmentCreateSerializer.validate_time, in_window.
  rewrite (time_lt_ge t (time_hm 8 0)).
  destruct (time_ge t (time_hm 8 0)); simpl; [|reflexivity].
  rewrite (time_lt_ge t (time_hm 20 0)).
  now destruct (time_ge t (time_hm 20 0)).
Qed.

Lemma in_window_validate_time_update (t : time) :
  BookerPanelUpdateAppointmentProfileSerializer.validate_time t
  = if in_window t then [] else [InvalidTimeWindow].
Proof. apply in_window_validate_time. Qed.

Lemma same_slot_true (s : nat) (d : date) (tm : time) (a : Appointment.t) :
  Appointment.same_slot s d tm a = true <-> slot a = (s, d, tm).
Proof.
  unfold Appointment.same_slot, slot.
  rewrite !andb_true_iff, Nat.eqb_eq, date_eq_true, time_eq_true.
  split; [intros [[-> ->] ->]; reflexivity|].
  intros H; inversion H; auto.
Qed.

Lemma same_slot_self (a : Appointment.t) :
  Appointment.same_slot (Appointment.scheduler a) (Appointment.date a)
    (Appointment.time a) a = true.
Proof. now apply same_slot_true. Qed.

(* ================================================================== *)
(** * Querysets *)
(* ================================================================== *)

Lemma exists_filter {A : Type} (f : A -> bool) (l : list A) :
  exists_ (filter f l) = existsb f l.
Proof.
  induction l as [|x l IH]; simpl; [reflexivity|].
  destruct (f x); simpl; auto.
Qed.

Lemma exists_false {A : Type} (l : list A) : exists_ l = false -> l = [].
Proof. destruct l; [reflexivity|discriminate]. Qed.

Lemma taken_exists (db : DB) (s : nat) (d : date) (tm : time) :
  taken db s d tm <-> exists_ (appointments_at s d tm db) = true.
Proof.
  unfold taken, appointments_at. rewrite exists_filter, existsb_exists.
  split; intros (a & Ha & Hs); exists a; split; auto;
    now apply same_slot_true.
Qed.

Lemma insert_by_in {A : Type} (le : A -> A -> bool) (x y : A) (l : list A) :
  In y (insert_by le x l) <-> y = x \/ In y l.
Proof.
  induction l as [|z l IH]; simpl.
  - intuition congruence.
  - destruct (le x z); simpl; [intuition congruence|].
    rewrite IH. intuition congruence.
Qed.

Lemma order_by_in {A : Type} (le : A -> A -> bool) (y : A) (l : list A) :
  In y (order_by le l) <-> In y l.
Proof.
  induction l as [|x l IH]; simpl; [tauto|].
  rewrite insert_by_in, IH. intuition congruence.
Qed.

Lemma order_by_exists {A : Type} (le : A -> A -> bool) (l : list A) :
  exists_ (order_by le l) = exists_ l.
Proof.
  destruct l as [|x l]; simpl; [reflexivity|].
  destruct (insert_by le x (order_by le l)) eqn:E; [|reflexivity].
  assert (In x []) as [] by (rewrite <- E; apply insert_by_in; auto).
Qed.

Lemma insert_by_length {A : Type} (le : A -> A -> bool) (x : A) (l : list A) :
  List.length (insert_by le x l) = S (List.length l).
Proof.
  induction l as [|z l IH]; simpl; [reflexivity|].
  destruct (le x z); simpl; auto.
Qed.

Section Sorting.
Context {A : Type} (le : A -> A -> bool).
Hypothesis le_total : forall x y, le x y = false -> le y x = true.
Hypothesis le_trans :
  forall x y z, le x y = true -> le y z = true -> le x z = true.

Let R (x y : A) : Prop := le x y = true.

Lemma insert_by_sorted (x : A) (l : list A) :
  StronglySorted R l -> StronglySorted R (insert_by le x l).
Proof.
  induction 1 as [|y l Hl IH Hy]; simpl.
  - constructor; constructor.
  - destruct (le x y) eqn:E.
    + constructor; [constructor; assumption|].
      constructor; [exact E|].
      rewrite Forall_forall in *; intros z Hz.
      unfold R; eapply le_trans; [exact E|]. now apply Hy.
    + constructor; [assumption|].
      rewrite Forall_forall in *; intros z Hz.
      apply insert_by_in in Hz as [->|Hz]; [|now apply Hy].
      now apply le_total.
Qed.

Lemma order_by_sorted (l : list A) : StronglySorted R (order_by le l).
Proof.
  induction l as [|x l IH]; simpl; [constructor|].
  now apply insert_by_sorted.
Qed.
End Sorting.

Section SortedLists.
Context {A : Type} (R : A -> A -> Prop).

Lemma sorted_filter (f : A -> bool) (l : list A) :
  StronglySorted R l -> StronglySorted R (filter f l).
Proof.
  induction 1 as [|x l Hl IH Hx]; simpl; [constructor|].
  destruct (f x); [|assumption].
  constructor; [assumption|].
  rewrite Forall_forall in *; intros y Hy.
  apply filter_In in Hy as [Hy _]. now apply Hx.
Qed.

Lemma sorted_skipn (n : nat) (l : list A) :
  StronglySorted R l -> StronglySorted R (skipn n l).
Proof.
  intros H; revert n; induction H as [|x l Hl IH Hx]; intros [|n]; simpl;
    try constructor; auto.
Qed.

Lemma sorted_firstn (n : nat) (l : list A) :
  StronglySorted R l -> StronglySorted R (firstn n l).
Proof.
  intros H; revert n; induction H as [|x l Hl IH Hx]; intros [|n]; simpl;
    try constructor; auto.
  rewrite Forall_forall in *; intros y Hy.
  apply Hx. revert Hy. clear. revert n.
  induction l as [|z l IH]; intros [|n]; simpl; try tauto.
  intros [->|H]; eauto.
Qed.

Lemma sorted_app_one (l : list A) (x : A) :
  StronglySorted R l -> Forall (fun y => R y x) l ->
  StronglySorted R (l ++ [x]).
Proof.
  induction 1 as [|y l Hl IH Hy]; simpl; intros F.
  - constructor; constructor.
  - inversion F; subst. constructor; [auto|].
    apply Forall_app; split; [assumption|]. now constructor.
Qed.

(** Reversing a list sorted for the flipped relation. *)
Lemma sorted_rev (l : list A) :
  StronglySorted (fun x y => R y x) l -> StronglySorted R (rev l).
Proof.
  induction 1 as [|x l Hl IH Hx]; simpl; [constructor|].
  apply sorted_app_one; [assumption|].
  rewrite Forall_forall in *; intros y Hy.
  apply Hx. now apply in_rev.
Qed.
End SortedLists.

(* ================================================================== *)
(** * The appointment table stays sound *)
(* ================================================================== *)

Ltac run :=
  unfold bind, ret, raise, gets, modify, raise_if_any in *; simpl in *.

Lemma NoDup_snoc {A : Type} (l : list A) (x : A) :
  NoDup l -> ~ In x l -> NoDup (l ++ [x]).
Proof.
  induction 1 as [|y l Hy Hl IH]; simpl; intros Hx.
  - constructor; [intros []|constructor].
  - constructor.
    + rewrite in_app_iff; simpl. intros [H|[H|[]]]; [auto|subst; auto].
    + apply IH; auto.
Qed.

Lemma NoDup_map_filter {A B : Type} (g : A -> B) (f : A -> bool)
    (l : list A) :
  NoDup (map g l) -> NoDup (map g (filter f l)).
Proof.
  induction l as [|x l IH]; simpl; intros H; [constructor|].
  inversion H as [|? ? Hx Hl]; subst.
  destruct (f x); simpl; auto.
  constructor; auto.
  rewrite in_map_iff in *. intros (y & Hy & Hin).
  apply filter_In in Hin as [Hin _]. eauto.
Qed.

Lemma rows_ok_snoc (rows : list Appointment.t) (seq : nat)
    (a : Appointment.t) :
  rows_ok rows seq -> Appointment.id a = seq ->
  ~ In (slot a) (map slot rows) ->
  rows_ok (rows ++ [a]) (S seq).
Proof.
  intros (Hid & Hlt & Hslot) Ha Hfree. repeat split.
  - rewrite map_app; simpl. apply NoDup_snoc; [assumption|].
    rewrite in_map_iff. intros (x & Hx & Hin).
    apply Hlt in Hin. lia.
  - intros x Hx. apply in_app_iff in Hx as [Hx|[<-|[]]].
    + apply Hlt in Hx. lia.
    + lia.
  - rewrite map_app; simpl. now apply NoDup_snoc.
Qed.

Lemma rows_ok_filter (f : Appointment.t -> bool)
    (rows : list Appointment.t) (seq : nat) :
  rows_ok rows seq -> rows_ok (filter f rows) seq.
Proof.
  intros (Hid & Hlt & Hslot). repeat split.
  - now apply NoDup_map_filter.
  - intros x Hx. apply filter_In in Hx as [Hx _]. auto.
  - now apply NoDup_map_filter.
Qed.

Lemma written_id (a : Appointment.t) (rows : list Appointment.t) :
  map Appointment.id (map (written a) rows) = map Appointment.id rows.
Proof.
  rewrite map_map. apply map_ext. intros x. unfold written.
  destruct (Appointment.id x =? Appointment.id a) eqn:E; [|reflexivity].
  apply Nat.eqb_eq in E. congruence.
Qed.

Lemma written_absent (a : Appointment.t) (rows : list Appointment.t) :
  ~ In (Appointment.id a) (map Appointment.id rows) ->
  map (written a) rows = rows.
Proof.
  induction rows as [|x rows IH]; simpl; intros H; [reflexivity|].
  unfold written at 1.
  destruct (Appointment.id x =? Appointment.id a) eqn:E.
  - apply Nat.eqb_eq in E. exfalso; auto.
  - f_equal. apply IH. tauto.
Qed.

Lemma written_slots (a : Appointment.t) (rows : list Appointment.t) :
  NoDup (map Appointment.id rows) ->
  NoDup (map slot rows) ->
  (forall x, In x rows -> Appointment.id x <> Appointment.id a ->
             slot x <> slot a) ->
  NoDup (map slot (map (written a) rows)).
Proof.
  induction rows as [|x rows IH]; simpl; intros Hid Hslot Hfree;
    [constructor|].
  inversion Hid as [|? ? Hx Hids]; inversion Hslot as [|? ? Hsx Hslots];
    subst.
  unfold written at 1.
  destruct (Appointment.id x =? Appointment.id a) eqn:E.
  - apply Nat.eqb_eq in E. rewrite written_absent by congruence.
    constructor; [|assumption].
    rewrite in_map_iff. intros (y & Hy & Hin).
    apply (Hfree y); auto.
    intros Heq. apply Hx. rewrite E, <- Heq. now apply in_map.
  - apply Nat.eqb_neq in E. constructor; [|apply IH; auto].
    rewrite in_map_iff. intros (y & Hy & Hin).
    apply in_map_iff in Hin as (z & <- & Hz). unfold written in Hy.
    destruct (Appointment.id z =? Appointment.id a).
    + apply (Hfree x); auto.
    + apply Hsx. rewrite <- Hy. now apply in_map.
Qed.

Lemma rows_ok_written (a : Appointment.t) (rows : list Appointment.t)
    (seq : nat) :
  rows_ok rows seq ->
  exists_ (filter (fun x => negb (Appointment.id x =? Appointment.id a))
             (filter (Appointment.same_slot (Appointment.scheduler a)
                        (Appointment.date a) (Appointment.time a)) rows))
  = false ->
  rows_ok (map (written a) rows) seq.
Proof.
  intros (Hid & Hlt & Hslot) Hfree. repeat split.
  - now rewrite written_id.
  - intros x Hx.
    assert (In (Appointment.id x) (map Appointment.id rows)) as Hin
      by (rewrite <- (written_id a); now apply in_map).
    apply in_map_iff in Hin as (y & <- & Hy). auto.
  - apply written_slots; auto.
    intros x Hx Hne Heq. apply exists_false in Hfree.
    assert (In x []) as []. rewrite <- Hfree.
    apply filter_In; split.
    + apply filter_In; split; [assumption|]. now apply same_slot_true.
    + apply negb_true_iff. now apply Nat.eqb_neq.
Qed.

Lemma save_appointment_eq (a : Appointment.t) (db : DB) :
  save_appointment a db
  = if exists_ (filter (fun x => negb (Appointment.id x =? Appointment.id a))
                  (appointments_at (Appointment.scheduler a)
                     (Appointment.date a) (Appointment.time a) db))
    then (Raise [IntegrityError], db)
    else (Ok tt, set_appointments (map (written a) (appointments db)) db).
Proof.
  unfold save_appointment, appointments_at. run.
  now destruct (exists_ _).
Qed.

(** What the writes do to the appointment table. *)
Lemma insert_table_ok (row : nat -> Appointment.t) :
  (forall pk, Appointment.id (row pk) = pk) ->
  preserves table_ok (insert_appointment row).
Proof.
  intros Hrow db H. unfold insert_appointment. run.
  destruct (exists_ _) eqn:E; simpl; [exact H|].
  unfold table_ok; simpl. apply rows_ok_snoc; auto.
  rewrite in_map_iff. intros (x & Hx & Hin).
  apply exists_false in E.
  assert (In x []) as []. rewrite <- E.
  apply filter_In; split; [assumption|]. now apply same_slot_true.
Qed.

Lemma save_table_ok (a : Appointment.t) :
  preserves table_ok (save_appointment a).
Proof.
  intros db H. rewrite save_appointment_eq.
  destruct (exists_ _) eqn:E; simpl; [exact H|].
  unfold table_ok; simpl. now apply rows_ok_written.
Qed.

Lemma delete_table_ok (a : Appointment.t) :
  preserves table_ok (delete_appointment a).
Proof.
  intros db H. unfold delete_appointment. run.
  unfold table_ok; simpl. now apply rows_ok_filter.
Qed.

Lemma delete_scheduler_table_ok (pk : nat) :
  preserves table_ok (modify (delete_scheduler pk)).
Proof. intros db H. unfold table_ok; simpl. now apply rows_ok_filter. Qed.

Lemma delete_booker_table_ok (pk : nat) :
  preserves table_ok (modify (delete_booker pk)).
Proof. intros db H. unfold table_ok; simpl. now apply rows_ok_filter. Qed.

Lemma schedulers_add_table_ok (b s : nat) :
  preserves table_ok (schedulers_add b s).
Proof.
  intros db H. unfold schedulers_add. run.
  now destruct (existsb _ _).
Qed.

(** What the writes do to the roster. *)
Lemma insert_roster_ok (row : nat -> Appointment.t) :
  preserves roster_ok (insert_appointment row).
Proof.
  intros db H. unfold insert_appointment. run.
  now destruct (exists_ _).
Qed.

Lemma save_roster_ok (a : Appointment.t) :
  preserves roster_ok (save_appointment a).
Proof.
  intros db H. rewrite save_appointment_eq.
  now destruct (exists_ _).
Qed.

Lemma delete_roster_ok (a : Appointment.t) :
  preserves roster_ok (delete_appointment a).
Proof. intros db H. exact H. Qed.

Lemma delete_scheduler_roster_ok (pk : nat) :
  preserves roster_ok (modify (delete_scheduler pk)).
Proof. intros db H. unfold roster_ok; simpl. now apply NoDup_filter. Qed.

Lemma delete_booker_roster_ok (pk : nat) :
  preserves roster_ok (modify (delete_booker pk)).
Proof. intros db H. unfold roster_ok; simpl. now apply NoDup_filter. Qed.

Lemma joined_true (b s : nat) (row : nat * nat) :
  joined b s row = true <-> row = (b, s).
Proof.
  unfold joined. destruct row as [x y]; simpl.
  rewrite andb_true_iff, !Nat.eqb_eq.
  split; [intros [-> ->]|intros [= -> ->]]; auto.
Qed.

Lemma not_joined (b s : nat) (rows : list (nat * nat)) :
  existsb (joined b s) rows = false -> ~ In (b, s) rows.
Proof.
  intros E Hin.
  assert (existsb (joined b s) rows = true) as E'
    by (apply existsb_exists; eexists; split; eauto; now apply joined_true).
  congruence.
Qed.

Lemma schedulers_add_roster_ok (b s : nat) :
  preserves roster_ok (schedulers_add b s).
Proof.
  intros db H. unfold schedulers_add. run.
  destruct (existsb _ _) eqn:E; simpl; [exact H|].
  unfold roster_ok; simpl. apply NoDup_snoc; [exact H|].
  now apply not_joined.
Qed.

(** An invariant that the six writes keep is kept by every request. *)
Section Invariant.
Variable P : DB -> Prop.
Hypothesis P_insert :
  forall row, (forall pk, Appointment.id (row pk) = pk) ->
              preserves P (insert_appointment row).
Hypothesis P_save : forall a, preserves P (save_appointment a).
Hypothesis P_delete : forall a, preserves P (delete_appointment a).
Hypothesis P_delete_scheduler :
  forall pk, preserves P (modify (delete_scheduler pk)).
Hypothesis P_delete_booker :
  forall pk, preserves P (modify (delete_booker pk)).
Hypothesis P_add : forall b s, preserves P (schedulers_add b s).

Lemma preserves_ret {A : Type} (a : A) : preserves P (ret a).
Proof. intros db H; exact H. Qed.

Lemma preserves_raise {A : Type} (e : list Error) :
  preserves P (@raise A e).
Proof. intros db H; exact H. Qed.

Lemma preserves_gets {A : Type} (f : DB -> A) : preserves P (gets f).
Proof. intros db H; exact H. Qed.

Lemma preserves_bind {A B : Type} (m : M A) (k : A -> M B) :
  preserves P m -> (forall a, preserves P (k a)) -> preserves P (bind m k).
Proof.
  intros Hm Hk db H. unfold bind. specialize (Hm db H).
  destruct (m db) as [[a|e] db']; simpl in *; [now apply Hk|assumption].
Qed.

Lemma preserves_raise_if_any (errs : list Error) :
  preserves P (raise_if_any errs).
Proof. destruct errs; [apply preserves_ret|apply preserves_raise]. Qed.

Lemma preserves_get_or_404 (pk : nat) :
  preserves P (get_appointment_or_404 pk).
Proof.
  intros db H. unfold get_appointment_or_404. run.
  now destruct (find _ _).
Qed.

Lemma preserves_get_of_or_404 (pk s : nat) :
  preserves P (get_appointment_of_or_404 pk s).
Proof.
  intros db H. unfold get_appointment_of_or_404. run.
  now destruct (find _ _).
Qed.

Ltac pres :=
  repeat first
    [ apply preserves_ret | apply preserves_raise | apply preserves_gets
    | apply preserves_raise_if_any | apply P_save | apply P_delete
    | apply P_delete_scheduler | apply P_delete_booker | apply P_add
    | apply preserves_get_or_404 | apply preserves_get_of_or_404
    | apply P_insert; intros; reflexivity
    | apply preserves_bind; [|intros ?]
    | match goal with
      | |- preserves P (if ?c then _ else _) => destruct c
      | |- preserves P (match ?x with _ => _ end) => destruct x
      end ].

Lemma preserves_admin_create (clk : Clock)
    (d : AppointmentCreateSerializer.data) :
  preserves P (AdminPanelViewSet.create_appointment clk d).
Proof.
  unfold AdminPanelViewSet.create_appointment,
    AppointmentCreateSerializer.is_valid, AppointmentCreateSerializer.validate,
    AppointmentCreateSerializer.save.
  pres.
Qed.

Lemma preserves_admin_put (pk : nat) (d : PartialData) :
  preserves P (AdminPanelViewSet.appointment_detail_put pk d).
Proof.
  unfold AdminPanelViewSet.appointment_detail_put,
    AppointmentDetailSerializer.is_valid, AppointmentDetailSerializer.save.
  pres.
Qed.

Lemma preserves_admin_delete (pk : nat) :
  preserves P (AdminPanelViewSet.appointment_detail_delete pk).
Proof. unfold AdminPanelViewSet.appointment_detail_delete. pres. Qed.

Lemma preserves_admin_delete_scheduler (pk : nat) :
  preserves P (AdminPanelViewSet.scheduler_detail_delete pk).
Proof. unfold AdminPanelViewSet.scheduler_detail_delete. pres. Qed.

Lemma preserves_admin_delete_booker (pk : nat) :
  preserves P (AdminPanelViewSet.booker_detail_delete pk).
Proof. unfold AdminPanelViewSet.booker_detail_delete. pres. Qed.

Lemma preserves_manage (clk : Clock) (s : nat)
    (action : SchedulerPanelViewSet.Action) :
  preserves P (SchedulerPanelViewSet.manage_appointments clk s action).
Proof.
  unfold SchedulerPanelViewSet.manage_appointments,
    SchedulerPanelViewSet.rendered,
    SchedulerPanelAppointmentCreateSerializer.is_valid,
    SchedulerPanelAppointmentCreateSerializer.validate,
    SchedulerPanelAppointmentCreateSerializer.save,
    SchedulerPanelAppointmentUpdateSerializer.is_valid,
    SchedulerPanelAppointmentUpdateSerializer.validate,
    SchedulerPanelAppointmentUpdateSerializer.save.
  destruct action; pres.
Qed.

Lemma preserves_booker_update (clk : Clock) (b : nat) (d : PartialData) :
  preserves P (BookerPanelViewSet.update_my_appointment clk b d).
Proof.
  unfold BookerPanelViewSet.update_my_appointment,
    BookerPanelUpdateAppointmentProfileSerializer.is_valid,
    BookerPanelUpdateAppointmentProfileSerializer.validate,
    BookerPanelUpdateAppointmentProfileSerializer.save.
  pres.
Qed.

Lemma preserves_reserve (clk : Clock) (b : nat)
    (d : BookerAppointmentCreateSerializer.data) :
  preserves P (BookerPanelViewSet.reserve_appointment clk b d).
Proof.
  unfold BookerPanelViewSet.reserve_appointment,
    BookerAppointmentCreateSerializer.is_valid,
    BookerAppointmentCreateSerializer.scheduler_field,
    BookerAppointmentCreateSerializer.validate,
    BookerAppointmentCreateSerializer.save.
  pres.
Qed.

Lemma preserves_add_scheduler (b : nat) (c : string) :
  preserves P (BookerPanelViewSet.add_scheduler b c).
Proof.
  unfold BookerPanelViewSet.add_scheduler,
    AddSchedulerSerializer.validate_scheduler_code,
    AddSchedulerSerializer.save.
  pres.
Qed.

Lemma handle_preserves (clk : Clock) (r : Request) (db : DB) :
  P db -> P (handle clk r db).
Proof.
  destruct r; simpl.
  - apply preserves_admin_create.
  - apply preserves_admin_put.
  - apply preserves_admin_delete.
  - apply preserves_admin_delete_scheduler.
  - apply preserves_admin_delete_booker.
  - apply preserves_manage.
  - apply preserves_booker_update.
  - apply preserves_reserve.
  - apply preserves_add_scheduler.
Qed.

Lemma serve_preserves (history : list (Clock * Request)) (db : DB) :
  P db -> P (serve history db).
Proof.
  revert db; induction history as [|[clk r] rest IH]; intros db H; simpl;
    [assumption|].
  apply IH. now apply handle_preserves.
Qed.
End Invariant.

Lemma serve_ok (history : list (Clock * Request)) (db : DB) :
  table_ok db -> table_ok (serve history db).
Proof.
  apply serve_preserves.
  - apply insert_table_ok.
  - apply save_table_ok.
  - apply delete_table_ok.
  - apply delete_scheduler_table_ok.
  - apply delete_booker_table_ok.
  - apply schedulers_add_table_ok.
Qed.

Lemma serve_roster_ok (history : list (Clock * Request)) (db : DB) :
  roster_ok db -> roster_ok (serve history db).
Proof.
  apply serve_preserves.
  - intros row _. apply insert_roster_ok.
  - apply save_roster_ok.
  - apply delete_roster_ok.
  - apply delete_scheduler_roster_ok.
  - apply delete_booker_roster_ok.
  - apply schedulers_add_roster_ok.
Qed.

Lemma empty_db_ok : table_ok empty_db.
Proof.
  unfold table_ok, rows_ok; simpl.
  repeat split; try constructor. simpl; tauto.
Qed.

(** At most one row holds a slot when slots are unique. *)
Lemma at_most_one (rows : list Appointment.t) (s : nat) (d : date)
    (tm : time) :
  NoDup (map slot rows) ->
  List.length (filter (Appointment.same_slot s d tm) rows) <= 1.
Proof.
  induction rows as [|x rows IH]; simpl; intros H; [lia|].
  inversion H as [|? ? Hx Hrows]; subst.
  destruct (Appointment.same_slot s d tm x) eqn:E; simpl; [|auto].
  apply same_slot_true in E.
  destruct (filter (Appointment.same_slot s d tm) rows) as [|y l] eqn:F;
    simpl; [lia|].
  exfalso. apply Hx.
  assert (In y (filter (Appointment.same_slot s d tm) rows)) as Hy
    by (rewrite F; now left).
  apply filter_In in Hy as [Hy Hs]. apply same_slot_true in Hs.
  rewrite E, <- Hs. now apply in_map.
Qed.

(* ================================================================== *)
(** * The views, case by case *)
(* ================================================================== *)

Lemma insert_appointment_eq (row : nat -> Appointment.t) (db : DB) :
  insert_appointment row db
  = let a := row (appointment_seq db) in
    if exists_ (appointments_at (Appointment.scheduler a)
                  (Appointment.date a) (Appointment.time a) db)
    then (Raise [IntegrityError], db)
    else (Ok a,
          mkDB (otps db) (role_users db) (schedulers db) (bookers db)
               (booker_schedulers db) (appointments db ++ [a])
               (S (appointment_seq db))).
Proof.
  unfold insert_appointment, appointments_at. run.
  now destruct (exists_ _).
Qed.

Lemma unique_together_validator_eq (s : nat) (d : date) (tm : time)
    (db : DB) :
  unique_together_validator s d tm db
  = if exists_ (appointments_at s d tm db)
    then (Raise [SlotAlreadyBooked], db) else (Ok tt, db).
Proof.
  unfold unique_together_validator. run. now destruct (exists_ _).
Qed.

(** The fields of the admin's creation pass exactly when the two keys
    name stored rows and the time lies in the window. *)
Lemma admin_fields_pass (d : AppointmentCreateSerializer.data) (db : DB) :
  AppointmentCreateSerializer.field_errors d db = []
  <-> is_booker_pk (AppointmentCreateSerializer.booker d) db = true
      /\ in_window (AppointmentCreateSerializer.time d) = true
      /\ is_scheduler_pk (AppointmentCreateSerializer.scheduler d) db = true.
Proof.
  unfold AppointmentCreateSerializer.field_errors.
  rewrite in_window_validate_time.
  destruct (is_booker_pk _ db), (in_window _), (is_scheduler_pk _ db);
    simpl; intuition discriminate.
Qed.

(** The errors that the fields can raise. *)
Lemma admin_field_errors_in (d : AppointmentCreateSerializer.data) (db : DB)
    (e : Error) :
  In e (AppointmentCreateSerializer.field_errors d db) ->
  e = InvalidBookerPk \/ e = InvalidTimeWindow \/ e = InvalidSchedulerPk.
Proof.
  unfold AppointmentCreateSerializer.field_errors.
  rewrite in_window_validate_time.
  destruct (is_booker_pk _ db), (in_window _), (is_scheduler_pk _ db);
    simpl; intuition.
Qed.

Lemma scheduler_create_field_errors_in
    (d : SchedulerPanelAppointmentCreateSerializer.data) (db : DB)
    (e : Error) :
  In e (SchedulerPanelAppointmentCreateSerializer.field_errors d db) ->
  e = InvalidBookerPk.
Proof.
  unfold SchedulerPanelAppointmentCreateSerializer.field_errors.
  destruct (SchedulerPanelAppointmentCreateSerializer.booker d) as [b|];
    [destruct (is_booker_pk b db)|]; simpl; intuition.
Qed.

Lemma scheduler_update_field_errors_in
    (d : SchedulerPanelAppointmentUpdateSerializer.data) (db : DB)
    (e : Error) :
  In e (SchedulerPanelAppointmentUpdateSerializer.field_errors d db) ->
  e = InvalidBookerPk.
Proof.
  unfold SchedulerPanelAppointmentUpdateSerializer.field_errors.
  destruct (SchedulerPanelAppointmentUpdateSerializer.get_booker d) as [b|];
    [destruct (is_booker_pk b db)|]; simpl; intuition.
Qed.


(** The field [booker] of the scheduler panel passes when a key that is
    supplied names a stored booker. *)
Lemma scheduler_create_fields_pass
    (d : SchedulerPanelAppointmentCreateSerializer.data) (db : DB) :
  (forall b, SchedulerPanelAppointmentCreateSerializer.booker d = Some b ->
             is_booker_pk b db = true) ->
  SchedulerPanelAppointmentCreateSerializer.field_errors d db = [].
Proof.
  unfold SchedulerPanelAppointmentCreateSerializer.field_errors.
  destruct (SchedulerPanelAppointmentCreateSerializer.booker d) as [b|];
    [|reflexivity].
  intros H. now rewrite (H b eq_refl).
Qed.

Lemma scheduler_update_fields_pass
    (d : SchedulerPanelAppointmentUpdateSerializer.data) (db : DB) :
  (forall b, SchedulerPanelAppointmentUpdateSerializer.get_booker d = Some b
             -> is_booker_pk b db = true) ->
  SchedulerPanelAppointmentUpdateSerializer.field_errors d db = [].
Proof.
  unfold SchedulerPanelAppointmentUpdateSerializer.field_errors.
  destruct (SchedulerPanelAppointmentUpdateSerializer.get_booker d) as [b|];
    [|reflexivity].
  intros H. now rewrite (H b eq_refl).
Qed.

Lemma scheduler_create_fields_checked
    (d : SchedulerPanelAppointmentCreateSerializer.data) (db : DB) :
  SchedulerPanelAppointmentCreateSerializer.field_errors d db = [] ->
  forall b, SchedulerPanelAppointmentCreateSerializer.booker d = Some b ->
            is_booker_pk b db = true.
Proof.
  unfold SchedulerPanelAppointmentCreateSerializer.field_errors.
  intros H b Hb. rewrite Hb in H.
  now destruct (is_booker_pk b db).
Qed.

Lemma admin_create_eq (clk : Clock) (d : AppointmentCreateSerializer.data)
    (db : DB) :
  AdminPanelViewSet.create_appointment clk d db
  = match AppointmentCreateSerializer.field_errors d db with
    | e :: errs => (Raise (e :: errs), db)
    | [] =>
        if exists_ (appointments_at (AppointmentCreateSerializer.scheduler d)
                      (AppointmentCreateSerializer.date d)
                      (AppointmentCreateSerializer.time d) db)
        then (Raise [SlotAlreadyBooked], db)
        else AppointmentCreateSerializer.save clk d db
    end.
Proof.
  unfold AdminPanelViewSet.create_appointment,
    AppointmentCreateSerializer.is_valid, AppointmentCreateSerializer.validate.
  unfold bind, gets.
  destruct (AppointmentCreateSerializer.field_errors d db);
    cbn [raise_if_any]; [|reflexivity].
  unfold ret at 1. rewrite unique_together_validator_eq.
  destruct (exists_ _) eqn:T; [reflexivity|].
  now rewrite T.
Qed.

Lemma scheduler_create_eq (clk : Clock) (s : nat)
    (d : SchedulerPanelAppointmentCreateSerializer.data) (db : DB) :
  SchedulerPanelViewSet.manage_appointments clk s
    (SchedulerPanelViewSet.create d) db
  = match SchedulerPanelAppointmentCreateSerializer.field_errors d db with
    | e :: errs => (Raise (e :: errs), db)
    | [] =>
        if no_identity (SchedulerPanelAppointmentCreateSerializer.booker d)
             (SchedulerPanelAppointmentCreateSerializer.booker_name d)
        then (Raise [MissingBookerIdentity], db)
        else if exists_ (appointments_at s
                           (SchedulerPanelAppointmentCreateSerializer.date d)
                           (SchedulerPanelAppointmentCreateSerializer.time d)
                           db)
        then (Raise [SlotAlreadyBooked], db)
        else
          match SchedulerPanelAppointmentCreateSerializer.save clk s d db with
          | (Ok a, db') =>
              (Ok (Some (a, get_display_name (related_booker a db')
                              (Appointment.booker_name a))), db')
          | (Raise e, db') => (Raise e, db')
          end
    end.
Proof.
  unfold SchedulerPanelViewSet.manage_appointments,
    SchedulerPanelViewSet.rendered,
    SchedulerPanelAppointmentCreateSerializer.is_valid,
    SchedulerPanelAppointmentCreateSerializer.validate.
  unfold bind at 1 2 3. unfold gets at 1.
  destruct (SchedulerPanelAppointmentCreateSerializer.field_errors d db);
    simpl; [|reflexivity].
  destruct (no_identity _ _); run; [reflexivity|].
  destruct (exists_ _); [reflexivity|].
  now destruct (SchedulerPanelAppointmentCreateSerializer.save clk s d db)
    as [[a|e] db'].
Qed.

Lemma scheduler_update_eq (clk : Clock) (s pk : nat)
    (d : SchedulerPanelAppointmentUpdateSerializer.data) (db : DB) :
  SchedulerPanelViewSet.manage_appointments clk s
    (SchedulerPanelViewSet.update pk d) db
  = match find (fun x => (Appointment.id x =? pk)
                         && (Appointment.scheduler x =? s))
               (appointments db) with
    | None => (Raise [Http404], db)
    | Some appointment =>
        match SchedulerPanelAppointmentUpdateSerializer.field_errors d db with
        | e :: errs => (Raise (e :: errs), db)
        | [] =>
            if no_identity
                 (SchedulerPanelAppointmentUpdateSerializer.get_booker d)
                 (SchedulerPanelAppointmentUpdateSerializer.booker_name d)
            then (Raise [MissingBookerIdentity], db)
            else
              match SchedulerPanelAppointmentUpdateSerializer.save
                      appointment d db with
              | (Ok a, db') =>
                  (Ok (Some (a, get_display_name (related_booker a db')
                                  (Appointment.booker_name a))), db')
              | (Raise e, db') => (Raise e, db')
              end
        end
    end.
Proof.
  unfold SchedulerPanelViewSet.manage_appointments,
    SchedulerPanelViewSet.rendered, get_appointment_of_or_404,
    SchedulerPanelAppointmentUpdateSerializer.is_valid,
    SchedulerPanelAppointmentUpdateSerializer.validate.
  unfold bind at 1 2. unfold gets at 1.
  destruct (find _ _) as [a0|]; [|reflexivity].
  unfold ret at 1. unfold bind at 1 2 3. unfold gets at 1.
  destruct (SchedulerPanelAppointmentUpdateSerializer.field_errors d db);
    simpl; [|reflexivity].
  destruct (no_identity _ _); run; [reflexivity|].
  now destruct (SchedulerPanelAppointmentUpdateSerializer.save a0 d db)
    as [[a|e] db'].
Qed.

Lemma reserve_eq (clk : Clock) (b : nat)
    (d : BookerAppointmentCreateSerializer.data) (db : DB) :
  BookerPanelViewSet.reserve_appointment clk b d db
  = if exists_ (upcoming_of b clk db)
    then (Raise [ActiveAppointmentExists], db)
    else if negb (in_roster b (BookerAppointmentCreateSerializer.scheduler d)
                    db)
    then (Raise [SchedulerNotInRoster], db)
    else if exists_ (appointments_at
                       (BookerAppointmentCreateSerializer.scheduler d)
                       (BookerAppointmentCreateSerializer.date d)
                       (BookerAppointmentCreateSerializer.time d) db)
    then (Raise [SlotAlreadyBooked], db)
    else if in_the_past clk (BookerAppointmentCreateSerializer.date d)
              (BookerAppointmentCreateSerializer.time d)
    then (Raise [PastDateOrTime], db)
    else BookerAppointmentCreateSerializer.save clk b d db.
Proof.
  unfold BookerPanelViewSet.reserve_appointment,
    BookerAppointmentCreateSerializer.is_valid,
    BookerAppointmentCreateSerializer.scheduler_field,
    BookerAppointmentCreateSerializer.validate, in_the_past.
  unfold bind, gets.
  destruct (exists_ (upcoming_of b clk db)); [reflexivity|].
  destruct (in_roster b _ db) eqn:R; cbn [negb]; [|reflexivity].
  unfold ret at 1. rewrite unique_together_validator_eq.
  destruct (exists_ (appointments_at _ _ _ db)) eqn:T; [reflexivity|].
  rewrite R, orb_comm. cbn [negb].
  destruct (date_eq _ _ && time_le _ _); simpl; [reflexivity|].
  destruct (date_lt _ _); [reflexivity|].
  unfold ret. now rewrite T.
Qed.

Lemma booker_update_eq (clk : Clock) (b : nat) (d : PartialData) (db : DB) :
  BookerPanelViewSet.update_my_appointment clk b d db
  = match first (upcoming_of b clk db) with
    | None => (Raise [Http404], db)
    | Some a =>
        let a' := apply_partial a d in
        match BookerPanelUpdateAppointmentProfileSerializer.field_errors
                clk d with
        | e :: errs => (Raise (e :: errs), db)
        | [] =>
            if date_eq (Appointment.date a') (today clk)
               && time_le (Appointment.time a') (now_time clk)
            then (Raise [PastDateOrTime], db)
            else if exists_
                      (filter (fun x => negb (Appointment.id x
                                              =? Appointment.id a))
                         (appointments_at (Appointment.scheduler a)
                            (Appointment.date a') (Appointment.time a') db))
            then (Raise [SlotAlreadyBooked], db)
            else (Ok a',
                  set_appointments (map (written a') (appointments db)) db)
        end
    end.
Proof.
  unfold BookerPanelViewSet.update_my_appointment,
    BookerPanelUpdateAppointmentProfileSerializer.is_valid,
    BookerPanelUpdateAppointmentProfileSerializer.validate,
    BookerPanelUpdateAppointmentProfileSerializer.save.
  run. destruct (first (upcoming_of b clk db)) as [a|]; [|reflexivity].
  destruct (BookerPanelUpdateAppointmentProfileSerializer.field_errors clk d);
    simpl; [|reflexivity].
  destruct (date_eq _ _ && time_le _ _); simpl; [reflexivity|].
  destruct (exists_ _) eqn:E; simpl; [reflexivity|].
  rewrite save_appointment_eq. simpl. now rewrite E.
Qed.

Lemma admin_put_eq (pk : nat) (d : PartialData) (db : DB) :
  AdminPanelViewSet.appointment_detail_put pk d db
  = match find (fun x => Appointment.id x =? pk) (appointments db) with
    | None => (Raise [Http404], db)
    | Some a =>
        let a' := apply_partial a d in
        if exists_
             (filter (fun x => negb (Appointment.id x =? Appointment.id a))
                (appointments_at (Appointment.scheduler a)
                   (Appointment.date a') (Appointment.time a') db))
        then (Raise [IntegrityError], db)
        else (Ok a',
              set_appointments (map (written a') (appointments db)) db)
    end.
Proof.
  unfold AdminPanelViewSet.appointment_detail_put, get_appointment_or_404,
    AppointmentDetailSerializer.is_valid, AppointmentDetailSerializer.save.
  run. destruct (find _ _) as [a|]; [|reflexivity].
  rewrite save_appointment_eq. simpl. now destruct (exists_ _).
Qed.

Lemma first_upcoming_in (clk : Clock) (b : nat) (db : DB)
    (a : Appointment.t) :
  first (upcoming_of b clk db) = Some a ->
  In a (appointments db)
  /\ Appointment.booker a = Some b
  /\ Appointment.upcoming clk a = true.
Proof.
  unfold first, upcoming_of. intros H.
  assert (In a (order_by Appointment.meta_ordering
                  (filter (Appointment.upcoming clk)
                     (filter (Appointment.has_booker b) (appointments db)))))
    as Hin by (destruct (order_by _ _); inversion H; now left).
  apply order_by_in in Hin. apply filter_In in Hin as [Hin Hup].
  apply filter_In in Hin as [Hin Hb]. repeat split; auto.
  unfold Appointment.has_booker in Hb.
  destruct (Appointment.booker a); [|discriminate].
  apply Nat.eqb_eq in Hb. now subst.
Qed.

Lemma holds_upcoming_exists (db : DB) (clk : Clock) (b : nat) :
  holds_upcoming db clk b <-> exists_ (upcoming_of b clk db) = true.
Proof.
  unfold holds_upcoming, upcoming_of.
  rewrite order_by_exists, exists_filter, existsb_exists. split.
  - intros (a & Hin & Hb & Hup). exists a; split; [|assumption].
    apply filter_In; split; [assumption|].
    unfold Appointment.has_booker. rewrite Hb. apply Nat.eqb_refl.
  - intros (a & Hin & Hup). apply filter_In in Hin as [Hin Hb].
    exists a; repeat split; auto.
    unfold Appointment.has_booker in Hb.
    destruct (Appointment.booker a); [|discriminate].
    apply Nat.eqb_eq in Hb. now subst.
Qed.

Lemma scheduler_save_eq (a : Appointment.t)
    (d : SchedulerPanelAppointmentUpdateSerializer.data) (db : DB) :
  SchedulerPanelAppointmentUpdateSerializer.save a d db
  = let a' := SchedulerPanelAppointmentUpdateSerializer.update a d in
    if exists_
         (filter (fun x => negb (Appointment.id x =? Appointment.id a))
            (appointments_at (Appointment.scheduler a)
               (Appointment.date a') (Appointment.time a') db))
    then (Raise [IntegrityError], db)
    else (Ok a', set_appointments (map (written a') (appointments db)) db).
Proof.
  unfold SchedulerPanelAppointmentUpdateSerializer.save. run.
  rewrite save_appointment_eq. simpl. now destruct (exists_ _).
Qed.

(** Another row holds the slot [(s, d, tm)]: a row whose primary key is
    not [pk]. *)
Lemma conflict_exists (db : DB) (pk s : nat) (d : date) (tm : time) :
  (exists x, In x (appointments db) /\ Appointment.id x <> pk
             /\ slot x = (s, d, tm))
  <-> exists_ (filter (fun x => negb (Appointment.id x =? pk))
                 (appointments_at s d tm db)) = true.
Proof.
  unfold appointments_at. rewrite exists_filter, existsb_exists. split.
  - intros (x & Hin & Hne & Hs). exists x. split.
    + apply filter_In; split; [assumption|]. now apply same_slot_true.
    + apply negb_true_iff. now apply Nat.eqb_neq.
  - intros (x & Hin & Hne). apply filter_In in Hin as [Hin Hs].
    exists x. repeat split; auto.
    + apply negb_true_iff in Hne. now apply Nat.eqb_neq.
    + now apply same_slot_true.
Qed.

(* ================================================================== *)
(** * Slot uniqueness on creation *)
(* ================================================================== *)

(** C1, as stated, fails: John, who holds appointment 1 with Alice
    tomorrow at 10:00, asks to reserve that very slot again.  The slot is
    taken, yet the request is refused with ActiveAppointmentExists, not
    with SlotAlreadyBooked: [reserve_appointment] looks for an upcoming
    appointment of the booker before the serializer is run. *)
Lemma repeated_reservation_not_SlotAlreadyBooked :
  taken sample_db 1 (june 11) (time_hm 10 0)
  /\ BookerPanelViewSet.reserve_appointment sample_clock 1
       (BookerAppointmentCreateSerializer.mk (june 11) (time_hm 10 0) 1 None)
       sample_db
     = (Raise [ActiveAppointmentExists], sample_db)
  /\ BookerPanelViewSet.reserve_appointment sample_clock 1
       (BookerAppointmentCreateSerializer.mk (june 11) (time_hm 10 0) 1 None)
       sample_db
     <> (Raise [SlotAlreadyBooked], sample_db).
Proof.
  split; [|split].
  - exists appointment_1. split; [now left|reflexivity].
  - reflexivity.
  - intros H. vm_compute in H. discriminate.
Qed.

(** C1, amended: in every store reached from a sound one by any history
    of requests, at most one appointment holds a given (scheduler, date,
    time); and a create request of the admin, of a scheduler or of a
    booker for a slot that is taken is refused and leaves the store as it
    was.  The refusal is SlotAlreadyBooked when the request passes the
    checks that come before the slot check on its path: for the admin,
    the booker key names a stored booker and the time lies in the window;
    for a scheduler, a booker key that is supplied names a stored booker
    and the booker is identified; for a booker, no upcoming appointment
    is held and the scheduler is in the roster.  The store is sound: keys
    and slots are unique and the scheduler of an appointment is a stored
    scheduler. *)
Theorem slot_unique_create_refused (db : DB) (Hok : table_ok db)
    (Hrefs : scheduler_refs_ok db) :
  (forall history s d tm,
      List.length (appointments_at s d tm (serve history db)) <= 1)
  /\ (forall clk d,
        taken db (AppointmentCreateSerializer.scheduler d)
          (AppointmentCreateSerializer.date d)
          (AppointmentCreateSerializer.time d) ->
        exists errs,
          AdminPanelViewSet.create_appointment clk d db = (Raise errs, db)
          /\ (is_booker_pk (AppointmentCreateSerializer.booker d) db = true ->
              in_window (AppointmentCreateSerializer.time d) = true ->
              errs = [SlotAlreadyBooked]))
  /\ (forall clk s d,
        taken db s (SchedulerPanelAppointmentCreateSerializer.date d)
          (SchedulerPanelAppointmentCreateSerializer.time d) ->
        exists errs,
          SchedulerPanelViewSet.manage_appointments clk s
            (SchedulerPanelViewSet.create d) db = (Raise errs, db)
          /\ ((forall b,
                 SchedulerPanelAppointmentCreateSerializer.booker d = Some b ->
                 is_booker_pk b db = true) ->
              no_identity (SchedulerPanelAppointmentCreateSerializer.booker d)
                (SchedulerPanelAppointmentCreateSerializer.booker_name d)
              = false ->
              errs = [SlotAlreadyBooked]))
  /\ (forall clk b d,
        taken db (BookerAppointmentCreateSerializer.scheduler d)
          (BookerAppointmentCreateSerializer.date d)
          (BookerAppointmentCreateSerializer.time d) ->
        exists errs,
          BookerPanelViewSet.reserve_appointment clk b d db = (Raise errs, db)
          /\ (~ holds_upcoming db clk b ->
              in_roster b (BookerAppointmentCreateSerializer.scheduler d) db
              = true ->
              errs = [SlotAlreadyBooked])).
Proof.
  split; [|split; [|split]].
  - intros history s d tm. apply at_most_one.
    now destruct (serve_ok history db Hok) as (_ & _ & H).
  - intros clk d Ht.
    assert (is_scheduler_pk (AppointmentCreateSerializer.scheduler d) db
            = true) as Hs.
    { destruct Ht as (a & Ha & Hslot). injection Hslot as <- _ _.
      now apply Hrefs. }
    apply taken_exists in Ht.
    rewrite admin_create_eq, Ht.
    destruct (AppointmentCreateSerializer.field_errors d db) as [|e errs]
      eqn:F; eexists; (split; [reflexivity|]); [reflexivity|].
    intros Hb Hw.
    assert (AppointmentCreateSerializer.field_errors d db = []) as F'
      by now apply admin_fields_pass.
    congruence.
  - intros clk s d Ht. apply taken_exists in Ht.
    rewrite scheduler_create_eq, Ht.
    destruct (SchedulerPanelAppointmentCreateSerializer.field_errors d db)
      as [|e errs] eqn:F.
    + destruct (no_identity _ _); eexists; (split; [reflexivity|]);
        [discriminate|reflexivity].
    + eexists; split; [reflexivity|]. intros Hb _. exfalso. revert F.
      unfold SchedulerPanelAppointmentCreateSerializer.field_errors.
      destruct (SchedulerPanelAppointmentCreateSerializer.booker d) as [b|];
        [|discriminate].
      now rewrite (Hb b eq_refl).
  - intros clk b d Ht. apply taken_exists in Ht.
    rewrite reserve_eq, Ht.
    destruct (exists_ (upcoming_of b clk db)) eqn:U.
    { eexists; split; [reflexivity|]. intros Hn. exfalso; apply Hn.
      now apply holds_upcoming_exists. }
    destruct (in_roster _ _ _); simpl; eexists; (split; [reflexivity|]);
      [reflexivity|discriminate].
Qed.

Lemma sample_db_ok : table_ok sample_db.
Proof.
  unfold table_ok, rows_ok; simpl. repeat split.
  - constructor; [intros []|constructor].
  - intros a [<-|[]]; simpl; lia.
  - constructor; [intros []|constructor].
Qed.

Lemma sample_db_refs_ok : scheduler_refs_ok sample_db.
Proof. intros a [<-|[]]. reflexivity. Qed.

Lemma slot_unique_create_refused_witness :
  table_ok sample_db
  /\ scheduler_refs_ok sample_db
  /\ List.length (appointments_at 1 (june 11) (time_hm 10 0)
                    (serve [(sample_clock,
                             AdminCreateAppointment
                               (AppointmentCreateSerializer.mk 1 (june 11)
                                  (time_hm 10 0) 1 None))] sample_db)) <= 1
  /\ AdminPanelViewSet.create_appointment sample_clock
       (AppointmentCreateSerializer.mk 1 (june 11) (time_hm 10 0) 1 None)
       sample_db = (Raise [SlotAlreadyBooked], sample_db).
Proof.
  split; [exact sample_db_ok|]. split; [exact sample_db_refs_ok|]. split.
  - apply (proj1 (slot_unique_create_refused sample_db sample_db_ok
                    sample_db_refs_ok)).
  - destruct (proj1 (proj2 (slot_unique_create_refused sample_db
                              sample_db_ok sample_db_refs_ok))
                sample_clock
                (AppointmentCreateSerializer.mk 1 (june 11) (time_hm 10 0) 1
                   None))
      as (errs & Hrefused & Herrs).
    + exists appointment_1. split; [now left|reflexivity].
    + rewrite Hrefused. now rewrite Herrs.
Defined.
(* ================================================================== *)
(** * Slot uniqueness on update *)
(* ================================================================== *)

(** On an update by the booker that passes the date and time rules, the
    slot check is applied with the updated record left out by its own
    id. *)
Lemma booker_update_slot_check (clk : Clock) (b : nat) (d : PartialData)
    (db : DB) (a : Appointment.t) :
  first (upcoming_of b clk db) = Some a ->
  BookerPanelUpdateAppointmentProfileSerializer.field_errors clk d = [] ->
  in_the_past clk (Appointment.date (apply_partial a d))
    (Appointment.time (apply_partial a d)) = false ->
  let a' := apply_partial a d in
  ((exists x, In x (appointments db)
              /\ Appointment.id x <> Appointment.id a
              /\ slot x = (Appointment.scheduler a, Appointment.date a',
                           Appointment.time a')) ->
   BookerPanelViewSet.update_my_appointment clk b d db
   = (Raise [SlotAlreadyBooked], db))
  /\ (~ (exists x, In x (appointments db)
                   /\ Appointment.id x <> Appointment.id a
                   /\ slot x = (Appointment.scheduler a, Appointment.date a',
                                Appointment.time a')) ->
      BookerPanelViewSet.update_my_appointment clk b d db
      = (Ok a', set_appointments (map (written a') (appointments db)) db)).
Proof.
  intros Hmine Hfields Hfuture a'. unfold in_the_past in Hfuture.
  apply orb_false_iff in Hfuture as [_ Htoday].
  split.
  - intros Hc. apply conflict_exists in Hc.
    rewrite booker_update_eq, Hmine, Hfields. cbv zeta.
    fold a'. fold a' in Htoday. now rewrite Htoday, Hc.
  - intros Hc. rewrite conflict_exists in Hc.
    rewrite booker_update_eq, Hmine, Hfields. cbv zeta.
    fold a'. fold a' in Htoday. rewrite Htoday.
    now destruct (exists_ _); [exfalso; auto|].
Qed.

(** An update on the scheduler panel or by the admin is never rejected
    with SlotAlreadyBooked. *)
Lemma staff_update_never_SlotAlreadyBooked (clk : Clock) (db : DB) :
  (forall s pk d errs db',
      SchedulerPanelViewSet.manage_appointments clk s
        (SchedulerPanelViewSet.update pk d) db = (Raise errs, db') ->
      ~ In SlotAlreadyBooked errs)
  /\ (forall pk d errs db',
        AdminPanelViewSet.appointment_detail_put pk d db
        = (Raise errs, db') ->
        ~ In SlotAlreadyBooked errs).
Proof.
  split.
  - intros s pk d errs db'. rewrite scheduler_update_eq.
    destruct (find _ _) as [a0|];
      [|intros H; injection H as <- _; simpl; intuition discriminate].
    destruct (SchedulerPanelAppointmentUpdateSerializer.field_errors d db)
      as [|e l] eqn:F.
    + destruct (no_identity _ _);
        [intros H; injection H as <- _; simpl; intuition discriminate|].
      rewrite scheduler_save_eq. cbv zeta. destruct (exists_ _);
        [|discriminate].
      intros H; injection H as <- _; simpl; intuition discriminate.
    + intros H; injection H as <- _. revert F.
      unfold SchedulerPanelAppointmentUpdateSerializer.field_errors.
      destruct (SchedulerPanelAppointmentUpdateSerializer.get_booker d);
        [|discriminate].
      destruct (is_booker_pk _ _); [discriminate|].
      intros H; injection H as <- <-. simpl. intuition discriminate.
  - intros pk d errs db'. rewrite admin_put_eq.
    destruct (find _ _) as [a0|];
      [|intros H; injection H as <- _; simpl; intuition discriminate].
    cbv zeta. destruct (exists_ _); [|discriminate].
    intros H; injection H as <- _; simpl; intuition discriminate.
Qed.

(** C2 at the failing input.  Alice has appointment 1 at 10:00 and a
    walk-in, appointment 2, at 11:00 on the same day, and asks on her
    panel to move the walk-in to 10:00.  Another appointment holds the
    candidate slot, so the update is to be rejected with
    SlotAlreadyBooked.  The serializer does carry the check, and applies
    it when it is given the scheduler and no instance; on the update the
    instance is there, the check is skipped and the payload is valid; the
    write then runs into the unique constraint of the store, an
    IntegrityError that the view does not catch.  The admin's PUT of the
    same change ends the same way.  On the booker panel John asks to move
    appointment 1 to 11:00, the slot of the walk-in, and is rejected with
    SlotAlreadyBooked. *)
Theorem scheduler_update_skips_slot_check :
  find (fun x => (Appointment.id x =? 2) && (Appointment.scheduler x =? 1))
    (appointments two_appointments) = Some appointment_2
  /\ In appointment_1 (appointments two_appointments)
  /\ Appointment.id appointment_1 = 1
  /\ slot appointment_1 = (1, june 11, time_hm 10 0)
  /\ slot (SchedulerPanelAppointmentUpdateSerializer.update appointment_2
             (SchedulerPanelAppointmentUpdateSerializer.mk None
                (Some (time_hm 10 0)) None (Some "Walk-in") None))
     = (1, june 11, time_hm 10 0)
  /\ SchedulerPanelAppointmentUpdateSerializer.validate (Some 1) None
       (SchedulerPanelAppointmentUpdateSerializer.mk (Some (june 11))
          (Some (time_hm 10 0)) None (Some "Walk-in") None)
       two_appointments
     = (Raise [SlotAlreadyBooked], two_appointments)
  /\ SchedulerPanelAppointmentUpdateSerializer.is_valid None appointment_2
       (SchedulerPanelAppointmentUpdateSerializer.mk None
          (Some (time_hm 10 0)) None (Some "Walk-in") None)
       two_appointments
     = (Ok tt, two_appointments)
  /\ SchedulerPanelViewSet.manage_appointments sample_clock 1
       (SchedulerPanelViewSet.update 2
          (SchedulerPanelAppointmentUpdateSerializer.mk None
             (Some (time_hm 10 0)) None (Some "Walk-in") None))
       two_appointments
     = (Raise [IntegrityError], two_appointments)
  /\ AdminPanelViewSet.appointment_detail_put 2
       (mkPartial None (Some (time_hm 10 0)) None) two_appointments
     = (Raise [IntegrityError], two_appointments)
  /\ BookerPanelViewSet.update_my_appointment sample_clock 1
       (mkPartial None (Some (time_hm 11 0)) None) two_appointments
     = (Raise [SlotAlreadyBooked], two_appointments).
Proof.
  repeat split. now left.
Qed.

(* ================================================================== *)
(** * The time-of-day window *)
(* ================================================================== *)




(* ================================================================== *)
(** * OTP verification *)
(* ================================================================== *)

(** What verify-otp answers, in general. *)
Lemma verify_otp_outcomes (clk : Clock) (phone code : string) (db : DB) :
  (otps_matching phone code db = [] ->
   VerifyOTPView.post clk phone code db = (Raise [NotFound], db))
  /\ (forall o,
        last_row (otps_matching phone code db) = Some o ->
        (instant clk - OTP.created_at o > three_minutes)%Z ->
        VerifyOTPView.post clk phone code db = (Raise [Expired], db))
  /\ (forall o ru,
        last_row (otps_matching phone code db) = Some o ->
        (instant clk - OTP.created_at o <= three_minutes)%Z ->
        first (role_users_of_phone phone db) = Some ru ->
        VerifyOTPView.post clk phone code db
        = (Ok (for_user (RoleUser.user ru)), db)).
Proof.
  unfold VerifyOTPView.post, OTP.is_expired, bind, gets, raise, ret.
  cbv beta. repeat split.
  - intros ->. reflexivity.
  - intros o -> Hage.
    assert ((OTP.created_at o + three_minutes <? instant clk)%Z = true)
      as -> by (apply Z.ltb_lt; lia).
    reflexivity.
  - intros o ru -> Hage Hru.
    assert ((OTP.created_at o + three_minutes <? instant clk)%Z = false)
      as -> by (apply Z.ltb_ge; lia).
    cbv beta iota. now rewrite Hru.
Qed.

(** What login-verify answers, in general: the age of the code is never
    looked at. *)
Lemma login_verify_outcomes (clk : Clock) (phone code : string) (db : DB) :
  (otps_matching phone code db = [] ->
   OTPLoginVerifyView.post clk phone code db = (Raise [NotFound], db))
  /\ (forall ru,
        otps_matching phone code db <> [] ->
        first (role_users_of_phone phone db) = Some ru ->
        OTPLoginVerifyView.post clk phone code db
        = (Ok (for_user (RoleUser.user ru)), db)).
Proof.
  unfold OTPLoginVerifyView.post, bind, gets, raise, ret. cbv beta. split.
  - intros ->. reflexivity.
  - intros ru Hne Hru.
    destruct (otps_matching phone code db); [congruence|].
    unfold exists_. cbv beta iota. rewrite Hru. reflexivity.
Qed.

(** C4 at the failing input.  John was sent the code 654321 four minutes
    ago and no other.  The code is the most recent match and is more than
    three minutes old: verify-otp refuses it with Expired, login-verify
    issues the tokens of John's account. *)
Theorem login_verify_ignores_expiry :
  last_row (otps_matching "09123456789" "654321" code_sent)
  = Some (OTP.mk "09123456789" "654321" (instant sample_clock))
  /\ (instant four_minutes_later - instant sample_clock > three_minutes)%Z
  /\ VerifyOTPView.post four_minutes_later "09123456789" "654321" code_sent
     = (Raise [Expired], code_sent)
  /\ OTPLoginVerifyView.post four_minutes_later "09123456789" "654321"
       code_sent
     = (Ok (for_user 20), code_sent).
Proof. repeat split; reflexivity. Qed.

(* ================================================================== *)
(** * One active appointment per booker *)
(* ================================================================== *)

Lemma insert_never (row : nat -> Appointment.t) (db db' : DB)
    (errs : list Error) :
  insert_appointment row db = (Raise errs, db') -> errs = [IntegrityError].
Proof.
  rewrite insert_appointment_eq. cbv zeta.
  destruct (exists_ _); [|discriminate]. now intros [= <- _].
Qed.

(** C5: a reservation by a booker fails with ActiveAppointmentExists if
    and only if the booker holds an upcoming appointment (date after
    today, or today and time after now) when the request is served; when
    every appointment of the booker is past, the reservation is not
    refused by this rule; and creation by the admin or by a scheduler is
    never refused by it, whatever the booker holds. *)
Theorem one_active_appointment (clk : Clock) (b : nat)
    (d : BookerAppointmentCreateSerializer.data) (db : DB) :
  (BookerPanelViewSet.reserve_appointment clk b d db
   = (Raise [ActiveAppointmentExists], db)
   <-> holds_upcoming db clk b)
  /\ (forall errs db',
        BookerPanelViewSet.reserve_appointment clk b d db = (Raise errs, db') ->
        In ActiveAppointmentExists errs ->
        holds_upcoming db clk b)
  /\ ((forall a, In a (appointments db) ->
                 Appointment.booker a = Some b ->
                 Appointment.past clk a = true) ->
      forall errs db',
        BookerPanelViewSet.reserve_appointment clk b d db = (Raise errs, db') ->
        ~ In ActiveAppointmentExists errs)
  /\ (forall d' errs db',
        AdminPanelViewSet.create_appointment clk d' db = (Raise errs, db') ->
        ~ In ActiveAppointmentExists errs)
  /\ (forall s d' errs db',
        SchedulerPanelViewSet.manage_appointments clk s
          (SchedulerPanelViewSet.create d') db = (Raise errs, db') ->
        ~ In ActiveAppointmentExists errs).
Proof.
  assert (forall errs db',
             BookerPanelViewSet.reserve_appointment clk b d db
             = (Raise errs, db') ->
             In ActiveAppointmentExists errs ->
             holds_upcoming db clk b) as Honly.
  { intros errs db'. rewrite reserve_eq.
    destruct (exists_ (upcoming_of b clk db)) eqn:U.
    { intros _ _. now apply holds_upcoming_exists. }
    destruct (negb _); [intros [= <- _] [H|[]]; discriminate|].
    destruct (exists_ (appointments_at _ _ _ _));
      [intros [= <- _] [H|[]]; discriminate|].
    destruct (in_the_past _ _ _); [intros [= <- _] [H|[]]; discriminate|].
    unfold BookerAppointmentCreateSerializer.save.
    intros H; apply insert_never in H; subst.
    intros [H|[]]; discriminate. }
  split; [|split; [|split; [|split]]].
  - split.
    + intros H. apply (Honly _ _ H). now left.
    + intros H. apply holds_upcoming_exists in H.
      now rewrite reserve_eq, H.
  - exact Honly.
  - intros Hpast errs db' H Hin.
    destruct (Honly _ _ H Hin) as (a & Ha & Hb & Hup).
    rewrite upcoming_not_past, (Hpast a Ha Hb) in Hup. discriminate.
  - intros d' errs db'. rewrite admin_create_eq.
    destruct (AppointmentCreateSerializer.field_errors d' db) as [|e l]
      eqn:F.
    2:{ intros H Hin. injection H as <- _. rewrite <- F in Hin.
        apply admin_field_errors_in in Hin.
        destruct Hin as [H|[H|H]]; discriminate. }
    destruct (exists_ _); [intros [= <- _] [H|[]]; discriminate|].
    unfold AppointmentCreateSerializer.save.
    intros H; apply insert_never in H; subst.
    intros [H|[]]; discriminate.
  - intros s d' errs db'. rewrite scheduler_create_eq.
    destruct (SchedulerPanelAppointmentCreateSerializer.field_errors d' db)
      as [|e l] eqn:F.
    2:{ intros H Hin. injection H as <- _. rewrite <- F in Hin.
        apply scheduler_create_field_errors_in in Hin. discriminate. }
    destruct (no_identity _ _); [intros [= <- _] [H|[]]; discriminate|].
    destruct (exists_ _); [intros [= <- _] [H|[]]; discriminate|].
    unfold SchedulerPanelAppointmentCreateSerializer.save.
    destruct (insert_appointment _ db) as [[a|e] db1] eqn:I; [discriminate|].
    apply insert_never in I; subst.
    intros [= <- _] [H|[]]; discriminate.
Qed.

(** John holds appointment 1 tomorrow: a reservation for the day after
    is refused.  A week later appointment 1 is past and the same request
    is served. *)
Lemma one_active_appointment_witness :
  holds_upcoming sample_db sample_clock 1
  /\ BookerPanelViewSet.reserve_appointment sample_clock 1
       (BookerAppointmentCreateSerializer.mk (june 12) (time_hm 10 0) 1 None)
       sample_db
     = (Raise [ActiveAppointmentExists], sample_db)
  /\ (forall errs db',
        BookerPanelViewSet.reserve_appointment
          (mkClock (instant sample_clock) (june 17) (time_hm 9 0)) 1
          (BookerAppointmentCreateSerializer.mk (june 18) (time_hm 10 0) 1
             None)
          sample_db = (Raise errs, db') ->
        ~ In ActiveAppointmentExists errs).
Proof.
  assert (holds_upcoming sample_db sample_clock 1) as H.
  { exists appointment_1. repeat split. now left. }
  split; [exact H|]. split.
  - apply (proj1 (one_active_appointment sample_clock 1
                    (BookerAppointmentCreateSerializer.mk (june 12)
                       (time_hm 10 0) 1 None) sample_db)).
    exact H.
  - apply (proj1 (proj2 (proj2
             (one_active_appointment
                (mkClock (instant sample_clock) (june 17) (time_hm 9 0)) 1
                (BookerAppointmentCreateSerializer.mk (june 18)
                   (time_hm 10 0) 1 None) sample_db)))).
    intros a [<-|[]] _. reflexivity.
Defined.

(* ================================================================== *)
(** * No booking in the past *)
(* ================================================================== *)

(** C6, as stated, fails.  John, who holds appointment 1, asks to reserve
    a slot on 9 June, the day before today: the request is refused with
    ActiveAppointmentExists.  He then asks to move appointment 1 to today
    at 07:00, two hours ago: the request is refused with
    InvalidTimeWindow.  Both candidates break the date rule and neither
    refusal is PastDateOrTime. *)
Lemma past_date_not_PastDateOrTime :
  in_the_past sample_clock (june 9) (time_hm 10 0) = true
  /\ BookerPanelViewSet.reserve_appointment sample_clock 1
       (BookerAppointmentCreateSerializer.mk (june 9) (time_hm 10 0) 1 None)
       sample_db
     = (Raise [ActiveAppointmentExists], sample_db)
  /\ in_the_past sample_clock (june 10) (time_hm 7 0) = true
  /\ BookerPanelViewSet.update_my_appointment sample_clock 1
       (mkPartial (Some (june 10)) (Some (time_hm 7 0)) None) sample_db
     = (Raise [InvalidTimeWindow], sample_db).
Proof. repeat split; reflexivity. Qed.

(** C6, amended: on a reservation and on an update by the booker, a
    candidate date before today, or equal to today with a time that is
    not after the current time of day, is always refused and nothing is
    written.  The refusal is PastDateOrTime when the request breaks no
    other rule of its path: on a reservation, the booker holds no
    upcoming appointment, the scheduler is in the roster and the slot is
    free; on an update, a supplied time lies in the window. *)
Theorem date_not_in_past (clk : Clock) (b : nat) (db : DB) :
  (forall d,
      in_the_past clk (BookerAppointmentCreateSerializer.date d)
        (BookerAppointmentCreateSerializer.time d) = true ->
      exists errs,
        BookerPanelViewSet.reserve_appointment clk b d db = (Raise errs, db)
        /\ (~ holds_upcoming db clk b ->
            in_roster b (BookerAppointmentCreateSerializer.scheduler d) db
            = true ->
            ~ taken db (BookerAppointmentCreateSerializer.scheduler d)
                (BookerAppointmentCreateSerializer.date d)
                (BookerAppointmentCreateSerializer.time d) ->
            errs = [PastDateOrTime]))
  /\ (forall d a,
        first (upcoming_of b clk db) = Some a ->
        in_the_past clk (Appointment.date (apply_partial a d))
          (Appointment.time (apply_partial a d)) = true ->
        exists errs,
          BookerPanelViewSet.update_my_appointment clk b d db
          = (Raise errs, db)
          /\ ((forall t, new_time d = Some t -> in_window t = true) ->
              In PastDateOrTime errs)).
Proof.
  split.
  - intros d Hpast. rewrite reserve_eq, Hpast.
    destruct (exists_ (upcoming_of b clk db)) eqn:U.
    { eexists; split; eauto. intros Hn. exfalso; apply Hn.
      now apply holds_upcoming_exists. }
    destruct (in_roster _ _ _); simpl;
      [|eexists; split; eauto; discriminate].
    destruct (exists_ (appointments_at _ _ _ db)) eqn:T;
      eexists; (split; [reflexivity|]); [|reflexivity].
    intros _ _ Hfree. exfalso. apply Hfree. now apply taken_exists.
  - intros d a Hmine Hpast.
    destruct (first_upcoming_in _ _ _ _ Hmine) as (_ & _ & Hup).
    rewrite upcoming_in_the_past in Hup. apply negb_true_iff in Hup.
    rewrite booker_update_eq, Hmine. cbv zeta.
    unfold BookerPanelUpdateAppointmentProfileSerializer.field_errors,
      BookerPanelUpdateAppointmentProfileSerializer.validate_date.
    unfold in_the_past in Hpast, Hup. simpl in Hpast.
    assert (forall errs' : list Error,
               (forall t, new_time d = Some t -> in_window t = true) ->
               match new_time d with
               | Some v =>
                   BookerPanelUpdateAppointmentProfileSerializer.validate_time
                     v
               | None => []
               end = errs' -> errs' = []) as Htime.
    { intros errs' Hw <-. destruct (new_time d) as [t|]; [|reflexivity].
      now rewrite in_window_validate_time_update, (Hw t eq_refl). }
    simpl Appointment.date; simpl Appointment.time.
    destruct (new_date d) as [v|]; simpl in *.
    + destruct (date_lt v (today clk)); simpl in *.
      * eexists; split; [reflexivity|]. intros _. now left.
      * rewrite Hpast.
        destruct (match new_time d with Some _ => _ | None => _ end)
          as [|e l] eqn:T; eexists; split; eauto.
        -- intros _. now left.
        -- intros Hw. now specialize (Htime _ Hw eq_refl).
    + apply orb_false_iff in Hup as [Hlt _]. rewrite Hlt in Hpast.
      simpl in Hpast. rewrite Hpast.
      destruct (match new_time d with Some _ => _ | None => _ end)
        as [|e l] eqn:T; eexists; split; eauto.
      * intros _. now left.
      * intros Hw. now specialize (Htime _ Hw eq_refl).
Qed.

(** Mary, who has no appointment and has Alice in her roster, asks for
    yesterday: PastDateOrTime.
    John asks to move appointment 1 to today at 08:30, half an hour ago:
    PastDateOrTime. *)
Lemma date_not_in_past_witness :
  (exists errs,
      BookerPanelViewSet.reserve_appointment sample_clock 2
        (BookerAppointmentCreateSerializer.mk (june 9) (time_hm 10 0) 1 None)
        with_mary
      = (Raise errs, with_mary)
      /\ errs = [PastDateOrTime])
  /\ (exists errs,
        BookerPanelViewSet.update_my_appointment sample_clock 1
          (mkPartial (Some (june 10)) (Some (time_hm 8 30)) None) sample_db
        = (Raise errs, sample_db)
        /\ In PastDateOrTime errs).
Proof.
  split.
  - destruct (proj1 (date_not_in_past sample_clock 2
                       with_mary)
                (BookerAppointmentCreateSerializer.mk (june 9) (time_hm 10 0)
                   1 None) eq_refl) as (errs & Hrun & Hkind).
    exists errs. split; [exact Hrun|]. apply Hkind; [|reflexivity|].
    + intros (a & [<-|[]] & Hb & _). discriminate.
    + intros (a & [<-|[]] & Hs). discriminate.
  - destruct (proj2 (date_not_in_past sample_clock 1 sample_db)
                (mkPartial (Some (june 10)) (Some (time_hm 8 30)) None)
                appointment_1 eq_refl eq_refl) as (errs & Hrun & Hkind).
    exists errs. split; [exact Hrun|]. apply Hkind.
    intros t [= <-]. reflexivity.
Defined.

(* ================================================================== *)
(** * Identification of the booker on the scheduler panel *)
(* ================================================================== *)

Lemma no_identity_true {B : Type} (booker : option B)
    (booker_name : option string) :
  no_identity booker booker_name = true
  <-> booker = None /\ (booker_name = None \/ booker_name = Some "").
Proof.
  unfold no_identity, truthy. split.
  - destruct booker; [discriminate|].
    destruct booker_name as [[|c s]|]; simpl; try discriminate; auto.
  - intros [-> [->| ->]]; reflexivity.
Qed.

Lemma related_booker_found (a : Appointment.t) (db : DB) (b : nat)
    (bk : Booker.t) :
  Appointment.booker a = Some b ->
  find (fun x => Booker.id x =? b) (bookers db) = Some bk ->
  related_booker a db = Some bk.
Proof. unfold related_booker. now intros -> ->. Qed.

(** C7: a creation or an update on the scheduler panel fails with
    MissingBookerIdentity exactly when the payload carries neither a
    linked booker nor a non-empty booker name.  A creation that
    identifies the booker, with a key that names a stored booker when a
    key is given, for a slot that is free, stores the appointment and
    answers with it and its display name: "name family" of the linked
    booker when one is linked, otherwise the booker name.  An update of
    an appointment of the scheduler that identifies the booker and runs
    into no other appointment writes the appointment and answers with it
    and its display name, derived in the same way from the row as
    written.  Whenever the panel answers with an appointment, the display
    name is derived from the stored row: "name family" of the linked
    booker, otherwise the booker name, otherwise "Unnamed". *)
Theorem booker_identification (clk : Clock) (s : nat) (db : DB) :
  (forall d,
      SchedulerPanelViewSet.manage_appointments clk s
        (SchedulerPanelViewSet.create d) db
      = (Raise [MissingBookerIdentity], db)
      <-> SchedulerPanelAppointmentCreateSerializer.booker d = None
          /\ (SchedulerPanelAppointmentCreateSerializer.booker_name d = None
              \/ SchedulerPanelAppointmentCreateSerializer.booker_name d
                 = Some ""))
  /\ (forall pk d a,
        find (fun x => (Appointment.id x =? pk)
                       && (Appointment.scheduler x =? s)) (appointments db)
        = Some a ->
        SchedulerPanelViewSet.manage_appointments clk s
          (SchedulerPanelViewSet.update pk d) db
        = (Raise [MissingBookerIdentity], db)
        <-> SchedulerPanelAppointmentUpdateSerializer.get_booker d = None
            /\ (SchedulerPanelAppointmentUpdateSerializer.booker_name d = None
                \/ SchedulerPanelAppointmentUpdateSerializer.booker_name d
                   = Some ""))
  /\ (forall d,
        (forall b,
            SchedulerPanelAppointmentCreateSerializer.booker d = Some b ->
            is_booker_pk b db = true) ->
        no_identity (SchedulerPanelAppointmentCreateSerializer.booker d)
          (SchedulerPanelAppointmentCreateSerializer.booker_name d) = false ->
        ~ taken db s (SchedulerPanelAppointmentCreateSerializer.date d)
            (SchedulerPanelAppointmentCreateSerializer.time d) ->
        exists a display_name db',
          SchedulerPanelViewSet.manage_appointments clk s
            (SchedulerPanelViewSet.create d) db
          = (Ok (Some (a, display_name)), db')
          /\ appended db db' a
          /\ Appointment.scheduler a = s
          /\ Appointment.booker a
             = SchedulerPanelAppointmentCreateSerializer.booker d
          /\ (forall b bk,
                SchedulerPanelAppointmentCreateSerializer.booker d = Some b ->
                find (fun x => Booker.id x =? b) (bookers db) = Some bk ->
                display_name = Booker.name bk ++ " " ++ Booker.family bk)
          /\ (SchedulerPanelAppointmentCreateSerializer.booker d = None ->
              exists n,
                SchedulerPanelAppointmentCreateSerializer.booker_name d
                = Some n
                /\ n <> "" /\ Appointment.booker_name a = n
                /\ display_name = n))
  /\ (forall pk d a0,
        find (fun x => (Appointment.id x =? pk)
                       && (Appointment.scheduler x =? s)) (appointments db)
        = Some a0 ->
        (forall b,
            SchedulerPanelAppointmentUpdateSerializer.get_booker d = Some b ->
            is_booker_pk b db = true) ->
        no_identity (SchedulerPanelAppointmentUpdateSerializer.get_booker d)
          (SchedulerPanelAppointmentUpdateSerializer.booker_name d) = false ->
        ~ (exists x, In x (appointments db)
                     /\ Appointment.id x <> Appointment.id a0
                     /\ slot x
                        = slot (SchedulerPanelAppointmentUpdateSerializer.update
                                  a0 d)) ->
        exists display_name,
          SchedulerPanelViewSet.manage_appointments clk s
            (SchedulerPanelViewSet.update pk d) db
          = (Ok (Some (SchedulerPanelAppointmentUpdateSerializer.update a0 d,
                       display_name)),
             set_appointments
               (map (written
                       (SchedulerPanelAppointmentUpdateSerializer.update a0 d))
                    (appointments db)) db)
          /\ (forall b bk,
                Appointment.booker
                  (SchedulerPanelAppointmentUpdateSerializer.update a0 d)
                = Some b ->
                find (fun x => Booker.id x =? b) (bookers db) = Some bk ->
                display_name = Booker.name bk ++ " " ++ Booker.family bk)
          /\ (Appointment.booker
                (SchedulerPanelAppointmentUpdateSerializer.update a0 d)
              = None ->
              Appointment.booker_name
                (SchedulerPanelAppointmentUpdateSerializer.update a0 d)
              <> ""
              /\ display_name
                 = Appointment.booker_name
                     (SchedulerPanelAppointmentUpdateSerializer.update a0 d)))
  /\ (forall action a display_name db',
        SchedulerPanelViewSet.manage_appointments clk s action db
        = (Ok (Some (a, display_name)), db') ->
        In a (appointments db')
        /\ display_name
           = get_display_name (related_booker a db')
               (Appointment.booker_name a))
  /\ (forall b booker_name,
        get_display_name (Some b) booker_name
        = Booker.name b ++ " " ++ Booker.family b)
  /\ (forall booker_name,
        booker_name <> "" -> get_display_name None booker_name = booker_name)
  /\ get_display_name None "" = "Unnamed".
Proof.
  split; [|split; [|split; [|split; [|split; [|split; [|split]]]]]].
  - intros d. rewrite <- no_identity_true, scheduler_create_eq.
    unfold SchedulerPanelAppointmentCreateSerializer.field_errors.
    destruct (SchedulerPanelAppointmentCreateSerializer.booker d) as [b|]
      eqn:B.
    { split; [|discriminate].
      destruct (is_booker_pk b db); [|discriminate]. simpl.
      destruct (exists_ _); [discriminate|].
      unfold SchedulerPanelAppointmentCreateSerializer.save.
      destruct (insert_appointment _ db) as [[a|e] db1] eqn:I;
        [discriminate|].
      apply insert_never in I; subst. discriminate. }
    destruct (no_identity _ _); [tauto|].
    split; [|discriminate].
    destruct (exists_ _); [discriminate|].
    unfold SchedulerPanelAppointmentCreateSerializer.save.
    destruct (insert_appointment _ db) as [[a|e] db1] eqn:I; [discriminate|].
    apply insert_never in I; subst. discriminate.
  - intros pk d a Hfind.
    rewrite <- no_identity_true, scheduler_update_eq, Hfind.
    unfold SchedulerPanelAppointmentUpdateSerializer.field_errors.
    destruct (SchedulerPanelAppointmentUpdateSerializer.get_booker d)
      as [b|] eqn:B.
    { split; [|discriminate].
      destruct (is_booker_pk b db); [|discriminate]. simpl.
      rewrite scheduler_save_eq. cbv zeta.
      destruct (exists_ _); discriminate. }
    destruct (no_identity _ _); [tauto|].
    split; [|discriminate].
    rewrite scheduler_save_eq. cbv zeta.
    destruct (exists_ _); discriminate.
  - intros d Hkey Hid Hfree. rewrite taken_exists in Hfree.
    rewrite scheduler_create_eq, (scheduler_create_fields_pass d db Hkey),
      Hid.
    destruct (exists_ _) eqn:T; [exfalso; auto|].
    unfold SchedulerPanelAppointmentCreateSerializer.save.
    rewrite insert_appointment_eq. cbv zeta. simpl Appointment.scheduler.
    simpl Appointment.date. simpl Appointment.time. rewrite T.
    eexists. eexists. eexists. split; [reflexivity|].
    split; [repeat split|]. split; [reflexivity|]. split; [reflexivity|].
    split.
    + intros b bk Hb Hbk.
      erewrite related_booker_found; [reflexivity| |exact Hbk]. exact Hb.
    + intros Hb. unfold no_identity in Hid. rewrite Hb in Hid.
      simpl in Hid.
      destruct (SchedulerPanelAppointmentCreateSerializer.booker_name d)
        as [[|c n]|]; try discriminate.
      exists (String c n). repeat split; [discriminate|].
      unfold related_booker. simpl. rewrite Hb. reflexivity.
  - intros pk d a0 Hfind Hkey Hid Hfree.
    unfold slot in Hfree. simpl in Hfree. rewrite conflict_exists in Hfree.
    rewrite scheduler_update_eq, Hfind,
      (scheduler_update_fields_pass d db Hkey), Hid, scheduler_save_eq.
    cbv zeta.
    destruct (exists_ _); [exfalso; auto|].
    eexists. split; [reflexivity|]. split.
    + intros b bk Hb Hbk.
      erewrite related_booker_found; [reflexivity|exact Hb|exact Hbk].
    + intros Hb. unfold related_booker. rewrite Hb.
      simpl get_display_name.
      assert (SchedulerPanelAppointmentUpdateSerializer.get_booker d = None)
        as Hnone.
      { revert Hb. unfold SchedulerPanelAppointmentUpdateSerializer.get_booker.
        simpl.
        destruct (SchedulerPanelAppointmentUpdateSerializer.booker d)
          as [[b|]|]; simpl; try discriminate; reflexivity. }
      unfold no_identity in Hid. rewrite Hnone in Hid. simpl in Hid.
      simpl Appointment.booker_name.
      destruct (SchedulerPanelAppointmentUpdateSerializer.booker_name d)
        as [[|c n]|]; try discriminate.
      simpl. split; [discriminate|reflexivity].
  - intros action a display_name db'. destruct action as [d|pk d|pk|].
    + rewrite scheduler_create_eq.
      destruct (SchedulerPanelAppointmentCreateSerializer.field_errors d db);
        [|discriminate].
      destruct (no_identity _ _); [discriminate|].
      destruct (exists_ _) eqn:T; [discriminate|].
      unfold SchedulerPanelAppointmentCreateSerializer.save.
      rewrite insert_appointment_eq. cbv zeta. simpl Appointment.scheduler.
      simpl Appointment.date. simpl Appointment.time. rewrite T.
      intros H; injection H as <- <- <-. split; [|reflexivity].
      simpl. apply in_or_app. right. now left.
    + rewrite scheduler_update_eq.
      destruct (find _ _) as [a0|] eqn:F; [|discriminate].
      destruct (SchedulerPanelAppointmentUpdateSerializer.field_errors d db);
        [|discriminate].
      destruct (no_identity _ _); [discriminate|].
      rewrite scheduler_save_eq. cbv zeta.
      destruct (exists_ _); [discriminate|].
      intros H; injection H as <- <- <-. split; [|reflexivity].
      simpl. apply in_map_iff. exists a0. split.
      * unfold written. simpl. now rewrite Nat.eqb_refl.
      * now apply find_some in F.
    + unfold SchedulerPanelViewSet.manage_appointments,
        get_appointment_of_or_404, delete_appointment. run.
      destruct (find _ _); discriminate.
    + discriminate.
  - reflexivity.
  - intros [|c n] Hn; [congruence|reflexivity].
  - reflexivity.
Qed.

(** Alice updates her walk-in with a payload that names nobody: refused.
    She creates an appointment for John: it is stored and displayed as
    "John Doe". *)
Lemma booker_identification_witness :
  SchedulerPanelViewSet.manage_appointments sample_clock 1
    (SchedulerPanelViewSet.update 2
       (SchedulerPanelAppointmentUpdateSerializer.mk None
          (Some (time_hm 12 0)) None None None))
    two_appointments
  = (Raise [MissingBookerIdentity], two_appointments)
  /\ exists a db',
       SchedulerPanelViewSet.manage_appointments sample_clock 1
         (SchedulerPanelViewSet.create
            (SchedulerPanelAppointmentCreateSerializer.mk (june 12)
               (time_hm 9 0) (Some 1) None None))
         two_appointments
       = (Ok (Some (a, "John Doe")), db')
       /\ In a (appointments db').
Proof.
  pose proof (booker_identification sample_clock 1 two_appointments)
    as (_ & Hupdate & Hcreate & _).
  split.
  - apply (Hupdate 2
             (SchedulerPanelAppointmentUpdateSerializer.mk None
                (Some (time_hm 12 0)) None None None) appointment_2);
      [reflexivity|].
    split; [reflexivity|now left].
  - destruct (Hcreate
                (SchedulerPanelAppointmentCreateSerializer.mk (june 12)
                   (time_hm 9 0) (Some 1) None None))
      as (a & display_name & db' & Hanswer & Hstored & _ & _ & Hlinked & _).
    + intros b Hb. injection Hb as <-. reflexivity.
    + reflexivity.
    + intros (x & [<-|[<-|[]]] & Hs); discriminate.
    + exists a, db'. split.
      * rewrite Hanswer. now rewrite (Hlinked 1 john eq_refl eq_refl).
      * destruct Hstored as (Hrows & _). rewrite Hrows.
        apply in_or_app. right. now left.
Defined.

(* ================================================================== *)
(** * The roster of a booker *)
(* ================================================================== *)

(** The publicly searchable schedulers with a given phone. *)
Lemma add_scheduler_eq (b : nat) (scheduler_code : string) (db : DB) :
  BookerPanelViewSet.add_scheduler b scheduler_code db
  = match filter (fun s => String.eqb (Scheduler.phone s) scheduler_code
                           && Scheduler.is_public_search s)
                 (schedulers db) with
    | [] => (Raise [SchedulerNotFound], db)
    | [s] =>
        (Ok s,
         if existsb (joined b (Scheduler.id s)) (booker_schedulers db)
         then db
         else set_booker_schedulers
                (booker_schedulers db ++ [(b, Scheduler.id s)]) db)
    | _ :: _ :: _ => (Raise [MultipleObjectsReturned], db)
    end.
Proof.
  unfold BookerPanelViewSet.add_scheduler,
    AddSchedulerSerializer.validate_scheduler_code,
    AddSchedulerSerializer.save, schedulers_add,
    bind, gets, ret, raise, modify.
  cbv beta.
  destruct (filter _ (schedulers db)) as [|s [|s' l]]; try reflexivity.
  cbv beta iota.
  now destruct (existsb _ _).
Qed.

Lemma joined_at_most_once (b s : nat) (rows : list (nat * nat)) :
  NoDup rows -> List.length (filter (joined b s) rows) <= 1.
Proof.
  induction 1 as [|x rows Hx Hrows IH]; simpl; [lia|].
  destruct (joined b s x) eqn:E; [|assumption].
  apply joined_true in E; subst. simpl.
  destruct (filter (joined b s) rows) as [|y l] eqn:F; simpl; [lia|].
  exfalso. apply Hx.
  assert (In y (filter (joined b s) rows)) as Hy by (rewrite F; now left).
  apply filter_In in Hy as [Hy Hj]. apply joined_true in Hj. now subst.
Qed.

Lemma joined_once (b s : nat) (rows : list (nat * nat)) :
  NoDup rows -> existsb (joined b s) rows = true ->
  List.length (filter (joined b s) rows) = 1.
Proof.
  intros Hn He. pose proof (joined_at_most_once b s rows Hn) as Hle.
  rewrite <- exists_filter in He.
  destruct (filter (joined b s) rows); [discriminate|simpl in *; lia].
Qed.

Lemma joined_absent (b s : nat) (rows : list (nat * nat)) :
  existsb (joined b s) rows = false -> filter (joined b s) rows = [].
Proof.
  rewrite <- exists_filter. apply exists_false.
Qed.

Lemma public_scheduler_found (s : Scheduler.t) (rows : list Scheduler.t) :
  NoDup (map Scheduler.phone rows) -> In s rows ->
  Scheduler.is_public_search s = true ->
  filter (fun x => String.eqb (Scheduler.phone x) (Scheduler.phone s)
                   && Scheduler.is_public_search x) rows = [s].
Proof.
  induction rows as [|x rows IH]; simpl; intros Hn Hin Hpub; [tauto|].
  inversion Hn as [|? ? Hx Hrows]; subst.
  destruct Hin as [->|Hin].
  - rewrite String.eqb_refl, Hpub. simpl. f_equal.
    destruct (filter _ rows) as [|y l] eqn:F; [reflexivity|].
    exfalso. apply Hx.
    assert (In y (filter
                    (fun x => String.eqb (Scheduler.phone x)
                                (Scheduler.phone s)
                              && Scheduler.is_public_search x) rows)) as Hy
      by (rewrite F; now left).
    apply filter_In in Hy as [Hy Hp]. apply andb_true_iff in Hp as [Hp _].
    apply String.eqb_eq in Hp. rewrite <- Hp. now apply in_map.
  - destruct (String.eqb (Scheduler.phone x) (Scheduler.phone s)) eqn:E.
    + apply String.eqb_eq in E. exfalso. apply Hx. rewrite E.
      now apply in_map.
    + simpl. now apply IH.
Qed.

(** C8: adding a scheduler to the roster is idempotent.  The request
    fails with SchedulerNotFound when no publicly searchable scheduler
    has the given phone, and succeeds for every publicly searchable
    scheduler; when it succeeds the scheduler is in the roster, once;
    asking again succeeds and changes nothing; and asking for a scheduler
    that is already listed changes nothing.  No history of requests
    stores a join row twice. *)
Theorem roster_idempotent (b : nat) (scheduler_code : string) (db : DB) :
  ((forall s, In s (schedulers db) ->
              Scheduler.phone s = scheduler_code ->
              Scheduler.is_public_search s = false) ->
   BookerPanelViewSet.add_scheduler b scheduler_code db
   = (Raise [SchedulerNotFound], db))
  /\ (forall s db',
        BookerPanelViewSet.add_scheduler b scheduler_code db = (Ok s, db') ->
        In s (schedulers db)
        /\ Scheduler.phone s = scheduler_code
        /\ Scheduler.is_public_search s = true
        /\ In (b, Scheduler.id s) (booker_schedulers db')
        /\ BookerPanelViewSet.add_scheduler b scheduler_code db' = (Ok s, db')
        /\ (In (b, Scheduler.id s) (booker_schedulers db) -> db' = db)
        /\ (roster_ok db ->
            roster_ok db'
            /\ List.length (filter (joined b (Scheduler.id s))
                              (booker_schedulers db')) = 1))
  /\ (forall s,
        In s (schedulers db) ->
        Scheduler.is_public_search s = true ->
        Scheduler.phone s = scheduler_code ->
        NoDup (map Scheduler.phone (schedulers db)) ->
        exists db',
          BookerPanelViewSet.add_scheduler b scheduler_code db = (Ok s, db'))
  /\ (forall history, roster_ok db -> roster_ok (serve history db)).
Proof.
  split; [|split; [|split; [|intros history; apply serve_roster_ok]]].
  - intros Hnone. rewrite add_scheduler_eq.
    destruct (filter _ (schedulers db)) as [|s l] eqn:F; [reflexivity|].
    assert (In s (filter
                    (fun s => String.eqb (Scheduler.phone s) scheduler_code
                              && Scheduler.is_public_search s)
                    (schedulers db))) as Hs by (rewrite F; now left).
    apply filter_In in Hs as [Hs Hp]. apply andb_true_iff in Hp as [Hp Hq].
    apply String.eqb_eq in Hp. rewrite (Hnone s Hs Hp) in Hq. discriminate.
  - intros s db'. rewrite add_scheduler_eq.
    destruct (filter _ (schedulers db)) as [|s0 [|s1 l]] eqn:F;
      try discriminate.
    intros [= -> <-].
    assert (In s (filter
                    (fun s => String.eqb (Scheduler.phone s) scheduler_code
                              && Scheduler.is_public_search s)
                    (schedulers db))) as Hs by (rewrite F; now left).
    apply filter_In in Hs as [Hs Hp]. apply andb_true_iff in Hp as [Hp Hq].
    apply String.eqb_eq in Hp.
    destruct (existsb (joined b (Scheduler.id s)) (booker_schedulers db))
      eqn:E.
    + assert (In (b, Scheduler.id s) (booker_schedulers db)) as Hin.
      { apply existsb_exists in E as (r & Hr & Hj).
        apply joined_true in Hj. now subst. }
      repeat split; auto.
      * now rewrite add_scheduler_eq, F, E.
      * now apply joined_once.
    + repeat split; auto.
      * simpl. apply in_or_app. right. now left.
      * rewrite add_scheduler_eq. simpl. rewrite F.
        rewrite existsb_app. simpl.
        unfold joined at 2. simpl. rewrite !Nat.eqb_refl. simpl.
        now rewrite orb_true_r.
      * intros Hin. exfalso.
        assert (existsb (joined b (Scheduler.id s)) (booker_schedulers db)
                = true) as E'
          by (apply existsb_exists; eexists; split; eauto;
              now apply joined_true).
        congruence.
      * simpl. apply NoDup_snoc; [assumption|].
        intros Hin.
        assert (existsb (joined b (Scheduler.id s)) (booker_schedulers db)
                = true) as E'
          by (apply existsb_exists; eexists; split; eauto;
              now apply joined_true).
        congruence.
      * simpl. rewrite filter_app, (joined_absent _ _ _ E). simpl.
        unfold joined. simpl. now rewrite !Nat.eqb_refl.
  - intros s Hs Hpub <- Hn. rewrite add_scheduler_eq.
    rewrite (public_scheduler_found s (schedulers db) Hn Hs Hpub). eauto.
Qed.

(** Mary adds Alice, whom she has already listed: nothing changes and
    Alice is in her roster once.  John asks for a phone that no scheduler
    has: SchedulerNotFound. *)
Lemma roster_idempotent_witness :
  BookerPanelViewSet.add_scheduler 2 "09987654321" with_mary
  = (Ok alice, with_mary)
  /\ List.length (filter (joined 2 1) (booker_schedulers with_mary)) = 1
  /\ BookerPanelViewSet.add_scheduler 1 "00000000000" sample_db
     = (Raise [SchedulerNotFound], sample_db).
Proof.
  destruct (roster_idempotent 2 "09987654321" with_mary)
    as (_ & Hadd & _).
  destruct (Hadd alice with_mary eq_refl)
    as (_ & _ & _ & _ & Hagain & _ & Hcount).
  split; [exact Hagain|]. split.
  - apply Hcount. simpl.
    repeat constructor; simpl; intuition discriminate.
  - apply (proj1 (roster_idempotent 1 "00000000000" sample_db)).
    intros s [<-|[]]. discriminate.
Defined.

(* ================================================================== *)
(** * Paginated listings *)
(* ================================================================== *)

Lemma sorted_weaken {A : Type} (R R' : A -> A -> Prop) (l : list A) :
  (forall x y, R x y -> R' x y) ->
  StronglySorted R l -> StronglySorted R' l.
Proof.
  intros HR. induction 1 as [|x l Hl IH Hx]; constructor; auto.
  rewrite Forall_forall in *. auto.
Qed.

Lemma firstn_in {A : Type} (n : nat) (l : list A) (x : A) :
  In x (firstn n l) -> In x l.
Proof.
  intros H. rewrite <- (firstn_skipn n l). apply in_or_app. now left.
Qed.

Lemma skipn_in {A : Type} (n : nat) (l : list A) (x : A) :
  In x (skipn n l) -> In x l.
Proof.
  intros H. rewrite <- (firstn_skipn n l). apply in_or_app. now right.
Qed.

Lemma page_length (queryset : list Appointment.t)
    (cursor : option AppointmentsCPagination.Cursor) :
  List.length (AppointmentsCPagination.paginate_queryset queryset cursor)
  <= 5.
Proof.
  unfold AppointmentsCPagination.paginate_queryset. cbv zeta.
  destruct (AppointmentsCPagination.reverse _);
    [rewrite length_rev|]; apply firstn_le_length.
Qed.

Lemma page_time_ascending (queryset : list Appointment.t)
    (cursor : option AppointmentsCPagination.Cursor) :
  time_ascending
    (AppointmentsCPagination.paginate_queryset queryset cursor).
Proof.
  unfold AppointmentsCPagination.paginate_queryset, time_ascending.
  cbv zeta.
  destruct (AppointmentsCPagination.reverse _).
  - apply sorted_rev, sorted_firstn, sorted_skipn.
    assert (StronglySorted
              (fun x y => time_le (Appointment.time y) (Appointment.time x)
                          = true)
              (order_by AppointmentsCPagination.reverse_ordering
                 (order_by AppointmentsCPagination.pk_ordering queryset)))
      as Hs.
    { eapply sorted_weaken;
        [|apply (order_by_sorted AppointmentsCPagination.reverse_ordering)].
      - intros x y. unfold AppointmentsCPagination.reverse_ordering.
        now rewrite time_ge_le.
      - intros x y. unfold AppointmentsCPagination.reverse_ordering.
        rewrite !time_ge_le. apply time_le_total.
      - intros x y z. unfold AppointmentsCPagination.reverse_ordering.
        rewrite !time_ge_le. intros H1 H2. eapply time_le_trans; eauto. }
    destruct (AppointmentsCPagination.position _);
      [now apply sorted_filter|assumption].
  - apply sorted_firstn, sorted_skipn.
    assert (StronglySorted
              (fun x y => time_le (Appointment.time x) (Appointment.time y)
                          = true)
              (order_by AppointmentsCPagination.ordering
                 (order_by AppointmentsCPagination.pk_ordering queryset)))
      as Hs.
    { apply (order_by_sorted AppointmentsCPagination.ordering).
      - intros x y. apply time_le_total.
      - intros x y z. apply time_le_trans. }
    destruct (AppointmentsCPagination.position _);
      [now apply sorted_filter|assumption].
Qed.

Lemma page_of_queryset (queryset : list Appointment.t)
    (cursor : option AppointmentsCPagination.Cursor) (x : Appointment.t) :
  In x (AppointmentsCPagination.paginate_queryset queryset cursor) ->
  In x queryset.
Proof.
  unfold AppointmentsCPagination.paginate_queryset. cbv zeta.
  assert (forall l : list Appointment.t,
             In x (firstn AppointmentsCPagination.page_size
                     (skipn (AppointmentsCPagination.offset
                               match cursor with
                               | Some c => c
                               | None =>
                                   AppointmentsCPagination.mkCursor 0 false
                                     None
                               end) l)) -> In x l) as Hsub.
  { intros l H. eapply skipn_in. eapply firstn_in. exact H. }
  destruct (AppointmentsCPagination.reverse _).
  - intros H. apply in_rev in H. apply Hsub in H.
    destruct (AppointmentsCPagination.position _).
    + apply filter_In in H as [H _]. now apply order_by_in, order_by_in in H.
    + now apply order_by_in, order_by_in in H.
  - intros H. apply Hsub in H.
    destruct (AppointmentsCPagination.position _).
    + apply filter_In in H as [H _]. now apply order_by_in, order_by_in in H.
    + now apply order_by_in, order_by_in in H.
Qed.

(** C9.  Every page of either listing has at most 5 appointments, taken
    from the listed ones, in ascending time of day.  At the failing input
    the admin lists the two appointments of Alice: appointment 2 was
    created after appointment 1, so a listing by descending creation
    starts with appointment 2; the page starts with appointment 1, the
    earlier time of day. *)
Theorem paginated_listings :
  AppointmentsCPagination.page_size = 5
  /\ (forall cursor db,
        exists page,
          AdminPanelViewSet.list_appointments cursor db = (Ok page, db)
          /\ List.length page <= 5
          /\ time_ascending page
          /\ incl page (appointments db))
  /\ (forall s cursor db,
        exists page,
          SchedulerPanelViewSet.appointments s cursor db = (Ok page, db)
          /\ List.length page <= 5
          /\ time_ascending page
          /\ incl page (appointments db)
          /\ Forall (fun x => Appointment.scheduler x = s) page)
  /\ AdminPanelViewSet.list_appointments None two_appointments
     = (Ok [appointment_1; appointment_2], two_appointments)
  /\ (Appointment.created_at appointment_1
      < Appointment.created_at appointment_2)%Z
  /\ ~ creation_descending [appointment_1; appointment_2].
Proof.
  split; [reflexivity|]. split; [|split; [|split; [|split]]].
  - intros cursor db. eexists. split; [reflexivity|].
    split; [apply page_length|]. split; [apply page_time_ascending|].
    intros x Hx. apply page_of_queryset in Hx. now apply order_by_in in Hx.
  - intros s cursor db. eexists. split; [reflexivity|].
    split; [apply page_length|]. split; [apply page_time_ascending|].
    split; [|apply Forall_forall]; intros x Hx;
      apply page_of_queryset in Hx; apply order_by_in in Hx;
      apply filter_In in Hx as [Hx Hs]; [assumption|].
    now apply Nat.eqb_eq in Hs.
  - reflexivity.
  - reflexivity.
  - unfold creation_descending. intros H.
    inversion H as [|? ? _ Hall]; subst.
    inversion Hall as [|? ? Hle _]; subst.
    simpl in Hle. lia.
Qed.

(* ================================================================== *)
(** * What an update by the booker leaves alone *)
(* ================================================================== *)

Lemma written_elsewhere (a x : Appointment.t) :
  Appointment.id x <> Appointment.id a -> written a x = x.
Proof.
  intros H. unfold written.
  now apply Nat.eqb_neq in H as ->.
Qed.

(** C10: a successful update by the booker writes the booker's upcoming
    appointment with at most its date, time and note changed, each to the
    supplied value; its scheduler and its linked booker (and its key,
    booker name and creation time) are as before, every other appointment
    is as before, in place, and no other table is touched. *)
Theorem booker_update_frame (clk : Clock) (b : nat) (d : PartialData)
    (db db' : DB) (a' : Appointment.t)
    (Hdone : BookerPanelViewSet.update_my_appointment clk b d db
             = (Ok a', db')) :
  exists a,
    first (upcoming_of b clk db) = Some a
    /\ In a (appointments db)
    /\ Appointment.booker a = Some b
    /\ Appointment.upcoming clk a = true
    /\ Appointment.id a' = Appointment.id a
    /\ Appointment.scheduler a' = Appointment.scheduler a
    /\ Appointment.booker a' = Appointment.booker a
    /\ Appointment.booker_name a' = Appointment.booker_name a
    /\ Appointment.created_at a' = Appointment.created_at a
    /\ Appointment.date a' = supplied (new_date d) (Appointment.date a)
    /\ Appointment.time a' = supplied (new_time d) (Appointment.time a)
    /\ Appointment.note a' = supplied (new_note d) (Appointment.note a)
    /\ appointments db' = map (written a') (appointments db)
    /\ (forall i x,
          nth_error (appointments db) i = Some x ->
          Appointment.id x <> Appointment.id a ->
          nth_error (appointments db') i = Some x)
    /\ List.length (appointments db') = List.length (appointments db)
    /\ otps db' = otps db
    /\ role_users db' = role_users db
    /\ schedulers db' = schedulers db
    /\ bookers db' = bookers db
    /\ booker_schedulers db' = booker_schedulers db
    /\ appointment_seq db' = appointment_seq db.
Proof.
  rewrite booker_update_eq in Hdone.
  destruct (first (upcoming_of b clk db)) as [a|] eqn:Hmine;
    [|discriminate].
  cbv zeta in Hdone.
  destruct (BookerPanelUpdateAppointmentProfileSerializer.field_errors clk d);
    [|discriminate].
  destruct (date_eq _ _ && time_le _ _); [discriminate|].
  destruct (exists_ _); [discriminate|].
  injection Hdone as <- <-.
  destruct (first_upcoming_in _ _ _ _ Hmine) as (Hin & Hb & Hup).
  exists a. repeat split; auto.
  - intros i x Hx Hne. simpl.
    rewrite nth_error_map, Hx. simpl. f_equal.
    now apply written_elsewhere.
  - simpl. apply length_map.
Qed.

(** John moves appointment 1 from 10:00 to 12:00: Alice's walk-in stays
    as it was. *)
Lemma booker_update_frame_witness :
  exists a,
    first (upcoming_of 1 sample_clock two_appointments) = Some a
    /\ In a (appointments two_appointments)
    /\ (forall i x,
          nth_error (appointments two_appointments) i = Some x ->
          Appointment.id x <> Appointment.id a ->
          nth_error
            (appointments
               (snd (BookerPanelViewSet.update_my_appointment sample_clock 1
                       (mkPartial None (Some (time_hm 12 0)) None)
                       two_appointments))) i = Some x).
Proof.
  destruct (booker_update_frame sample_clock 1
              (mkPartial None (Some (time_hm 12 0)) None) two_appointments
              (snd (BookerPanelViewSet.update_my_appointment sample_clock 1
                      (mkPartial None (Some (time_hm 12 0)) None)
                      two_appointments))
              (Appointment.mk 1 1 (Some 1) "" (june 11) (time_hm 12 0) None
                 1749540000000000) eq_refl)
    as (a & Hmine & Hin & _ & _ & _ & _ & _ & _ & _ & _ & _ & _ & _ & Hrest
        & _).
  exists a. repeat split; assumption.
Defined.

(* ================================================================== *)
(** * The code that [generate_otp] draws *)
(* ================================================================== *)

Lemma string_of_uint_length (d : Decimal.uint) :
  String.length (NilEmpty.string_of_uint d) = Decimal.nb_digits d.
Proof. induction d; simpl; congruence. Qed.

Lemma string_of_uint_digits (d : Decimal.uint) :
  all_chars decimal_digit (NilEmpty.string_of_uint d) = true.
Proof. induction d; simpl; auto. Qed.

Lemma decimal_digit_isdigit (s : string) :
  all_chars decimal_digit s = true -> all_chars isdigit_char s = true.
Proof.
  induction s as [|c s IH]; simpl; [reflexivity|].
  rewrite !andb_true_iff. intros [Hc Hs]. split; [|auto].
  unfold isdigit_char, decimal_digit in *. now rewrite Hc.
Qed.

(** The value accumulated from the digits [l] after the prefix [acc]. *)
Lemma of_uint_acc_bounds (l : Decimal.uint) (acc : positive) :
  (N.pos acc * 10 ^ N.of_nat (Decimal.nb_digits l)
   <= N.pos (Pos.of_uint_acc l acc)
   < (N.pos acc + 1) * 10 ^ N.of_nat (Decimal.nb_digits l))%N.
Proof.
  revert acc; induction l; intros acc; cbn [Decimal.nb_digits];
    [simpl; lia|..];
    rewrite Nat2N.inj_succ, N.pow_succ_r';
    cbn [Pos.of_uint_acc];
    match goal with
    | |- context [Pos.of_uint_acc l ?a] =>
        specialize (IHl a);
        set (v := N.pos (Pos.of_uint_acc l a)) in *; clearbody v
    end;
    assert (0 < 10 ^ N.of_nat (Decimal.nb_digits l))%N
      by (apply N.neq_0_lt_0, N.pow_nonzero; lia);
    set (P := (10 ^ N.of_nat (Decimal.nb_digits l))%N) in *; clearbody P;


    nia.
Qed.

(** A numeral that starts with a digit other than zero and has [k]
    further digits lies between [10 ^ k] and [10 ^ (k + 1)]. *)
Lemma leading_digit_bounds (l : Decimal.uint) (c : positive) :
  (N.pos c <= 9)%N ->
  (10 ^ N.of_nat (Decimal.nb_digits l)
   <= N.pos (Pos.of_uint_acc l c)
   < 10 ^ N.of_nat (S (Decimal.nb_digits l)))%N.
Proof.
  intros Hc. pose proof (of_uint_acc_bounds l c) as H.
  rewrite Nat2N.inj_succ, N.pow_succ_r'.
  assert (0 < 10 ^ N.of_nat (Decimal.nb_digits l))%N
    by (apply N.neq_0_lt_0, N.pow_nonzero; lia).
  nia.
Qed.

Lemma six_digits_of_bounds (k : nat) (n : N) :
  (100000 <= n <= 999999)%N ->
  (10 ^ N.of_nat k <= n < 10 ^ N.of_nat (S k))%N ->
  k = 5.
Proof.
  intros Hn Hk.
  destruct (Nat.lt_trichotomy k 5) as [Hlt|[->|Hgt]]; [|reflexivity|].
  - assert (10 ^ N.of_nat (S k) <= 10 ^ 5)%N
      by (apply N.pow_le_mono_r; lia).
    simpl in *. lia.
  - assert (10 ^ 6 <= 10 ^ N.of_nat k)%N
      by (apply N.pow_le_mono_r; lia).
    simpl in *. lia.
Qed.

Lemma to_uint_normal (n : N) : Decimal.unorm (N.to_uint n) = N.to_uint n.
Proof.
  rewrite <- (DecimalN.Unsigned.to_of (N.to_uint n)).
  now rewrite DecimalN.Unsigned.of_to.
Qed.

(** The numeral of a number from 100000 to 999999: a digit other than
    zero, then five digits. *)
Lemma to_uint_six (n : N) :
  (100000 <= n <= 999999)%N ->
  Decimal.nb_digits (N.to_uint n) = 6
  /\ forall l, N.to_uint n <> Decimal.D0 l.
Proof.
  intros Hn.
  pose proof (DecimalN.Unsigned.of_to n) as Hof.
  pose proof (to_uint_normal n) as Hnorm.
  destruct (N.to_uint n) as [|l|l|l|l|l|l|l|l|l|l] eqn:E;
    try (split; [|discriminate];
         simpl Decimal.nb_digits; f_equal;
         unfold N.of_uint in Hof; simpl Pos.of_uint in Hof;
         apply (six_digits_of_bounds _ n Hn);
         rewrite <- Hof; apply leading_digit_bounds; simpl; lia).
  - simpl in Hof. lia.
  - exfalso. rewrite unorm_D0 in Hnorm.
    unfold Decimal.unorm in Hnorm.
    destruct (Decimal.nzhead l) eqn:Z;
      try (apply (nzhead_nonzero l l); congruence);
      try discriminate.
    injection Hnorm as <-. simpl in Hof. lia.
Qed.

Lemma str_injective (n m : N) : str n = str m -> n = m.
Proof.
  unfold str. intros H.
  apply DecimalN.Unsigned.to_uint_inj.
  assert (Some (N.to_uint n) = Some (N.to_uint m)) as E
    by (rewrite <- !NilEmpty.usu; now rewrite H).
  now injection E.
Qed.

(** X1: whatever number from 100000 to 999999 is drawn, the code is a
    string of exactly six decimal digits that does not start with a
    zero, so it fits the six characters of [OTP.code]; and two draws
    give the same code only if they are the same number. *)
Theorem generate_otp_six_digits (randint : N)
    (Hdrawn : (100000 <= randint <= 999999)%N) :
  len (generate_otp randint) = 6
  /\ all_chars decimal_digit (generate_otp randint) = true
  /\ isdigit (generate_otp randint) = true
  /\ (forall s, generate_otp randint <> String "0" s)
  /\ (forall randint',
        generate_otp randint' = generate_otp randint -> randint' = randint).
Proof.
  destruct (to_uint_six randint Hdrawn) as [Hsix Hlead].
  assert (len (generate_otp randint) = 6) as Hlen
    by (unfold len, generate_otp, str;
        now rewrite string_of_uint_length).
  assert (all_chars decimal_digit (generate_otp randint) = true) as Hdig
    by apply string_of_uint_digits.
  split; [exact Hlen|]. split; [exact Hdig|]. split; [|split].
  - unfold isdigit. destruct (generate_otp randint) eqn:E; [discriminate|].
    now apply decimal_digit_isdigit.
  - intros s. unfold generate_otp, str.
    destruct (N.to_uint randint) eqn:E; simpl; try discriminate.
    exfalso. now apply (Hlead u).
  - intros randint'. apply str_injective.
Qed.

Lemma generate_otp_six_digits_witness :
  len (generate_otp 483920) = 6
  /\ isdigit (generate_otp 483920) = true.
Proof.
  pose proof (generate_otp_six_digits 483920) as H.
  assert ((100000 <= 483920 <= 999999)%N) as Hd by (split; discriminate).
  destruct (H Hd) as (Hlen & _ & Hdig & _).
  split; assumption.
Defined.

(* ================================================================== *)
(** * Registration *)
(* ================================================================== *)

Lemma well_formed_check (phone : string) :
  negb (isdigit phone) || negb (len phone =? 11) = negb (well_formed phone).
Proof. unfold well_formed. now rewrite negb_andb. Qed.

(** The registration of a booker, case by case. *)
Lemma register_booker_eq (clk : Clock)
    (d : RegisterBookerWithPhoneSerializer.data) (randint : N)
    (site : Site) :
  RegisterBookerWithPhoneView.post clk d randint site
  = let phone := RegisterBookerWithPhoneSerializer.phone d in
    if negb (well_formed phone)
    then (bad_request [must_be_11_digits], site)
    else if existsb (fun b => String.eqb (Booker.phone b) phone)
              (bookers (store site))
    then (bad_request [already_registered], site)
    else if existsb (fun u => String.eqb (User.username u) phone)
              (users site)
    then (integrity_error, site)
    else (otp_sent, booker_registered clk d (generate_otp randint) site).
Proof.
  unfold RegisterBookerWithPhoneView.post,
    RegisterBookerWithPhoneSerializer.validate_phone,
    RegisterBookerWithPhoneSerializer.create.
  cbv zeta. rewrite well_formed_check, exists_filter.
  destruct (well_formed _); simpl; [|reflexivity].
  destruct (existsb _ (bookers (store site))) eqn:B; [reflexivity|].
  unfold create_user.
  destruct (existsb _ (users site)); [reflexivity|].
  unfold create_role_user, create_booker. simpl. rewrite B.
  reflexivity.
Qed.

Lemma register_scheduler_eq (clk : Clock)
    (d : RegisterSchedulerWithPhoneSerializer.data) (randint : N)
    (site : Site) :
  RegisterSchedulerWithPhoneView.post clk d randint site
  = let phone := RegisterSchedulerWithPhoneSerializer.phone d in
    if negb (well_formed phone)
    then (bad_request [must_be_11_digits], site)
    else if existsb (fun s => String.eqb (Scheduler.phone s) phone)
              (schedulers (store site))
    then (bad_request [already_registered], site)
    else if existsb (fun u => String.eqb (User.username u) phone)
              (users site)
    then (integrity_error, site)
    else (otp_sent, scheduler_registered clk d (generate_otp randint) site).
Proof.
  unfold RegisterSchedulerWithPhoneView.post,
    RegisterSchedulerWithPhoneSerializer.validate_phone,
    RegisterSchedulerWithPhoneSerializer.create.
  cbv zeta. rewrite well_formed_check, exists_filter.
  destruct (well_formed _); simpl; [|reflexivity].
  destruct (existsb _ (schedulers (store site))) eqn:B; [reflexivity|].
  unfold create_user.
  destruct (existsb _ (users site)); [reflexivity|].
  unfold create_role_user, create_scheduler. simpl. rewrite B.
  reflexivity.
Qed.

Lemma no_such_string {A : Type} (f : A -> string) (v : string)
    (l : list A) :
  existsb (fun x => String.eqb (f x) v) l = false <-> ~ In v (map f l).
Proof.
  split.
  - intros E Hin. apply in_map_iff in Hin as (x & Hx & Hin).
    assert (existsb (fun x => String.eqb (f x) v) l = true) as E'
      by (apply existsb_exists; exists x; split; [assumption|];
          now apply String.eqb_eq).
    congruence.
  - intros Hn. destruct (existsb _ l) eqn:E; [|reflexivity].
    apply existsb_exists in E as (x & Hin & Hx).
    apply String.eqb_eq in Hx. exfalso. apply Hn. rewrite <- Hx.
    now apply in_map.
Qed.

Lemma in_snoc {A : Type} (l : list A) (x y : A) :
  In y (l ++ [x]) <-> In y l \/ y = x.
Proof. rewrite in_app_iff. simpl. intuition congruence. Qed.

Lemma booker_registered_ok (clk : Clock)
    (d : RegisterBookerWithPhoneSerializer.data) (code : string)
    (site : Site) :
  site_ok site ->
  ~ In (RegisterBookerWithPhoneSerializer.phone d)
       (map Booker.phone (bookers (store site))) ->
  ~ In (RegisterBookerWithPhoneSerializer.phone d)
       (map User.username (users site)) ->
  site_ok (booker_registered clk d code site).
Proof.
  intros (Hu & Hru & Hb & Hs & Hnames & Hbp & Hsp & Hone) Hphone Hname.
  unfold site_ok, booker_registered; simpl.
  repeat split.
  - intros u Hin. apply in_snoc in Hin as [Hin| ->]; [|simpl; lia].
    apply Hu in Hin. lia.
  - apply in_snoc in H as [Hin| ->]; [|simpl; lia].
    apply Hru in Hin. lia.
  - apply in_snoc in H as [Hin| ->]; [|simpl; lia].
    apply Hru in Hin. lia.
  - apply in_snoc in H as [Hin| ->]; [|simpl; lia].
    apply Hb in Hin. lia.
  - intros k Hk. apply in_snoc in H as [Hin| ->].
    + apply Hb in Hin as [_ Hin]. apply Hin in Hk. lia.
    + simpl in Hk. injection Hk as <-. lia.
  - now apply Hs.
  - intros k Hk. apply Hs in H as [_ H]. apply H in Hk. lia.
  - rewrite map_app. simpl. now apply NoDup_snoc.
  - rewrite map_app. simpl. now apply NoDup_snoc.
  - assumption.
  - rewrite map_app. simpl. apply NoDup_snoc; [assumption|].
    intros Hin. apply in_map_iff in Hin as (ru & Hx & Hin).
    apply Hru in Hin. lia.
Qed.

Lemma scheduler_registered_ok (clk : Clock)
    (d : RegisterSchedulerWithPhoneSerializer.data) (code : string)
    (site : Site) :
  site_ok site ->
  ~ In (RegisterSchedulerWithPhoneSerializer.phone d)
       (map Scheduler.phone (schedulers (store site))) ->
  ~ In (RegisterSchedulerWithPhoneSerializer.phone d)
       (map User.username (users site)) ->
  site_ok (scheduler_registered clk d code site).
Proof.
  intros (Hu & Hru & Hb & Hs & Hnames & Hbp & Hsp & Hone) Hphone Hname.
  unfold site_ok, scheduler_registered; simpl.
  repeat split.
  - intros u Hin. apply in_snoc in Hin as [Hin| ->]; [|simpl; lia].
    apply Hu in Hin. lia.
  - apply in_snoc in H as [Hin| ->]; [|simpl; lia].
    apply Hru in Hin. lia.
  - apply in_snoc in H as [Hin| ->]; [|simpl; lia].
    apply Hru in Hin. lia.
  - now apply Hb.
  - intros k Hk. apply Hb in H as [_ H]. apply H in Hk. lia.
  - apply in_snoc in H as [Hin| ->]; [|simpl; lia].
    apply Hs in Hin. lia.
  - intros k Hk. apply in_snoc in H as [Hin| ->].
    + apply Hs in Hin as [_ Hin]. apply Hin in Hk. lia.
    + simpl in Hk. injection Hk as <-. lia.
  - rewrite map_app. simpl. now apply NoDup_snoc.
  - assumption.
  - rewrite map_app. simpl. now apply NoDup_snoc.
  - rewrite map_app. simpl. apply NoDup_snoc; [assumption|].
    intros Hin. apply in_map_iff in Hin as (ru & Hx & Hin).
    apply Hru in Hin. lia.
Qed.

(** X2: a registration, of a booker or of a scheduler, keeps the
    accounts sound: primary keys stay below their sequences and no two
    accounts share a username, no two bookers or two schedulers a phone,
    no two role profiles an account. *)
Theorem registration_keeps_accounts_sound (clk : Clock) (randint : N)
    (site : Site) (Hok : site_ok site) :
  (forall d,
      site_ok (snd (RegisterBookerWithPhoneView.post clk d randint site)))
  /\ (forall d,
        site_ok (snd (RegisterSchedulerWithPhoneView.post clk d randint
                        site))).
Proof.
  split; intros d.
  - rewrite register_booker_eq. cbv zeta.
    destruct (negb _); [exact Hok|].
    destruct (existsb _ (bookers (store site))) eqn:B; [exact Hok|].
    destruct (existsb _ (users site)) eqn:U; [exact Hok|].
    simpl. apply booker_registered_ok; auto; now apply no_such_string.
  - rewrite register_scheduler_eq. cbv zeta.
    destruct (negb _); [exact Hok|].
    destruct (existsb _ (schedulers (store site))) eqn:B; [exact Hok|].
    destruct (existsb _ (users site)) eqn:U; [exact Hok|].
    simpl. apply scheduler_registered_ok; auto; now apply no_such_string.
Qed.

Lemma empty_site_ok : site_ok empty_site.
Proof.
  unfold site_ok, empty_site; simpl.
  repeat split; try constructor; simpl; tauto.
Qed.

Lemma registration_keeps_accounts_sound_witness :
  site_ok
    (snd (RegisterBookerWithPhoneView.post sample_clock
            (RegisterBookerWithPhoneSerializer.mk "09123456789" "John" "Doe")
            483920 empty_site)).
Proof.
  apply (proj1 (registration_keeps_accounts_sound sample_clock 483920
                  empty_site empty_site_ok)).
Defined.

Lemma existsb_snoc {A : Type} (f : A -> bool) (l : list A) (x : A) :
  existsb f (l ++ [x]) = existsb f l || f x.
Proof. rewrite existsb_app. simpl. now rewrite orb_false_r. Qed.

(** X3: a registration that is not answered "OTP sent" writes nothing;
    and once a phone has registered as a booker, it registers neither as
    a booker again (already registered) nor as a scheduler: that request
    is answered "already registered" if a scheduler has the phone and
    otherwise stops at the IntegrityError of the account's username,
    which the view does not catch.  Neither writes anything. *)
Theorem phone_registers_once (clk : Clock)
    (d : RegisterBookerWithPhoneSerializer.data) (randint : N)
    (site site' : Site)
    (Hsent : RegisterBookerWithPhoneView.post clk d randint site
             = (otp_sent, site')) :
  (forall clk2 d2 randint2 answer site2,
      RegisterBookerWithPhoneView.post clk2 d2 randint2 site'
      = (answer, site2) ->
      answer <> otp_sent -> site2 = site')
  /\ (forall clk2 d2 randint2 answer site2,
        RegisterSchedulerWithPhoneView.post clk2 d2 randint2 site'
        = (answer, site2) ->
        answer <> otp_sent -> site2 = site')
  /\ (forall clk2 d2 randint2,
        RegisterBookerWithPhoneSerializer.phone d2
        = RegisterBookerWithPhoneSerializer.phone d ->
        RegisterBookerWithPhoneView.post clk2 d2 randint2 site'
        = (bad_request [already_registered], site'))
  /\ (forall clk2 d2 randint2,
        RegisterSchedulerWithPhoneSerializer.phone d2
        = RegisterBookerWithPhoneSerializer.phone d ->
        RegisterSchedulerWithPhoneView.post clk2 d2 randint2 site'
        = (if existsb
                (fun s => String.eqb (Scheduler.phone s)
                            (RegisterBookerWithPhoneSerializer.phone d))
                (schedulers (store site))
           then bad_request [already_registered]
           else integrity_error, site')).
Proof.
  rewrite register_booker_eq in Hsent. cbv zeta in Hsent.
  destruct (well_formed _) eqn:W; [|discriminate]. simpl in Hsent.
  destruct (existsb _ (bookers (store site))) eqn:B; [discriminate|].
  destruct (existsb _ (users site)) eqn:U; [discriminate|].
  injection Hsent as <-.
  split; [|split; [|split]].
  - intros clk2 d2 randint2 answer site2. rewrite register_booker_eq.
    cbv zeta. clear W B U.
    destruct (negb _); [intros H _; now inversion H|].
    destruct (existsb _ (bookers _)); [intros H _; now inversion H|].
    destruct (existsb _ (users _)); [intros H _; now inversion H|].
    intros H Hn. inversion H; subst. now exfalso.
  - intros clk2 d2 randint2 answer site2. rewrite register_scheduler_eq.
    cbv zeta. clear W B U.
    destruct (negb _); [intros H _; now inversion H|].
    destruct (existsb _ (schedulers _)); [intros H _; now inversion H|].
    destruct (existsb _ (users _)); [intros H _; now inversion H|].
    intros H Hn. inversion H; subst. now exfalso.
  - intros clk2 d2 randint2 Hsame. rewrite register_booker_eq. cbv zeta.
    rewrite Hsame, W. simpl. rewrite existsb_snoc. simpl.
    now rewrite String.eqb_refl, orb_true_r.
  - intros clk2 d2 randint2 Hsame. rewrite register_scheduler_eq. cbv zeta.
    rewrite Hsame, W. simpl.
    destruct (existsb _ (schedulers (store site))); [reflexivity|].
    rewrite existsb_snoc. simpl.
    now rewrite String.eqb_refl, orb_true_r.
Qed.

Lemma phone_registers_once_witness :
  RegisterBookerWithPhoneView.post four_minutes_later
    (RegisterBookerWithPhoneSerializer.mk "09123456789" "Johnny" "Doe")
    100000
    (snd (RegisterBookerWithPhoneView.post sample_clock
            (RegisterBookerWithPhoneSerializer.mk "09123456789" "John" "Doe")
            483920 empty_site))
  = (bad_request [already_registered],
     snd (RegisterBookerWithPhoneView.post sample_clock
            (RegisterBookerWithPhoneSerializer.mk "09123456789" "John" "Doe")
            483920 empty_site)).
Proof.
  apply (proj1 (proj2 (proj2
           (phone_registers_once sample_clock
              (RegisterBookerWithPhoneSerializer.mk "09123456789" "John"
                 "Doe")
              483920 empty_site _ eq_refl)))).
  reflexivity.
Defined.

Lemma filter_none {A : Type} (f : A -> bool) (l : list A) :
  (forall x, In x l -> f x = false) -> filter f l = [].
Proof.
  induction l as [|x l IH]; simpl; intros H; [reflexivity|].
  rewrite (H x) by now left. apply IH. intros y Hy. apply H. now right.
Qed.

Lemma last_row_snoc {A : Type} (l : list A) (x : A) :
  last_row (l ++ [x]) = Some x.
Proof. unfold last_row. now rewrite rev_app_distr. Qed.

Lemma find_snoc_new {A : Type} (f : A -> bool) (l : list A) (x : A) :
  (forall y, In y l -> f y = false) -> f x = true ->
  find f (l ++ [x]) = Some x.
Proof.
  induction l as [|y l IH]; simpl; intros Hl Hx; [now rewrite Hx|].
  rewrite (Hl y) by now left. apply IH; auto.
Qed.

Lemma existsb_none {A : Type} (f : A -> bool) (l : list A) :
  (forall x, In x l -> f x = false) -> existsb f l = false.
Proof.
  induction l as [|x l IH]; simpl; intros H; [reflexivity|].
  rewrite (H x) by now left. apply IH. intros y Hy. apply H. now right.
Qed.

Lemma existsb_none_inv {A : Type} (f : A -> bool) (l : list A) :
  existsb f l = false -> forall x, In x l -> f x = false.
Proof.
  intros H x Hx. destruct (f x) eqn:E; [|reflexivity].
  rewrite <- H. symmetry. apply existsb_exists. eauto.
Qed.

(** The role profiles reached from the phone of a booker who has just
    registered: the new one alone. *)
Lemma registered_role_user (clk : Clock)
    (d : RegisterBookerWithPhoneSerializer.data) (code : string)
    (site : Site) :
  site_ok site ->
  existsb (fun b => String.eqb (Booker.phone b)
                      (RegisterBookerWithPhoneSerializer.phone d))
    (bookers (store site)) = false ->
  (forall s, In s (schedulers (store site)) ->
             Scheduler.phone s = RegisterBookerWithPhoneSerializer.phone d ->
             Scheduler.owner s = None) ->
  role_users_of_phone (RegisterBookerWithPhoneSerializer.phone d)
    (store (booker_registered clk d code site))
  = [RoleUser.mk (role_user_seq site) (user_seq site) role_booker].
Proof.
  intros (_ & Hru & _) B Hunowned.
  unfold role_users_of_phone, booker_registered. simpl.
  rewrite filter_app. simpl.
  rewrite existsb_snoc. simpl.
  rewrite Nat.eqb_refl, String.eqb_refl. simpl. rewrite orb_true_r. simpl.
  rewrite filter_none; [reflexivity|].
  intros ru Hin. apply Hru in Hin as [Hid _].
  apply orb_false_iff; split.
  - rewrite existsb_snoc. apply orb_false_iff; split.
    + apply existsb_none. intros b Hb.
      apply andb_false_iff. right.
      apply (existsb_none_inv _ _ B b Hb).
    + simpl. apply andb_false_iff. left. apply Nat.eqb_neq. lia.
  - apply existsb_none. intros s Hs.
    destruct (String.eqb_spec (Scheduler.phone s)
                (RegisterBookerWithPhoneSerializer.phone d)) as [Hx|Hx].
    + rewrite (Hunowned s Hs Hx). reflexivity.
    + apply andb_false_r.
Qed.

(** X4: a booker who has just registered and sends back the code within
    three minutes is issued the tokens of the new account, on verify-otp
    and on login-verify alike, whatever older codes the store holds;
    after more than three minutes verify-otp answers that the code has
    expired.  The phone must not be that of a scheduler profile that an
    account owns: the tokens go to the first role profile that the phone
    reaches. *)
Theorem register_then_verify (clk clk2 : Clock)
    (d : RegisterBookerWithPhoneSerializer.data) (randint : N)
    (site site' : Site)
    (Hok : site_ok site)
    (Hsent : RegisterBookerWithPhoneView.post clk d randint site
             = (otp_sent, site'))
    (Hunowned :
       forall s, In s (schedulers (store site)) ->
                 Scheduler.phone s = RegisterBookerWithPhoneSerializer.phone d
                 -> Scheduler.owner s = None) :
  In (User.mk (user_seq site) (RegisterBookerWithPhoneSerializer.phone d))
     (users site')
  /\ ((instant clk2 - instant clk <= three_minutes)%Z ->
      VerifyOTPView.post clk2 (RegisterBookerWithPhoneSerializer.phone d)
        (generate_otp randint) (store site')
      = (Ok (for_user (user_seq site)), store site'))
  /\ ((instant clk2 - instant clk > three_minutes)%Z ->
      VerifyOTPView.post clk2 (RegisterBookerWithPhoneSerializer.phone d)
        (generate_otp randint) (store site')
      = (Raise [Expired], store site'))
  /\ OTPLoginVerifyView.post clk2 (RegisterBookerWithPhoneSerializer.phone d)
       (generate_otp randint) (store site')
     = (Ok (for_user (user_seq site)), store site').
Proof.
  rewrite register_booker_eq in Hsent. cbv zeta in Hsent.
  destruct (well_formed _) eqn:W; [|discriminate]. simpl in Hsent.
  destruct (existsb _ (bookers (store site))) eqn:B; [discriminate|].
  destruct (existsb _ (users site)) eqn:U; [discriminate|].
  injection Hsent as <-.
  pose proof (registered_role_user clk d (generate_otp randint) site Hok B
                Hunowned) as Hreach.
  assert (last_row
            (otps_matching (RegisterBookerWithPhoneSerializer.phone d)
               (generate_otp randint)
               (store (booker_registered clk d (generate_otp randint) site)))
          = Some (OTP.mk (RegisterBookerWithPhoneSerializer.phone d)
                    (generate_otp randint) (instant clk))) as Hlast.
  { unfold otps_matching, booker_registered. simpl.
    rewrite filter_app. simpl. rewrite !String.eqb_refl. simpl.
    apply last_row_snoc. }
  split; [|split; [|split]].
  - simpl. apply in_snoc. now right.
  - intros Hage.
    destruct (verify_otp_outcomes clk2
                (RegisterBookerWithPhoneSerializer.phone d)
                (generate_otp randint)
                (store (booker_registered clk d (generate_otp randint) site)))
      as (_ & _ & Hfresh).
    rewrite (Hfresh _ (RoleUser.mk (role_user_seq site) (user_seq site)
                         role_booker) Hlast); [reflexivity|simpl; lia|].
    now rewrite Hreach.
  - intros Hage.
    destruct (verify_otp_outcomes clk2
                (RegisterBookerWithPhoneSerializer.phone d)
                (generate_otp randint)
                (store (booker_registered clk d (generate_otp randint) site)))
      as (_ & Hstale & _).
    apply (Hstale _ Hlast). simpl; lia.
  - destruct (login_verify_outcomes clk2
                (RegisterBookerWithPhoneSerializer.phone d)
                (generate_otp randint)
                (store (booker_registered clk d (generate_otp randint) site)))
      as (_ & Hfound).
    rewrite (Hfound (RoleUser.mk (role_user_seq site) (user_seq site)
                       role_booker)); [reflexivity| |now rewrite Hreach].
    intros E. unfold last_row in Hlast. rewrite E in Hlast. discriminate.
Qed.

Lemma register_then_verify_witness :
  VerifyOTPView.post
    (mkClock (instant sample_clock + 60000000) (june 10) (time_hm 9 1))
    "09123456789" (generate_otp 483920)
    (store (snd (RegisterBookerWithPhoneView.post sample_clock
                   (RegisterBookerWithPhoneSerializer.mk "09123456789" "John"
                      "Doe") 483920 empty_site)))
  = (Ok (for_user 1),
     store (snd (RegisterBookerWithPhoneView.post sample_clock
                   (RegisterBookerWithPhoneSerializer.mk "09123456789" "John"
                      "Doe") 483920 empty_site))).
Proof.
  apply (proj1 (proj2
           (register_then_verify sample_clock
              (mkClock (instant sample_clock + 60000000) (june 10)
                 (time_hm 9 1))
              (RegisterBookerWithPhoneSerializer.mk "09123456789" "John"
                 "Doe")
              483920 empty_site _ empty_site_ok eq_refl
              (fun s (H : In s []) => match H with end)))).
  discriminate.
Defined.

(** X5: the account of a booker who has just registered has the
    permission of the booker panel and not that of the scheduler panel,
    and the booker panel finds the profile that the registration stored,
    with the name, family name and phone that were sent. *)
Theorem register_then_panel (clk : Clock)
    (d : RegisterBookerWithPhoneSerializer.data) (randint : N)
    (site site' : Site)
    (Hok : site_ok site)
    (Hsent : RegisterBookerWithPhoneView.post clk d randint site
             = (otp_sent, site')) :
  let user := user_seq site in
  let role_user := RoleUser.mk (role_user_seq site) user role_booker in
  role_profile user (store site') = Some role_user
  /\ IsBooker.has_permission user (store site') = true
  /\ IsScheduler.has_permission user (store site') = false
  /\ get_booker role_user (store site')
     = (Ok (Booker.mk (booker_seq site) (Some (role_user_seq site))
              (RegisterBookerWithPhoneSerializer.name d)
              (RegisterBookerWithPhoneSerializer.family d)
              (RegisterBookerWithPhoneSerializer.phone d)),
        store site').
Proof.
  rewrite register_booker_eq in Hsent. cbv zeta in Hsent.
  destruct (well_formed _) eqn:W; [|discriminate]. simpl in Hsent.
  destruct (existsb _ (bookers (store site))) eqn:B; [discriminate|].
  destruct (existsb _ (users site)) eqn:U; [discriminate|].
  injection Hsent as <-.
  destruct Hok as (_ & Hru & Hb & _).
  intros user role_user.
  assert (role_profile user
            (store (booker_registered clk d (generate_otp randint) site))
          = Some role_user) as Hprofile.
  { unfold role_profile, booker_registered. simpl.
    apply find_snoc_new; [|apply Nat.eqb_refl].
    intros ru Hin. apply Hru in Hin as [_ Hin].
    apply Nat.eqb_neq. unfold user. lia. }
  split; [exact Hprofile|].
  unfold IsBooker.has_permission, IsScheduler.has_permission.
  rewrite Hprofile. simpl. repeat split.
  unfold get_booker, bind, gets, ret. simpl.
  rewrite filter_app. simpl. rewrite Nat.eqb_refl.
  rewrite filter_none; [reflexivity|].
  intros b Hin. apply Hb in Hin as [_ Hin].
  unfold owner_is. destruct (Booker.owner b) as [k|]; [|reflexivity].
  simpl. apply Nat.eqb_neq. specialize (Hin k eq_refl). lia.
Qed.

Lemma register_then_panel_witness :
  IsBooker.has_permission 1
    (store (snd (RegisterBookerWithPhoneView.post sample_clock
                   (RegisterBookerWithPhoneSerializer.mk "09123456789" "John"
                      "Doe") 483920 empty_site))) = true.
Proof.
  apply (register_then_panel sample_clock
           (RegisterBookerWithPhoneSerializer.mk "09123456789" "John" "Doe")
           483920 empty_site _ empty_site_ok eq_refl).
Defined.

(* ================================================================== *)
(** * The booker panel: what a booker sees of a reservation *)
(* ================================================================== *)

(** Upcoming, on the keys that order the table: the date and time of the
    appointment come after the reading of the clock. *)
Lemma upcoming_key (clk : Clock) (a : Appointment.t) :
  Appointment.upcoming clk a
  = cmp_gt (tuple_cmp
              (date_key (Appointment.date a) ++ time_key (Appointment.time a))%list
              (date_key (today clk) ++ time_key (now_time clk))%list).
Proof.
  unfold Appointment.upcoming, date_gt, date_eq, time_gt, date_cmp, time_cmp,
    date_key.
  destruct (Appointment.date a) as [y m dd], (today clk) as [y' m' dd'].
  simpl.
  destruct (Nat.compare y y'); simpl; try reflexivity.
  destruct (Nat.compare m m'); simpl; try reflexivity.
  destruct (Nat.compare dd dd'); simpl; reflexivity.
Qed.

(** What is upcoming at a later reading was upcoming before. *)
Lemma upcoming_later (clk later : Clock) (a : Appointment.t) :
  not_before clk later = true ->
  Appointment.upcoming later a = true ->
  Appointment.upcoming clk a = true.
Proof.
  unfold not_before. rewrite !upcoming_key.
  set (ka := (date_key (Appointment.date a)
              ++ time_key (Appointment.time a))%list).
  set (k1 := (date_key (today clk) ++ time_key (now_time clk))%list).
  set (k2 := (date_key (today later) ++ time_key (now_time later))%list).
  intros H12 Ha.
  rewrite (tuple_cmp_antisym k1 ka).
  rewrite (tuple_cmp_antisym k2 ka) in Ha.
  destruct (tuple_cmp k2 ka) eqn:E2; try discriminate.
  destruct (tuple_cmp k1 k2) eqn:E1; try discriminate.
  - apply tuple_cmp_eq in E1. rewrite E1, E2. reflexivity.
  - now rewrite (tuple_cmp_lt_trans _ _ _ E1 E2).
Qed.

Lemma not_before_refl (clk : Clock) : not_before clk clk = true.
Proof. unfold not_before. now rewrite tuple_cmp_refl. Qed.

Lemma meta_ordering_total (x y : Appointment.t) :
  Appointment.meta_ordering x y = false ->
  Appointment.meta_ordering y x = true.
Proof.
  unfold Appointment.meta_ordering.
  rewrite (tuple_cmp_antisym
             (date_key (Appointment.date x)
              ++ time_key (Appointment.time x))%list).
  now destruct (tuple_cmp _ _).
Qed.

Lemma meta_ordering_trans (x y z : Appointment.t) :
  Appointment.meta_ordering x y = true ->
  Appointment.meta_ordering y z = true ->
  Appointment.meta_ordering x z = true.
Proof. apply tuple_cmp_le_trans. Qed.

Lemma order_by_length {A : Type} (le : A -> A -> bool) (l : list A) :
  List.length (order_by le l) = List.length l.
Proof.
  induction l as [|x l IH]; [reflexivity|].
  change (order_by le (x :: l)) with (insert_by le x (order_by le l)).
  rewrite insert_by_length, IH. reflexivity.
Qed.

Lemma order_by_nil {A : Type} (le : A -> A -> bool) (l : list A) :
  order_by le l = [] <-> l = [].
Proof.
  split; [|now intros ->].
  intros H. apply (f_equal (@List.length A)) in H.
  rewrite order_by_length in H. now destruct l.
Qed.

(** The upcoming appointments of a booker after one more row has been
    stored for him. *)
Lemma upcoming_of_snoc (b : nat) (clk : Clock) (db db' : DB)
    (a : Appointment.t) :
  appointments db' = (appointments db ++ [a])%list ->
  Appointment.booker a = Some b ->
  upcoming_of b clk db = [] ->
  upcoming_of b clk db'
  = if Appointment.upcoming clk a then [a] else [].
Proof.
  unfold upcoming_of. intros -> Hb Hnone.
  apply order_by_nil in Hnone.
  rewrite !filter_app, Hnone. simpl.
  unfold Appointment.has_booker at 1. rewrite Hb, Nat.eqb_refl. simpl.
  now destruct (Appointment.upcoming clk a).
Qed.

Lemma upcoming_of_none_later (b : nat) (clk later : Clock) (db : DB) :
  not_before clk later = true ->
  upcoming_of b clk db = [] -> upcoming_of b later db = [].
Proof.
  unfold upcoming_of. intros Hlater Hnone.
  apply order_by_nil in Hnone. apply order_by_nil.
  apply filter_none. intros x Hx.
  destruct (Appointment.upcoming later x) eqn:E; [|reflexivity].
  apply (upcoming_later clk) in E; [|assumption].
  assert (In x (filter (Appointment.upcoming clk)
                  (filter (Appointment.has_booker b) (appointments db))))
    as Hin by (apply filter_In; now split).
  rewrite Hnone in Hin. destruct Hin.
Qed.

(** A reservation that is accepted: the row it stores and the roster it
    went through. *)
Lemma accepted_reservation (clk : Clock) (b : nat)
    (d : BookerAppointmentCreateSerializer.data) (db db' : DB)
    (a : Appointment.t) :
  BookerPanelViewSet.reserve_appointment clk b d db = (Ok a, db') ->
  a = Appointment.mk (appointment_seq db)
        (BookerAppointmentCreateSerializer.scheduler d) (Some b) ""
        (BookerAppointmentCreateSerializer.date d)
        (BookerAppointmentCreateSerializer.time d)
        (BookerAppointmentCreateSerializer.note d) (instant clk)
  /\ in_roster b (BookerAppointmentCreateSerializer.scheduler d) db = true.
Proof.
  rewrite reserve_eq.
  destruct (exists_ (upcoming_of b clk db)); [discriminate|].
  destruct (in_roster b _ db); [|discriminate]. simpl.
  destruct (exists_ (appointments_at _ _ _ db)) eqn:T; [discriminate|].
  destruct (in_the_past clk _ _); [discriminate|].
  unfold BookerAppointmentCreateSerializer.save.
  rewrite insert_appointment_eq. simpl. rewrite T.
  intros H; injection H as <- _. split; reflexivity.
Qed.

(** X6: a reservation that is accepted stores one new appointment, of
    this booker with a scheduler of his roster, under the next primary
    key; the booker held no upcoming appointment.  From then on, at every
    reading of the clock at which the appointment is still to come,
    my-appointment answers with it and every further reservation of the
    booker is refused with ActiveAppointmentExists; once its time has
    come my-appointment answers 404 and the appointment is listed among
    the past ones. *)
Theorem reserve_then_my_appointment (clk : Clock) (b : nat)
    (d : BookerAppointmentCreateSerializer.data) (db db' : DB)
    (a : Appointment.t)
    (Hdone : BookerPanelViewSet.reserve_appointment clk b d db
             = (Ok a, db')) :
  a = Appointment.mk (appointment_seq db)
        (BookerAppointmentCreateSerializer.scheduler d) (Some b) ""
        (BookerAppointmentCreateSerializer.date d)
        (BookerAppointmentCreateSerializer.time d)
        (BookerAppointmentCreateSerializer.note d) (instant clk)
  /\ appointments db' = (appointments db ++ [a])%list
  /\ in_roster b (Appointment.scheduler a) db = true
  /\ ~ holds_upcoming db clk b
  /\ Appointment.upcoming clk a = true
  /\ (forall later,
        not_before clk later = true ->
        Appointment.upcoming later a = true ->
        BookerPanelViewSet.my_appointment later b db' = (Ok a, db')
        /\ forall d',
             BookerPanelViewSet.reserve_appointment later b d' db'
             = (Raise [ActiveAppointmentExists], db'))
  /\ (forall later,
        not_before clk later = true ->
        Appointment.upcoming later a = false ->
        BookerPanelViewSet.my_appointment later b db' = (Raise [Http404], db')
        /\ exists page,
             BookerPanelViewSet.past_appointments later b db' = (Ok page, db')
             /\ In a page).
Proof.
  rewrite reserve_eq in Hdone.
  destruct (exists_ (upcoming_of b clk db)) eqn:U; [discriminate|].
  destruct (in_roster b _ db) eqn:R; [|discriminate]. simpl in Hdone.
  destruct (exists_ (appointments_at _ _ _ db)) eqn:T; [discriminate|].
  destruct (in_the_past clk _ _) eqn:P; [discriminate|].
  unfold BookerAppointmentCreateSerializer.save in Hdone.
  rewrite insert_appointment_eq in Hdone. simpl in Hdone.
  rewrite T in Hdone. injection Hdone as <- <-.
  set (a := Appointment.mk (appointment_seq db) _ (Some b) "" _ _ _ _).
  set (db' := mkDB _ _ _ _ _ (appointments db ++ [a])%list _).
  assert (Appointment.upcoming clk a = true) as Hup.
  { rewrite upcoming_in_the_past. simpl. now rewrite P. }
  assert (upcoming_of b clk db = []) as Hnone by now apply exists_false.
  split; [reflexivity|]. split; [reflexivity|]. split; [exact R|].
  split; [intros H; apply holds_upcoming_exists in H; congruence|].
  split; [exact Hup|]. split.
  - intros later Hlater Hstill.
    assert (upcoming_of b later db' = [a]) as Hmine.
    { rewrite (upcoming_of_snoc b later db db' a); try reflexivity.
      - now rewrite Hstill.
      - now apply (upcoming_of_none_later b clk). }
    split.
    + unfold BookerPanelViewSet.my_appointment, bind, gets, ret.
      now rewrite Hmine.
    + intros d'. rewrite reserve_eq. now rewrite Hmine.
  - intros later Hlater Hover.
    assert (upcoming_of b later db' = []) as Hmine.
    { rewrite (upcoming_of_snoc b later db db' a); try reflexivity.
      - now rewrite Hover.
      - now apply (upcoming_of_none_later b clk). }
    split.
    + unfold BookerPanelViewSet.my_appointment, bind, gets, raise.
      now rewrite Hmine.
    + eexists. split; [reflexivity|].
      apply order_by_in. apply filter_In. split.
      * apply filter_In. split; [simpl; apply in_or_app; right; now left|].
        unfold Appointment.has_booker. simpl. apply Nat.eqb_refl.
      * rewrite upcoming_not_past in Hover.
        now apply negb_false_iff in Hover.
Qed.

Lemma reserve_then_my_appointment_witness :
  BookerPanelViewSet.my_appointment sample_clock 2
    (snd (BookerPanelViewSet.reserve_appointment sample_clock 2
            mary_reserves with_mary))
  = (Ok (Appointment.mk 2 1 (Some 2) "" (june 12) (time_hm 10 0) None
           (instant sample_clock)),
     snd (BookerPanelViewSet.reserve_appointment sample_clock 2
            mary_reserves with_mary)).
Proof.
  destruct (reserve_then_my_appointment sample_clock 2 mary_reserves
              with_mary _ _ eq_refl) as (_ & _ & _ & _ & _ & Hshown & _).
  apply (Hshown sample_clock); reflexivity.
Defined.

(** The head of an ordered queryset comes before every row of it. *)
Lemma first_least {A : Type} (le : A -> A -> bool)
    (le_total : forall x y, le x y = false -> le y x = true)
    (le_trans : forall x y z, le x y = true -> le y z = true -> le x z = true)
    (l : list A) (a : A) :
  first (order_by le l) = Some a ->
  forall x, In x l -> le a x = true.
Proof.
  intros Hfirst x Hx.
  pose proof (order_by_sorted le le_total le_trans l) as Hsorted.
  apply (order_by_in le) in Hx.
  destruct (order_by le l) as [|y rest]; [discriminate|].
  injection Hfirst as ->.
  inversion Hsorted as [|? ? _ Hall]; subst.
  destruct Hx as [->|Hx].
  - destruct (le x x) eqn:E; [reflexivity|].
    pose proof (le_total _ _ E). congruence.
  - rewrite Forall_forall in Hall. now apply Hall.
Qed.

(** A booker who holds an upcoming appointment is shown one. *)
Lemma my_appointment_shown (clk : Clock) (b : nat) (db : DB) :
  holds_upcoming db clk b ->
  exists a, BookerPanelViewSet.my_appointment clk b db = (Ok a, db).
Proof.
  intros H. apply holds_upcoming_exists in H.
  unfold BookerPanelViewSet.my_appointment, bind, gets, ret.
  destruct (upcoming_of b clk db) as [|a l]; [discriminate|].
  exists a. reflexivity.
Qed.

(** X7: my-appointment answers with an upcoming appointment of the
    booker that no other upcoming appointment of his precedes in date
    and time, and answers 404 exactly when he holds none; it never
    writes.  An update of the booker is answered 404 in exactly the same
    stores, and otherwise it is that appointment which the update
    addresses. *)
Theorem my_appointment_earliest (clk : Clock) (b : nat) (db : DB) :
  (forall a db',
      BookerPanelViewSet.my_appointment clk b db = (Ok a, db') ->
      db' = db
      /\ In a (appointments db)
      /\ Appointment.booker a = Some b
      /\ Appointment.upcoming clk a = true
      /\ (forall x, In x (appointments db) ->
                    Appointment.booker x = Some b ->
                    Appointment.upcoming clk x = true ->
                    Appointment.meta_ordering a x = true)
      /\ (forall d a' db'',
            BookerPanelViewSet.update_my_appointment clk b d db
            = (Ok a', db'') ->
            Appointment.id a' = Appointment.id a))
  /\ (BookerPanelViewSet.my_appointment clk b db = (Raise [Http404], db)
      <-> ~ holds_upcoming db clk b)
  /\ (holds_upcoming db clk b ->
      exists a, BookerPanelViewSet.my_appointment clk b db = (Ok a, db))
  /\ (forall d,
        BookerPanelViewSet.update_my_appointment clk b d db
        = (Raise [Http404], db)
        <-> BookerPanelViewSet.my_appointment clk b db
            = (Raise [Http404], db)).
Proof.
  assert (BookerPanelViewSet.my_appointment clk b db
          = match first (upcoming_of b clk db) with
            | Some a => (Ok a, db)
            | None => (Raise [Http404], db)
            end) as Hview.
  { unfold BookerPanelViewSet.my_appointment, bind, gets, ret, raise.
    now destruct (first (upcoming_of b clk db)). }
  assert (first (upcoming_of b clk db) = None
          <-> ~ holds_upcoming db clk b) as Hnone.
  { rewrite holds_upcoming_exists. unfold first.
    destruct (upcoming_of b clk db); simpl; split.
    - intros _. discriminate.
    - reflexivity.
    - discriminate.
    - intros H. now contradiction H. }
  rewrite Hview. split; [|split; [|split]].
  - intros a db' Hshown.
    destruct (first (upcoming_of b clk db)) as [a0|] eqn:F; [|discriminate].
    injection Hshown as <- <-.
    destruct (first_upcoming_in clk b db a0 F) as (Hin & Hb & Hup).
    repeat split; auto.
    + intros x Hx Hxb Hxup.
      apply (first_least Appointment.meta_ordering meta_ordering_total
               meta_ordering_trans _ a0 F).
      apply filter_In; split; [|assumption].
      apply filter_In; split; [assumption|].
      unfold Appointment.has_booker. rewrite Hxb. apply Nat.eqb_refl.
    + intros d a' db''. rewrite booker_update_eq, F. cbv zeta.
      destruct (BookerPanelUpdateAppointmentProfileSerializer.field_errors
                  clk d); [|discriminate].
      destruct (date_eq _ _ && time_le _ _); [discriminate|].
      destruct (exists_ _); [discriminate|].
      intros H; injection H as <- _. reflexivity.
  - rewrite <- Hnone.
    destruct (first (upcoming_of b clk db)); split; congruence.
  - intros H.
    destruct (first (upcoming_of b clk db)) as [a|] eqn:F; [eauto|].
    exfalso. exact (proj1 Hnone eq_refl H).
  - intros d. rewrite booker_update_eq.
    destruct (first (upcoming_of b clk db)) as [a|] eqn:F;
      [|split; reflexivity].
    cbv zeta.
    destruct (BookerPanelUpdateAppointmentProfileSerializer.field_errors
                clk d) as [|e errs] eqn:FE.
    + destruct (date_eq _ _ && time_le _ _); [split; discriminate|].
      destruct (exists_ _); split; discriminate.
    + split; [|discriminate]. intros H. injection H as -> ->.
      exfalso. revert FE.
      unfold BookerPanelUpdateAppointmentProfileSerializer.field_errors,
        BookerPanelUpdateAppointmentProfileSerializer.validate_date,
        BookerPanelUpdateAppointmentProfileSerializer.validate_time.
      destruct (new_date d) as [v|]; [destruct (date_lt v (today clk))|];
        (destruct (new_time d) as [w|];
         [destruct (time_lt w (time_hm 8 0) || time_ge w (time_hm 20 0))|]);
        simpl; discriminate.
Qed.

Lemma my_appointment_earliest_witness :
  In appointment_1 (appointments sample_db)
  /\ Appointment.upcoming sample_clock appointment_1 = true.
Proof.
  destruct (my_appointment_earliest sample_clock 1 sample_db) as (H & _).
  destruct (H appointment_1 sample_db eq_refl) as (_ & Hin & _ & Hup & _).
  split; [exact Hin|exact Hup].
Defined.

Lemma date_time_desc_total (x y : Appointment.t) :
  date_time_desc x y = false -> date_time_desc y x = true.
Proof.
  unfold date_time_desc.
  rewrite (tuple_cmp_antisym
             (date_key (Appointment.date x)
              ++ time_key (Appointment.time x))%list).
  now destruct (tuple_cmp _ _).
Qed.

Lemma cmp_ge_le (x y : list nat) :
  cmp_ge (tuple_cmp x y) = cmp_le (tuple_cmp y x).
Proof. rewrite (tuple_cmp_antisym x y). now destruct (tuple_cmp x y). Qed.

Lemma date_time_desc_trans (x y z : Appointment.t) :
  date_time_desc x y = true -> date_time_desc y z = true ->
  date_time_desc x z = true.
Proof.
  unfold date_time_desc. rewrite !cmp_ge_le. intros H1 H2.
  now apply (tuple_cmp_le_trans _ _ _ H2 H1).
Qed.

Lemma filter_split_length {A : Type} (f : A -> bool) (l : list A) :
  List.length (filter f l) + List.length (filter (fun x => negb (f x)) l)
  = List.length l.
Proof.
  induction l as [|x l IH]; simpl; [reflexivity|].
  destruct (f x); simpl; lia.
Qed.

Lemma has_booker_true (b : nat) (a : Appointment.t) :
  Appointment.has_booker b a = true <-> Appointment.booker a = Some b.
Proof.
  unfold Appointment.has_booker.
  destruct (Appointment.booker a) as [b'|]; [|split; discriminate].
  rewrite Nat.eqb_eq. split; congruence.
Qed.

(** X8: past-appointments never writes and lists, latest date and time
    first, exactly the appointments of the booker whose date is before
    today, or is today with a time that is not after now.  Every
    appointment of the booker is either in this list or among the
    upcoming ones that my-appointment and the reservation rule look at,
    never in both, and the two lists together count his appointments. *)
Theorem past_appointments_listing (clk : Clock) (b : nat) (db : DB) :
  exists page,
    BookerPanelViewSet.past_appointments clk b db = (Ok page, db)
    /\ date_time_descending page
    /\ (forall x, In x page
                  <-> In x (appointments db)
                      /\ Appointment.booker x = Some b
                      /\ in_the_past clk (Appointment.date x)
                           (Appointment.time x) = true)
    /\ (forall x, In x (appointments_of b db) ->
                  (In x page <-> ~ In x (upcoming_of b clk db)))
    /\ List.length page + List.length (upcoming_of b clk db)
       = List.length (appointments_of b db).
Proof.
  eexists. split; [reflexivity|]. split; [|split; [|split]].
  - apply (order_by_sorted date_time_desc date_time_desc_total
             date_time_desc_trans).
  - intros x. rewrite order_by_in, !filter_In, has_booker_true.
    unfold in_the_past, Appointment.past. tauto.
  - intros x Hx. unfold upcoming_of, appointments_of in *.
    apply filter_In in Hx.
    rewrite !order_by_in, !filter_In, upcoming_not_past.
    destruct (Appointment.past clk x); simpl; intuition discriminate.
  - unfold upcoming_of, appointments_of. rewrite !order_by_length.
    rewrite <- (filter_split_length (Appointment.past clk)
                  (filter (Appointment.has_booker b) (appointments db))).
    f_equal. f_equal. apply filter_ext. intros x.
    apply upcoming_not_past.
Qed.

Lemma past_appointments_listing_witness :
  exists page,
    BookerPanelViewSet.past_appointments two_days_later 1 sample_db
    = (Ok page, sample_db)
    /\ In appointment_1 page.
Proof.
  destruct (past_appointments_listing two_days_later 1 sample_db)
    as (page & Hpage & _ & Hin & _).
  exists page. split; [exact Hpage|].
  apply Hin. split; [now left|]. split; reflexivity.
Defined.

(* ================================================================== *)
(** * The roster as the booker panel shows and uses it *)
(* ================================================================== *)

Lemma in_schedulers_all (b : nat) (db : DB) (x : Scheduler.t) :
  In x (schedulers_all b db)
  <-> In x (schedulers db) /\ In (b, Scheduler.id x) (booker_schedulers db).
Proof.
  unfold schedulers_all. rewrite filter_In, existsb_exists.
  split; intros [Hx H]; (split; [exact Hx|]).
  - destruct H as (row & Hrow & Hj). apply joined_true in Hj. now subst.
  - exists (b, Scheduler.id x). split; [exact H|]. now apply joined_true.
Qed.

Lemma in_roster_true (b s : nat) (db : DB) :
  in_roster b s db = true
  <-> (exists x, In x (schedulers db) /\ Scheduler.id x = s)
      /\ In (b, s) (booker_schedulers db).
Proof.
  unfold in_roster. rewrite existsb_exists. split.
  - intros (x & Hx & Hid). apply in_schedulers_all in Hx as [Hx Hrow].
    apply Nat.eqb_eq in Hid. subst. eauto.
  - intros [(x & Hx & Hid) Hrow]. exists x. split.
    + apply in_schedulers_all. subst. auto.
    + now apply Nat.eqb_eq.
Qed.

(** X9: after a scheduler has been added, list-schedulers shows the
    booker what it showed before and this scheduler, and a reservation
    of the booker with this scheduler is never refused for the roster.
    The rosters of the other bookers are as before, and so are the
    schedulers, the bookers and the appointments. *)
Theorem add_scheduler_then_listed (b : nat) (scheduler_code : string)
    (db db' : DB) (s : Scheduler.t)
    (Hadded : BookerPanelViewSet.add_scheduler b scheduler_code db
              = (Ok s, db')) :
  (exists l,
     BookerPanelViewSet.list_schedulers b db' = (Ok l, db')
     /\ In s l
     /\ forall x, In x l
                  <-> In x (schedulers_all b db)
                      \/ (In x (schedulers db)
                          /\ Scheduler.id x = Scheduler.id s))
  /\ in_roster b (Scheduler.id s) db' = true
  /\ (forall b', b' <> b ->
        BookerPanelViewSet.list_schedulers b' db'
        = (Ok (schedulers_all b' db), db'))
  /\ (forall clk d errs db'',
        BookerAppointmentCreateSerializer.scheduler d = Scheduler.id s ->
        BookerPanelViewSet.reserve_appointment clk b d db'
        = (Raise errs, db'') ->
        ~ In SchedulerNotInRoster errs)
  /\ schedulers db' = schedulers db
  /\ bookers db' = bookers db
  /\ appointments db' = appointments db
  /\ appointment_seq db' = appointment_seq db.
Proof.
  rewrite add_scheduler_eq in Hadded.
  destruct (filter _ (schedulers db)) as [|s0 [|s1 l]] eqn:F;
    try discriminate.
  injection Hadded as -> Hdb'.
  assert (In s (schedulers db)) as Hs.
  { assert (In s (filter
                    (fun s => String.eqb (Scheduler.phone s) scheduler_code
                              && Scheduler.is_public_search s)
                    (schedulers db))) as H by (rewrite F; now left).
    now apply filter_In in H. }
  assert (schedulers db' = schedulers db) as Hsch
    by (subst db'; now destruct (existsb _ _)).
  assert (forall row, In row (booker_schedulers db')
                      <-> In row (booker_schedulers db)
                          \/ row = (b, Scheduler.id s)) as Hrows.
  { intros row. subst db'.
    destruct (existsb _ _) eqn:E; simpl.
    - split; [auto|]. intros [H| ->]; [exact H|].
      apply existsb_exists in E as (r & Hr & Hj).
      apply joined_true in Hj. now subst.
    - rewrite in_app_iff. simpl. intuition. }
  assert (in_roster b (Scheduler.id s) db' = true) as Hlisted.
  { apply in_roster_true. rewrite Hsch. split; [eauto|].
    apply Hrows. now right. }
  split; [|split; [exact Hlisted|split; [|split]]].
  - eexists. split; [reflexivity|]. split.
    + apply in_schedulers_all. rewrite Hsch. split; [exact Hs|].
      apply Hrows. now right.
    + intros x. rewrite !in_schedulers_all, Hsch, Hrows. split.
      * intros [Hx [H|H]]; [left; auto|right]. split; [exact Hx|].
        now injection H.
      * intros [[Hx H]|[Hx H]]; (split; [exact Hx|]); [now left|right].
        now rewrite H.
  - intros b' Hb'. unfold BookerPanelViewSet.list_schedulers, gets.
    f_equal. f_equal. unfold schedulers_all. rewrite Hsch.
    apply filter_ext. intros x. subst db'.
    destruct (existsb (joined b (Scheduler.id s)) (booker_schedulers db));
      [reflexivity|].
    simpl. rewrite existsb_app. simpl.
    assert (joined b' (Scheduler.id x) (b, Scheduler.id s) = false) as ->.
    { unfold joined. simpl. apply andb_false_iff. left.
      apply Nat.eqb_neq. auto. }
    now rewrite !orb_false_r.
  - intros clk d errs db'' Hd. rewrite reserve_eq, Hd, Hlisted. simpl.
    destruct (exists_ (upcoming_of b clk db')).
    { intros H; injection H as <- _. simpl. intuition discriminate. }
    destruct (exists_ (appointments_at _ _ _ db')).
    { intros H; injection H as <- _. simpl. intuition discriminate. }
    destruct (in_the_past clk _ _).
    { intros H; injection H as <- _. simpl. intuition discriminate. }
    unfold BookerAppointmentCreateSerializer.save.
    rewrite insert_appointment_eq. cbv zeta.
    destruct (exists_ _); [|discriminate].
    intros H; injection H as <- _. simpl. intuition discriminate.
  - subst db'. now destruct (existsb _ _).
Qed.

Lemma add_scheduler_then_listed_witness :
  in_roster 1 1
    (snd (BookerPanelViewSet.add_scheduler 1 "09987654321"
            (set_booker_schedulers [] sample_db))) = true.
Proof.
  apply (add_scheduler_then_listed 1 "09987654321"
           (set_booker_schedulers [] sample_db) _ alice eq_refl).
Defined.

(** X10: a booker reserves only with the schedulers of his roster.  A
    reservation with a scheduler that is not in the roster is refused
    and writes nothing, with SchedulerNotInRoster when the booker holds
    no upcoming appointment; whenever a reservation is refused with that
    error the scheduler is not in the roster, and whenever it is accepted
    the join row of the booker and the scheduler is stored.  To be in the
    roster is to be a stored scheduler that a join row links to the
    booker. *)
Theorem reserve_within_roster (clk : Clock) (b : nat)
    (d : BookerAppointmentCreateSerializer.data) (db : DB) :
  (in_roster b (BookerAppointmentCreateSerializer.scheduler d) db = false ->
   exists errs,
     BookerPanelViewSet.reserve_appointment clk b d db = (Raise errs, db)
     /\ (~ holds_upcoming db clk b -> errs = [SchedulerNotInRoster]))
  /\ (forall errs db',
        BookerPanelViewSet.reserve_appointment clk b d db = (Raise errs, db')
        -> In SchedulerNotInRoster errs ->
        in_roster b (BookerAppointmentCreateSerializer.scheduler d) db
        = false)
  /\ (forall a db',
        BookerPanelViewSet.reserve_appointment clk b d db = (Ok a, db') ->
        In (b, Appointment.scheduler a) (booker_schedulers db)
        /\ exists x, In x (schedulers db)
                     /\ Scheduler.id x = Appointment.scheduler a)
  /\ (forall s,
        in_roster b s db = true
        <-> (exists x, In x (schedulers db) /\ Scheduler.id x = s)
            /\ In (b, s) (booker_schedulers db)).
Proof.
  split; [|split; [|split]].
  - intros Hout. rewrite reserve_eq, Hout. simpl.
    destruct (exists_ (upcoming_of b clk db)) eqn:U.
    + eexists. split; [reflexivity|]. intros Hn. exfalso. apply Hn.
      now apply holds_upcoming_exists.
    + eexists. split; reflexivity.
  - intros errs db'. rewrite reserve_eq.
    destruct (exists_ (upcoming_of b clk db)).
    { intros H; injection H as <- _. simpl. intuition discriminate. }
    destruct (in_roster b _ db); [|reflexivity]. simpl.
    destruct (exists_ (appointments_at _ _ _ db)).
    { intros H; injection H as <- _. simpl. intuition discriminate. }
    destruct (in_the_past clk _ _).
    { intros H; injection H as <- _. simpl. intuition discriminate. }
    unfold BookerAppointmentCreateSerializer.save.
    rewrite insert_appointment_eq. cbv zeta.
    destruct (exists_ _); [|discriminate].
    intros H; injection H as <- _. simpl. intuition discriminate.
  - intros a db' Hdone.
    destruct (accepted_reservation clk b d db db' a Hdone)
      as (-> & Hin).
    simpl in *. apply in_roster_true in Hin. tauto.
  - intros s. apply in_roster_true.
Qed.

Lemma reserve_within_roster_witness :
  BookerPanelViewSet.reserve_appointment sample_clock 2 mary_reserves
    (set_booker_schedulers [(1, 1)] with_mary)
  = (Raise [SchedulerNotInRoster], set_booker_schedulers [(1, 1)] with_mary).
Proof.
  destruct (reserve_within_roster sample_clock 2 mary_reserves
              (set_booker_schedulers [(1, 1)] with_mary)) as (Hout & _).
  destruct (Hout eq_refl) as (errs & -> & Herrs).
  rewrite Herrs; [reflexivity|].
  intros (a & Hin & Hb & _). simpl in Hin.
  destruct Hin as [<-|[]]. discriminate.
Defined.

(* ================================================================== *)
(** * The scheduler panel: whose appointments an action touches *)
(* ================================================================== *)

(** A primary key names one row. *)
Lemma same_id_same_row (rows : list Appointment.t) (x y : Appointment.t) :
  NoDup (map Appointment.id rows) -> In x rows -> In y rows ->
  Appointment.id x = Appointment.id y -> x = y.
Proof.
  induction rows as [|z rows IH]; simpl; intros Hn Hx Hy E; [tauto|].
  inversion Hn as [|? ? Hz Hrows]; subst.
  destruct Hx as [->|Hx], Hy as [->|Hy]; auto.
  - exfalso. apply Hz. rewrite E. now apply in_map.
  - exfalso. apply Hz. rewrite <- E. now apply in_map.
Qed.

Lemma find_by_id (rows : list Appointment.t) (a : Appointment.t) :
  NoDup (map Appointment.id rows) -> In a rows ->
  find (fun x => Appointment.id x =? Appointment.id a) rows = Some a.
Proof.
  intros Hn Hin.
  destruct (find _ rows) as [x|] eqn:F.
  - apply find_some in F as [Hx E]. apply Nat.eqb_eq in E.
    f_equal. now apply (same_id_same_row rows).
  - apply (find_none _ _ F) in Hin. now rewrite Nat.eqb_refl in Hin.
Qed.

Lemma find_of_scheduler (rows : list Appointment.t) (a : Appointment.t)
    (s : nat) :
  NoDup (map Appointment.id rows) -> In a rows ->
  find (fun x => (Appointment.id x =? Appointment.id a)
                 && (Appointment.scheduler x =? s)) rows
  = if Appointment.scheduler a =? s then Some a else None.
Proof.
  intros Hn Hin.
  destruct (find _ rows) as [x|] eqn:F.
  - apply find_some in F as [Hx E]. apply andb_true_iff in E as [E Es].
    apply Nat.eqb_eq in E.
    assert (x = a) as -> by now apply (same_id_same_row rows).
    now rewrite Es.
  - apply (find_none _ _ F) in Hin. rewrite Nat.eqb_refl in Hin.
    simpl in Hin. now rewrite Hin.
Qed.

Lemma find_absent (rows : list Appointment.t) (pk : nat) :
  (forall x, In x rows -> Appointment.id x <> pk) ->
  find (fun x => Appointment.id x =? pk) rows = None.
Proof.
  intros H. destruct (find _ rows) as [x|] eqn:F; [|reflexivity].
  apply find_some in F as [Hx E]. apply Nat.eqb_eq in E.
  now apply H in Hx.
Qed.

(** The rows of the other schedulers after one row of [s] has been
    written, and after it has been deleted. *)
Lemma others_after_write (s : nat) (a : Appointment.t)
    (rows : list Appointment.t) :
  Appointment.scheduler a = s ->
  (forall x, In x rows -> Appointment.id x = Appointment.id a ->
             Appointment.scheduler x = s) ->
  filter (fun x => negb (Appointment.scheduler x =? s)) (map (written a) rows)
  = filter (fun x => negb (Appointment.scheduler x =? s)) rows.
Proof.
  intros Ha. induction rows as [|x rows IH]; simpl; intros H; [reflexivity|].
  rewrite IH by (intros y Hy; apply H; now right).
  unfold written.
  destruct (Appointment.id x =? Appointment.id a) eqn:E; [|reflexivity].
  apply Nat.eqb_eq in E.
  rewrite Ha, (H x (or_introl eq_refl) E), Nat.eqb_refl. reflexivity.
Qed.

Lemma others_after_delete (s : nat) (a : Appointment.t)
    (rows : list Appointment.t) :
  (forall x, In x rows -> Appointment.id x = Appointment.id a ->
             Appointment.scheduler x = s) ->
  filter (fun x => negb (Appointment.scheduler x =? s))
    (filter (fun x => negb (Appointment.id x =? Appointment.id a)) rows)
  = filter (fun x => negb (Appointment.scheduler x =? s)) rows.
Proof.
  induction rows as [|x rows IH]; simpl; intros H; [reflexivity|].
  rewrite <- IH by (intros y Hy; apply H; now right).
  destruct (Appointment.id x =? Appointment.id a) eqn:E; simpl;
    [|reflexivity].
  apply Nat.eqb_eq in E.
  now rewrite (H x (or_introl eq_refl) E), Nat.eqb_refl.
Qed.

(** X11: whatever a scheduler asks of manage-appointments, the
    appointments of the other schedulers stay as they are, in place, and
    so do the tables of schedulers, bookers and rosters; an appointment
    that the action answers with is the scheduler's own; and an update or
    a delete that names an appointment of another scheduler is answered
    404 and changes nothing. *)
Theorem scheduler_panel_isolation (clk : Clock) (s : nat)
    (action : SchedulerPanelViewSet.Action) (db : DB)
    (Hok : table_ok db) :
  let db' :=
    snd (SchedulerPanelViewSet.manage_appointments clk s action db) in
  filter (fun x => negb (Appointment.scheduler x =? s)) (appointments db')
  = filter (fun x => negb (Appointment.scheduler x =? s)) (appointments db)
  /\ (forall a display_name,
        fst (SchedulerPanelViewSet.manage_appointments clk s action db)
        = Ok (Some (a, display_name)) ->
        Appointment.scheduler a = s /\ In a (appointments db'))
  /\ (forall a,
        In a (appointments db) -> Appointment.scheduler a <> s ->
        (forall d,
            SchedulerPanelViewSet.manage_appointments clk s
              (SchedulerPanelViewSet.update (Appointment.id a) d) db
            = (Raise [Http404], db))
        /\ SchedulerPanelViewSet.manage_appointments clk s
             (SchedulerPanelViewSet.delete (Appointment.id a)) db
           = (Raise [Http404], db))
  /\ otps db' = otps db
  /\ role_users db' = role_users db
  /\ schedulers db' = schedulers db
  /\ bookers db' = bookers db
  /\ booker_schedulers db' = booker_schedulers db.
Proof.
  destruct Hok as (Hids & _ & _).
  assert (forall pk a0 x,
             find (fun x => (Appointment.id x =? pk)
                            && (Appointment.scheduler x =? s))
               (appointments db) = Some a0 ->
             In x (appointments db) ->
             Appointment.id x = Appointment.id a0 ->
             Appointment.scheduler x = s) as Hown.
  { intros pk a0 x F Hx E. apply find_some in F as [Ha0 E0].
    apply andb_true_iff in E0 as [_ E0]. apply Nat.eqb_eq in E0.
    now rewrite (same_id_same_row _ x a0 Hids Hx Ha0 E). }
  split; [|split; [|split]].
  - destruct action as [d|pk d|pk|]; cbv zeta.
    + rewrite scheduler_create_eq.
      destruct (SchedulerPanelAppointmentCreateSerializer.field_errors d db);
        [|reflexivity].
      destruct (no_identity _ _); [reflexivity|].
      destruct (exists_ _) eqn:T; [reflexivity|].
      unfold SchedulerPanelAppointmentCreateSerializer.save.
      rewrite insert_appointment_eq. simpl. rewrite T. simpl.
      rewrite filter_app. simpl. rewrite Nat.eqb_refl. simpl.
      apply List.app_nil_r.
    + rewrite scheduler_update_eq.
      destruct (find _ _) as [a0|] eqn:F; [|reflexivity].
      destruct (SchedulerPanelAppointmentUpdateSerializer.field_errors d db);
        [|reflexivity].
      destruct (no_identity _ _); [reflexivity|].
      rewrite scheduler_save_eq. cbv zeta.
      destruct (exists_ _); [reflexivity|]. simpl.
      apply others_after_write.
      * simpl. apply find_some in F as [_ E].
        apply andb_true_iff in E as [_ E]. now apply Nat.eqb_eq in E.
      * intros x Hx E. now apply (Hown pk a0).
    + unfold SchedulerPanelViewSet.manage_appointments,
        get_appointment_of_or_404, delete_appointment. run.
      destruct (find _ _) as [a0|] eqn:F; [|reflexivity]. simpl.
      apply others_after_delete. intros x Hx E. now apply (Hown pk a0).
    + reflexivity.
  - destruct action as [d|pk d|pk|]; cbv zeta; intros a display_name.
    + rewrite scheduler_create_eq.
      destruct (SchedulerPanelAppointmentCreateSerializer.field_errors d db);
        [|discriminate].
      destruct (no_identity _ _); [discriminate|].
      destruct (exists_ _) eqn:T; [discriminate|].
      unfold SchedulerPanelAppointmentCreateSerializer.save.
      rewrite insert_appointment_eq. simpl. rewrite T. simpl.
      intros H; injection H as <- _. split; [reflexivity|].
      apply in_or_app. right. now left.
    + rewrite scheduler_update_eq.
      destruct (find _ _) as [a0|] eqn:F; [|discriminate].
      destruct (SchedulerPanelAppointmentUpdateSerializer.field_errors d db);
        [|discriminate].
      destruct (no_identity _ _); [discriminate|].
      rewrite scheduler_save_eq. cbv zeta.
      destruct (exists_ _); [discriminate|]. simpl.
      intros H; injection H as <- _.
      apply find_some in F as [Ha0 E].
      apply andb_true_iff in E as [_ E]. apply Nat.eqb_eq in E.
      split; [exact E|].
      apply in_map_iff. exists a0. split; [|exact Ha0].
      unfold written. simpl. now rewrite Nat.eqb_refl.
    + unfold SchedulerPanelViewSet.manage_appointments,
        get_appointment_of_or_404, delete_appointment. run.
      destruct (find _ _); discriminate.
    + discriminate.
  - intros a Hin Hother. split; [intros d|].
    + rewrite scheduler_update_eq, (find_of_scheduler _ a s Hids Hin).
      apply Nat.eqb_neq in Hother. now rewrite Hother.
    + unfold SchedulerPanelViewSet.manage_appointments,
        get_appointment_of_or_404. run.
      rewrite (find_of_scheduler _ a s Hids Hin).
      apply Nat.eqb_neq in Hother. now rewrite Hother.
  - destruct action as [d|pk d|pk|]; cbv zeta.
    + rewrite scheduler_create_eq.
      destruct (SchedulerPanelAppointmentCreateSerializer.field_errors d db);
        [|repeat split].
      destruct (no_identity _ _); [repeat split|].
      destruct (exists_ _) eqn:T; [repeat split|].
      unfold SchedulerPanelAppointmentCreateSerializer.save.
      rewrite insert_appointment_eq. simpl. rewrite T. repeat split.
    + rewrite scheduler_update_eq.
      destruct (find _ _) as [a0|]; [|repeat split].
      destruct (SchedulerPanelAppointmentUpdateSerializer.field_errors d db);
        [|repeat split].
      destruct (no_identity _ _); [repeat split|].
      rewrite scheduler_save_eq. cbv zeta.
      destruct (exists_ _); repeat split.
    + unfold SchedulerPanelViewSet.manage_appointments,
        get_appointment_of_or_404, delete_appointment. run.
      destruct (find _ _); repeat split.
    + repeat split.
Qed.

Lemma scheduler_panel_isolation_witness :
  SchedulerPanelViewSet.manage_appointments sample_clock 2
    (SchedulerPanelViewSet.delete 1) sample_db
  = (Raise [Http404], sample_db).
Proof.
  destruct (scheduler_panel_isolation sample_clock 2
              SchedulerPanelViewSet.other sample_db sample_db_ok)
    as (_ & _ & Hother & _).
  apply (Hother appointment_1); [now left|discriminate].
Defined.

(* ================================================================== *)
(** * Deleting: one appointment, a scheduler, a booker *)
(* ================================================================== *)

Lemma filter_one_out (rows : list Appointment.t) (a : Appointment.t) :
  NoDup (map Appointment.id rows) -> In a rows ->
  S (List.length
       (filter (fun x => negb (Appointment.id x =? Appointment.id a)) rows))
  = List.length rows.
Proof.
  induction rows as [|x rows IH]; simpl; intros Hn Hin; [tauto|].
  inversion Hn as [|? ? Hx Hrows]; subst.
  destruct Hin as [->|Hin].
  - rewrite Nat.eqb_refl. simpl. f_equal.
    f_equal. rewrite <- (filter_ext_in (fun _ => true)).
    + clear. induction rows as [|y rows IH]; simpl; congruence.
    + intros y Hy. symmetry. apply negb_true_iff. apply Nat.eqb_neq.
      intros E. apply Hx. rewrite <- E. now apply in_map.
  - destruct (Appointment.id x =? Appointment.id a) eqn:E; simpl.
    + apply Nat.eqb_eq in E. exfalso. apply Hx. rewrite E.
      now apply in_map.
    + f_equal. now apply IH.
Qed.

(** X12: deleting an appointment, by the admin or by its scheduler,
    removes that row and no other and frees its slot; a second delete of
    the same key is answered 404, as is a delete of a key that names no
    row. *)
Theorem delete_frees_slot (clk : Clock) (db : DB) (a : Appointment.t)
    (Hok : table_ok db) (Hin : In a (appointments db)) :
  let db' :=
    set_appointments
      (filter (fun x => negb (Appointment.id x =? Appointment.id a))
              (appointments db)) db in
  AdminPanelViewSet.appointment_detail_delete (Appointment.id a) db
  = (Ok tt, db')
  /\ SchedulerPanelViewSet.manage_appointments clk (Appointment.scheduler a)
       (SchedulerPanelViewSet.delete (Appointment.id a)) db
     = (Ok None, db')
  /\ (forall x, In x (appointments db') <-> In x (appointments db) /\ x <> a)
  /\ S (List.length (appointments db')) = List.length (appointments db)
  /\ ~ taken db' (Appointment.scheduler a) (Appointment.date a)
         (Appointment.time a)
  /\ table_ok db'
  /\ AdminPanelViewSet.appointment_detail_delete (Appointment.id a) db'
     = (Raise [Http404], db')
  /\ (forall s,
        SchedulerPanelViewSet.manage_appointments clk s
          (SchedulerPanelViewSet.delete (Appointment.id a)) db'
        = (Raise [Http404], db')).
Proof.
  pose proof Hok as (Hids & Hseq & Hslots).
  intros db'.
  assert (forall x, In x (appointments db')
                    <-> In x (appointments db) /\ x <> a) as Hrows.
  { intros x. simpl. rewrite filter_In, negb_true_iff, Nat.eqb_neq.
    split; intros [Hx Hne]; (split; [exact Hx|]).
    - intros ->. now apply Hne.
    - intros E. apply Hne. now apply (same_id_same_row (appointments db)). }
  assert (forall x, In x (appointments db') ->
                    Appointment.id x <> Appointment.id a) as Hgone.
  { intros x Hx. simpl in Hx. apply filter_In in Hx as [_ Hx].
    apply negb_true_iff in Hx. now apply Nat.eqb_neq. }
  split; [|split; [|split; [exact Hrows|split; [|split; [|split; [|split]]]]]].
  - unfold AdminPanelViewSet.appointment_detail_delete,
      get_appointment_or_404, delete_appointment. run.
    now rewrite (find_by_id _ a Hids Hin).
  - unfold SchedulerPanelViewSet.manage_appointments,
      get_appointment_of_or_404, delete_appointment. run.
    rewrite (find_of_scheduler _ a _ Hids Hin), Nat.eqb_refl. reflexivity.
  - simpl. now apply filter_one_out.
  - intros (x & Hx & Hslot). apply Hrows in Hx as [Hx Hne]. apply Hne.
    clear - Hslots Hx Hin Hslot.
    assert (slot x = slot a) as E by (rewrite Hslot; reflexivity).
    revert Hslots Hx Hin E. generalize (appointments db) as rows.
    induction rows as [|z rows IH]; simpl; intros Hn Hx Hy E; [tauto|].
    inversion Hn as [|? ? Hz Hrows]; subst.
    destruct Hx as [->|Hx], Hy as [->|Hy]; auto.
    + exfalso. apply Hz. rewrite E. now apply in_map.
    + exfalso. apply Hz. rewrite <- E. now apply in_map.
  - unfold table_ok. simpl. now apply rows_ok_filter.
  - unfold AdminPanelViewSet.appointment_detail_delete,
      get_appointment_or_404. run.
    now rewrite (find_absent _ _ Hgone).
  - intros s. unfold SchedulerPanelViewSet.manage_appointments,
      get_appointment_of_or_404. run.
    destruct (find _ _) as [x|] eqn:F; [|reflexivity].
    apply find_some in F as [Hx E]. apply andb_true_iff in E as [E _].
    apply Nat.eqb_eq in E. now apply Hgone in Hx.
Qed.

Lemma delete_frees_slot_witness :
  ~ taken
      (snd (AdminPanelViewSet.appointment_detail_delete 1 two_appointments))
      1 (june 11) (time_hm 10 0).
Proof.
  assert (table_ok two_appointments) as Hok.
  { unfold table_ok, rows_ok. simpl. repeat split.
    - repeat constructor; simpl; intuition discriminate.
    - intros a [<-|[<-|[]]]; simpl; lia.
    - repeat constructor; simpl; intuition discriminate. }
  destruct (delete_frees_slot sample_clock two_appointments appointment_1
              Hok (or_introl eq_refl)) as (_ & _ & _ & _ & Hfree & _).
  exact Hfree.
Defined.

(** X13: deleting a scheduler that exists takes the scheduler, its
    appointments and its place in every roster with it, and nothing
    else: the other schedulers, their appointments, the other roster
    entries and the bookers stay.  From then on no booker can reserve
    with it, and a second delete is answered 404, as is the delete of a
    key that names no scheduler. *)
Theorem delete_scheduler_cascade (pk : nat) (db : DB) :
  ((forall s, In s (schedulers db) -> Scheduler.id s <> pk) ->
   AdminPanelViewSet.scheduler_detail_delete pk db = (Raise [Http404], db))
  /\ ((exists s, In s (schedulers db) /\ Scheduler.id s = pk) ->
      exists db',
        AdminPanelViewSet.scheduler_detail_delete pk db = (Ok tt, db')
        /\ (forall x, In x (schedulers db')
                      <-> In x (schedulers db) /\ Scheduler.id x <> pk)
        /\ (forall a, In a (appointments db')
                      <-> In a (appointments db)
                          /\ Appointment.scheduler a <> pk)
        /\ (forall b s, In (b, s) (booker_schedulers db')
                        <-> In (b, s) (booker_schedulers db) /\ s <> pk)
        /\ bookers db' = bookers db
        /\ (forall b, in_roster b pk db' = false)
        /\ (forall b s, s <> pk -> in_roster b s db' = in_roster b s db)
        /\ (forall clk b d,
              BookerAppointmentCreateSerializer.scheduler d = pk ->
              exists errs,
                BookerPanelViewSet.reserve_appointment clk b d db'
                = (Raise errs, db'))
        /\ AdminPanelViewSet.scheduler_detail_delete pk db'
           = (Raise [Http404], db')).
Proof.
  assert (forall db0,
             (forall s, In s (schedulers db0) -> Scheduler.id s <> pk) ->
             AdminPanelViewSet.scheduler_detail_delete pk db0
             = (Raise [Http404], db0)) as Hmissing.
  { intros db0 Hnone.
    unfold AdminPanelViewSet.scheduler_detail_delete. run.
    destruct (find _ _) as [x|] eqn:F; [|reflexivity].
    apply find_some in F as [Hx E]. apply Nat.eqb_eq in E.
    now apply Hnone in Hx. }
  split; [apply Hmissing|].
  intros (s0 & Hs0 & Hid).
  exists (delete_scheduler pk db).
  assert (forall x, In x (schedulers (delete_scheduler pk db))
                    <-> In x (schedulers db) /\ Scheduler.id x <> pk)
    as Hschedulers.
  { intros x. simpl. now rewrite filter_In, negb_true_iff, Nat.eqb_neq. }
  assert (forall b s, In (b, s) (booker_schedulers (delete_scheduler pk db))
                      <-> In (b, s) (booker_schedulers db) /\ s <> pk)
    as Hroster.
  { intros b s. simpl. now rewrite filter_In, negb_true_iff, Nat.eqb_neq. }
  assert (forall b, in_roster b pk (delete_scheduler pk db) = false)
    as Hout.
  { intros b. destruct (in_roster b pk _) eqn:R; [|reflexivity].
    apply in_roster_true in R as [_ R]. apply Hroster in R. tauto. }
  split; [|split; [exact Hschedulers|split; [|split; [exact Hroster|
    split; [reflexivity|split; [exact Hout|split; [|split]]]]]]].
  - unfold AdminPanelViewSet.scheduler_detail_delete. run.
    destruct (find _ _) as [x|] eqn:F; [reflexivity|].
    apply (find_none _ _ F) in Hs0. apply Nat.eqb_neq in Hs0. tauto.
  - intros a. simpl. now rewrite filter_In, negb_true_iff, Nat.eqb_neq.
  - intros b s Hs.
    destruct (in_roster b s db) eqn:R.
    + apply in_roster_true. apply in_roster_true in R as [(x & Hx & E) R].
      split; [exists x; split; [apply Hschedulers; subst; auto|exact E]|].
      apply Hroster. auto.
    + destruct (in_roster b s (delete_scheduler pk db)) eqn:R';
        [|reflexivity].
      apply in_roster_true in R' as [(x & Hx & E) R'].
      apply Hschedulers in Hx as [Hx _]. apply Hroster in R' as [R' _].
      rewrite <- R. symmetry. apply in_roster_true. eauto.
  - intros clk b d Hd. rewrite reserve_eq, Hd, Hout. simpl.
    destruct (exists_ _); eauto.
  - apply Hmissing. intros x Hx. now apply Hschedulers in Hx.
Qed.

Lemma delete_scheduler_cascade_witness :
  exists db',
    AdminPanelViewSet.scheduler_detail_delete 1 sample_db = (Ok tt, db')
    /\ in_roster 1 1 db' = false.
Proof.
  destruct (delete_scheduler_cascade 1 sample_db) as (_ & Hdeleted).
  destruct (Hdeleted (ex_intro _ alice (conj (or_introl eq_refl) eq_refl)))
    as (db' & Hdb' & _ & _ & _ & _ & Hout & _).
  exists db'. split; [exact Hdb'|apply Hout].
Defined.

(** X14: deleting a booker that exists takes the booker, his
    appointments and his roster with him, and nothing else: the other
    bookers, their appointments and rosters, and the schedulers stay.
    From then on his panel shows no appointment, upcoming or past, and
    no scheduler; a second delete is answered 404, as is the delete of a
    key that names no booker. *)
Theorem delete_booker_cascade (pk : nat) (db : DB) :
  ((forall b, In b (bookers db) -> Booker.id b <> pk) ->
   AdminPanelViewSet.booker_detail_delete pk db = (Raise [Http404], db))
  /\ ((exists b, In b (bookers db) /\ Booker.id b = pk) ->
      exists db',
        AdminPanelViewSet.booker_detail_delete pk db = (Ok tt, db')
        /\ (forall x, In x (bookers db')
                      <-> In x (bookers db) /\ Booker.id x <> pk)
        /\ (forall a, In a (appointments db')
                      <-> In a (appointments db)
                          /\ Appointment.booker a <> Some pk)
        /\ (forall b s, In (b, s) (booker_schedulers db')
                        <-> In (b, s) (booker_schedulers db) /\ b <> pk)
        /\ schedulers db' = schedulers db
        /\ (forall clk,
              BookerPanelViewSet.my_appointment clk pk db'
              = (Raise [Http404], db')
              /\ BookerPanelViewSet.past_appointments clk pk db'
                 = (Ok [], db'))
        /\ BookerPanelViewSet.list_schedulers pk db' = (Ok [], db')
        /\ (forall b, b <> pk ->
              BookerPanelViewSet.list_schedulers b db'
              = (Ok (schedulers_all b db), db')
              /\ appointments_of b db' = appointments_of b db)
        /\ AdminPanelViewSet.booker_detail_delete pk db'
           = (Raise [Http404], db')).
Proof.
  assert (forall db0,
             (forall b, In b (bookers db0) -> Booker.id b <> pk) ->
             AdminPanelViewSet.booker_detail_delete pk db0
             = (Raise [Http404], db0)) as Hmissing.
  { intros db0 Hnone.
    unfold AdminPanelViewSet.booker_detail_delete. run.
    destruct (find _ _) as [x|] eqn:F; [|reflexivity].
    apply find_some in F as [Hx E]. apply Nat.eqb_eq in E.
    now apply Hnone in Hx. }
  split; [apply Hmissing|].
  intros (b0 & Hb0 & Hid).
  exists (delete_booker pk db).
  assert (forall x, In x (bookers (delete_booker pk db))
                    <-> In x (bookers db) /\ Booker.id x <> pk) as Hbookers.
  { intros x. simpl. now rewrite filter_In, negb_true_iff, Nat.eqb_neq. }
  assert (forall b s, In (b, s) (booker_schedulers (delete_booker pk db))
                      <-> In (b, s) (booker_schedulers db) /\ b <> pk)
    as Hroster.
  { intros b s. simpl. now rewrite filter_In, negb_true_iff, Nat.eqb_neq. }
  assert (appointments_of pk (delete_booker pk db) = []) as Hnone.
  { unfold appointments_of. simpl. apply filter_none. intros x Hx.
    apply filter_In in Hx as [_ Hx]. now apply negb_true_iff in Hx. }
  split; [|split; [exact Hbookers|split; [|split; [exact Hroster|
    split; [reflexivity|split; [|split; [|split]]]]]]].
  - unfold AdminPanelViewSet.booker_detail_delete. run.
    destruct (find _ _) as [x|] eqn:F; [reflexivity|].
    apply (find_none _ _ F) in Hb0. apply Nat.eqb_neq in Hb0. tauto.
  - intros a. simpl. rewrite filter_In, negb_true_iff.
    rewrite <- has_booker_true. split; intros [Ha H]; (split; [exact Ha|]).
    + now rewrite H.
    + now destruct (Appointment.has_booker pk a).
  - intros clk. unfold appointments_of in Hnone. split.
    + unfold BookerPanelViewSet.my_appointment, upcoming_of. run.
      now rewrite Hnone.
    + unfold BookerPanelViewSet.past_appointments, gets.
      now rewrite Hnone.
  - unfold BookerPanelViewSet.list_schedulers, gets. f_equal. f_equal.
    apply filter_none. intros x _. apply existsb_none.
    intros [b s] Hrow. destruct (joined pk (Scheduler.id x) (b, s)) eqn:J;
      [|reflexivity].
    apply joined_true in J. injection J as -> ->.
    apply Hroster in Hrow. tauto.
  - intros b Hb. split.
    + unfold BookerPanelViewSet.list_schedulers, gets. f_equal. f_equal.
      unfold schedulers_all. simpl. apply filter_ext. intros x.
      apply eq_true_iff_eq. rewrite !existsb_exists.
      split; intros ([b' s] & Hrow & J); exists (b', s);
        (split; [|exact J]); apply joined_true in J; injection J as -> ->.
      * now apply filter_In in Hrow.
      * apply filter_In. split; [exact Hrow|]. simpl.
        apply negb_true_iff. now apply Nat.eqb_neq.
    + unfold appointments_of. simpl.
      induction (appointments db) as [|x rows IH]; simpl; [reflexivity|].
      destruct (Appointment.has_booker pk x) eqn:E1; simpl.
      * destruct (Appointment.has_booker b x) eqn:E2; [|exact IH].
        apply has_booker_true in E1, E2. congruence.
      * destruct (Appointment.has_booker b x); [f_equal|]; exact IH.
  - apply Hmissing. intros x Hx. now apply Hbookers in Hx.
Qed.

Lemma delete_booker_cascade_witness :
  exists db',
    AdminPanelViewSet.booker_detail_delete 1 sample_db = (Ok tt, db')
    /\ BookerPanelViewSet.my_appointment sample_clock 1 db'
       = (Raise [Http404], db').
Proof.
  destruct (delete_booker_cascade 1 sample_db) as (_ & Hdeleted).
  destruct (Hdeleted (ex_intro _ john (conj (or_introl eq_refl) eq_refl)))
    as (db' & Hdb' & _ & _ & _ & _ & Hpanel & _).
  exists db'. split; [exact Hdb'|apply Hpanel].
Defined.

(* ================================================================== *)
(** * Histories: what no request on appointments and rosters does *)
(* ================================================================== *)

Lemma keys_from_refl (db : DB) : keys_from db db.
Proof.
  split; [lia|]. intros a Ha _. now apply in_map.
Qed.

Lemma insert_keys_from (db0 : DB) (row : nat -> Appointment.t) :
  (forall pk, Appointment.id (row pk) = pk) ->
  preserves (keys_from db0) (insert_appointment row).
Proof.
  intros Hrow db [Hseq Hkeys]. rewrite insert_appointment_eq. cbv zeta.
  destruct (exists_ _); simpl; [now split|].
  split; simpl; [lia|].
  intros a Ha Hlt. apply in_app_or in Ha as [Ha|[<-|[]]]; [auto|].
  rewrite Hrow in Hlt. lia.
Qed.

Lemma save_keys_from (db0 : DB) (a : Appointment.t) :
  preserves (keys_from db0) (save_appointment a).
Proof.
  intros db [Hseq Hkeys]. rewrite save_appointment_eq.
  destruct (exists_ _); simpl; [now split|].
  split; simpl; [exact Hseq|].
  intros x Hx Hlt. apply in_map_iff in Hx as (y & <- & Hy).
  unfold written in *.
  destruct (Appointment.id y =? Appointment.id a) eqn:E; [|auto].
  apply Nat.eqb_eq in E. rewrite <- E in *. auto.
Qed.

Ltac kept_by_filter H :=
  let Hseq := fresh "Hseq" in
  let Hkeys := fresh "Hkeys" in
  let x := fresh "x" in
  let Hx := fresh "Hx" in
  destruct H as [Hseq Hkeys]; split; [exact Hseq|];
  intros x Hx; simpl in Hx; apply filter_In in Hx as [Hx _]; auto.

(** X15: along every history of requests on appointments and rosters
    (creating, updating and deleting appointments on the three panels,
    deleting a scheduler or a booker, adding a scheduler to a roster)
    the sequence of the appointment table never goes back and a primary key is never handed
    out twice: an appointment stored under a key of the time before the
    history is one of the appointments of that time, so that once an
    appointment has been deleted its key names no appointment again. *)
Theorem keys_never_reused (history : list (Clock * Request)) (db : DB) :
  keys_from db (serve history db)
  /\ forall pk,
       pk < appointment_seq db ->
       (forall a, In a (appointments db) -> Appointment.id a <> pk) ->
       forall a, In a (appointments (serve history db)) ->
                 Appointment.id a <> pk.
Proof.
  assert (keys_from db (serve history db)) as Hkeys.
  { apply serve_preserves; try apply keys_from_refl.
    - apply insert_keys_from.
    - apply save_keys_from.
    - intros a db1 H. unfold delete_appointment. run. kept_by_filter H.
    - intros pk db1 H. simpl. kept_by_filter H.
    - intros pk db1 H. simpl. kept_by_filter H.
    - intros b s db1 H. unfold schedulers_add. run.
      now destruct (existsb _ _). }
  split; [exact Hkeys|].
  intros pk Hlt Hfree a Ha E. destruct Hkeys as [_ Hkeys].
  rewrite <- E in Hlt. apply (Hkeys a Ha) in Hlt.
  apply in_map_iff in Hlt as (a0 & E0 & Ha0).
  apply (Hfree a0 Ha0). congruence.
Qed.

Lemma keys_never_reused_witness :
  ~ In 1 (map Appointment.id
            (appointments
               (serve [(sample_clock, AdminDeleteAppointment 1);
                       (sample_clock, AdminCreateAppointment admin_books)]
                  sample_db))).
Proof.
  intros H. apply in_map_iff in H as (a & E & Ha).
  revert a Ha E.
  apply (proj2 (keys_never_reused
                  [(sample_clock, AdminCreateAppointment admin_books)]
                  (set_appointments [] sample_db)) 1).
  - simpl. lia.
  - intros a [].
Defined.

Lemma accounts_kept_refl (db : DB) : accounts_kept db db.
Proof. repeat split; apply incl_refl. Qed.

(** X16: no request on appointments and rosters registers anybody.
    Along every history of such requests the codes and the role profiles stay as they are, and every
    scheduler and every booker of the end was there at the start; so
    the permissions of the scheduler panel and of the booker panel let
    the same accounts through at the end as at the start. *)
Theorem panels_never_register (history : list (Clock * Request)) (db : DB) :
  accounts_kept db (serve history db)
  /\ (forall user,
        role_profile user (serve history db) = role_profile user db
        /\ IsScheduler.has_permission user (serve history db)
           = IsScheduler.has_permission user db
        /\ IsBooker.has_permission user (serve history db)
           = IsBooker.has_permission user db)
  /\ (forall phone,
        role_users_of_phone phone db = [] ->
        role_users_of_phone phone (serve history db) = []).
Proof.
  assert (accounts_kept db (serve history db)) as Hkept.
  { apply serve_preserves; try apply accounts_kept_refl.
    - intros row _ db1 H. rewrite insert_appointment_eq. cbv zeta.
      now destruct (exists_ _).
    - intros a db1 H. rewrite save_appointment_eq.
      now destruct (exists_ _).
    - intros a db1 H. exact H.
    - intros pk db1 (Ho & Hr & Hs & Hb). repeat split; auto. simpl.
      intros x Hx. apply filter_In in Hx as [Hx _]. now apply Hs.
    - intros pk db1 (Ho & Hr & Hs & Hb). repeat split; auto. simpl.
      intros x Hx. apply filter_In in Hx as [Hx _]. now apply Hb.
    - intros b s db1 H. unfold schedulers_add. run.
      now destruct (existsb _ _). }
  split; [exact Hkept|]. destruct Hkept as (_ & Hr & Hs & Hb). split.
  - intros user.
    unfold IsScheduler.has_permission, IsBooker.has_permission, role_profile.
    now rewrite Hr.
  - intros phone Hnone. unfold role_users_of_phone in *. rewrite Hr.
    apply filter_none. intros ru Hru.
    assert (~ In ru (filter
                       (fun ru =>
                          existsb (fun b => owner_is ru (Booker.owner b)
                                            && String.eqb (Booker.phone b)
                                                 phone) (bookers db)
                          || existsb (fun s => owner_is ru (Scheduler.owner s)
                                               && String.eqb
                                                    (Scheduler.phone s) phone)
                               (schedulers db))
                       (role_users db))) as Hout
      by (rewrite Hnone; intros []).
    rewrite filter_In in Hout.
    destruct (existsb _ (bookers (serve history db))
              || existsb _ (schedulers (serve history db))) eqn:E;
      [|reflexivity].
    exfalso. apply Hout. split; [exact Hru|].
    apply orb_true_iff in E. apply orb_true_iff.
    destruct E as [E|E]; [left|right];
      apply existsb_exists in E as (x & Hx & E); apply existsb_exists;
      exists x; split; auto.
Qed.

(* ================================================================== *)
(** * Logging in with a code *)
(* ================================================================== *)

(** X17: login looks at the format of the phone first and at the
    accounts next.  A phone of at most eleven characters that is not
    eleven digits is refused before the store is read; a well-formed
    phone that reaches no role profile
    is answered 404 and no code is stored; a phone that reaches one role
    profile is sent a code: one row is added to the codes, nothing else
    changes, login-verify then issues the tokens of that account for this
    code, and verify-otp does so within three minutes. *)
Theorem login_then_verify (clk clk2 : Clock) (phone : string) (randint : N)
    (db : DB) :
  (char_field 11 phone = true -> well_formed phone = false ->
   otp_login clk phone randint db = inl [invalid_format])
  /\ (well_formed phone = true ->
      otp_login clk phone randint db
      = inr (OTPLoginView.post clk phone (generate_otp randint) db))
  /\ (role_users_of_phone phone db = [] ->
      OTPLoginView.post clk phone (generate_otp randint) db
      = (Raise [Http404], db))
  /\ (forall ru,
        role_users_of_phone phone db = [ru] ->
        exists db',
          OTPLoginView.post clk phone (generate_otp randint) db
          = (Ok tt, db')
          /\ otps db'
             = (otps db
                ++ [OTP.mk phone (generate_otp randint) (instant clk)])%list
          /\ role_users db' = role_users db
          /\ schedulers db' = schedulers db
          /\ bookers db' = bookers db
          /\ booker_schedulers db' = booker_schedulers db
          /\ appointments db' = appointments db
          /\ OTPLoginVerifyView.post clk2 phone (generate_otp randint) db'
             = (Ok (for_user (RoleUser.user ru)), db')
          /\ ((instant clk2 - instant clk <= three_minutes)%Z ->
              VerifyOTPView.post clk2 phone (generate_otp randint) db'
              = (Ok (for_user (RoleUser.user ru)), db'))).
Proof.
  split; [|split; [|split]].
  - intros _.
    unfold otp_login, PhoneLoginSerializer.validate_phone, well_formed.
    destruct (isdigit phone), (len phone =? 11); simpl;
      try discriminate; reflexivity.
  - unfold otp_login, PhoneLoginSerializer.validate_phone, well_formed.
    destruct (isdigit phone), (len phone =? 11); simpl;
      try discriminate; reflexivity.
  - intros Hnone. unfold OTPLoginView.post, bind, gets, raise.
    now rewrite Hnone.
  - intros ru Hone. eexists. split.
    { unfold OTPLoginView.post, bind, gets, create_otp, modify.
      rewrite Hone. reflexivity. }
    set (db' := mkDB _ _ _ _ _ _ _).
    assert (role_users_of_phone phone db' = [ru]) as Hreach by exact Hone.
    assert (last_row (otps_matching phone (generate_otp randint) db')
            = Some (OTP.mk phone (generate_otp randint) (instant clk)))
      as Hlast.
    { unfold otps_matching, db'. simpl.
      rewrite filter_app. simpl. rewrite !String.eqb_refl. simpl.
      apply last_row_snoc. }
    repeat split.
    + destruct (login_verify_outcomes clk2 phone (generate_otp randint) db')
        as (_ & Hfound).
      apply Hfound; [|now rewrite Hreach].
      intros E. unfold last_row in Hlast. rewrite E in Hlast. discriminate.
    + intros Hage.
      destruct (verify_otp_outcomes clk2 phone (generate_otp randint) db')
        as (_ & _ & Hfresh).
      apply (Hfresh _ ru Hlast); [simpl; lia|now rewrite Hreach].
Qed.

Lemma login_then_verify_witness :
  exists db',
    OTPLoginView.post sample_clock "09123456789" (generate_otp 654321)
      sample_db = (Ok tt, db')
    /\ OTPLoginVerifyView.post four_minutes_later "09123456789"
         (generate_otp 654321) db'
       = (Ok (for_user 20), db').
Proof.
  destruct (login_then_verify sample_clock four_minutes_later "09123456789"
              654321 sample_db) as (_ & _ & _ & Hsent).
  destruct (Hsent (RoleUser.mk 2 20 role_booker) eq_refl)
    as (db' & Hdb' & _ & _ & _ & _ & _ & _ & Hverify & _).
  exists db'. split; [exact Hdb'|exact Hverify].
Defined.

Lemma in_last_row {A : Type} (l : list A) (x : A) :
  last_row l = Some x -> In x l.
Proof.
  unfold last_row. intros H. apply in_rev.
  destruct (rev l); [discriminate|]. injection H as ->. now left.
Qed.

Lemma reached_by_phone (phone : string) (db : DB) (ru : RoleUser.t) :
  first (role_users_of_phone phone db) = Some ru ->
  In ru (role_users db)
  /\ ((exists b, In b (bookers db)
                 /\ Booker.owner b = Some (RoleUser.id ru)
                 /\ Booker.phone b = phone)
      \/ (exists s, In s (schedulers db)
                    /\ Scheduler.owner s = Some (RoleUser.id ru)
                    /\ Scheduler.phone s = phone)).
Proof.
  unfold first, role_users_of_phone. intros H.
  assert (forall owner,
             owner_is ru owner = true -> owner = Some (RoleUser.id ru))
    as Howner.
  { intros [o|]; simpl; [|discriminate].
    rewrite Nat.eqb_eq. congruence. }
  match type of H with
  | hd_error ?l = _ => assert (In ru l) as Hin
      by (destruct l; [discriminate|]; injection H as ->; now left)
  end.
  apply filter_In in Hin as [Hin E]. split; [exact Hin|].
  apply orb_true_iff in E as [E|E];
    apply existsb_exists in E as (x & Hx & E);
    apply andb_true_iff in E as [Eo Ep]; apply String.eqb_eq in Ep;
    [left|right]; exists x; auto.
Qed.

(** X24: tokens are issued only against a stored code.  Whenever
    verify-otp or login-verify issues tokens, a code with that phone and
    those digits is stored, and the tokens are those of an account whose
    role profile owns a booker or a scheduler profile with that phone;
    for verify-otp the latest such code is then at most three minutes
    old.  A code is expired when strictly more than three minutes have
    passed since it was stored.  Neither view writes, and neither issues
    tokens for a phone and digits that no stored code has. *)
Theorem tokens_need_code (clk : Clock) (phone code : string) (db : DB) :
  (forall o, OTP.is_expired (instant clk) o = true
             <-> (instant clk - OTP.created_at o > three_minutes)%Z)
  /\ snd (VerifyOTPView.post clk phone code db) = db
  /\ snd (OTPLoginVerifyView.post clk phone code db) = db
  /\ (forall user db',
        VerifyOTPView.post clk phone code db = (Ok (for_user user), db') ->
        (exists o,
            last_row (otps_matching phone code db) = Some o
            /\ In o (otps db)
            /\ OTP.phone o = phone /\ OTP.code o = code
            /\ (instant clk - OTP.created_at o <= three_minutes)%Z)
        /\ exists ru,
             In ru (role_users db) /\ RoleUser.user ru = user
             /\ ((exists b, In b (bookers db)
                            /\ Booker.owner b = Some (RoleUser.id ru)
                            /\ Booker.phone b = phone)
                 \/ (exists s, In s (schedulers db)
                               /\ Scheduler.owner s = Some (RoleUser.id ru)
                               /\ Scheduler.phone s = phone)))
  /\ (forall user db',
        OTPLoginVerifyView.post clk phone code db
        = (Ok (for_user user), db') ->
        (exists o,
            In o (otps db) /\ OTP.phone o = phone /\ OTP.code o = code)
        /\ exists ru,
             In ru (role_users db) /\ RoleUser.user ru = user
             /\ ((exists b, In b (bookers db)
                            /\ Booker.owner b = Some (RoleUser.id ru)
                            /\ Booker.phone b = phone)
                 \/ (exists s, In s (schedulers db)
                               /\ Scheduler.owner s = Some (RoleUser.id ru)
                               /\ Scheduler.phone s = phone)))
  /\ ((forall o, In o (otps db) ->
                 OTP.phone o = phone -> OTP.code o <> code) ->
      VerifyOTPView.post clk phone code db = (Raise [NotFound], db)
      /\ OTPLoginVerifyView.post clk phone code db = (Raise [NotFound], db)).
Proof.
  assert (forall o, In o (otps_matching phone code db) ->
                    In o (otps db) /\ OTP.phone o = phone
                    /\ OTP.code o = code) as Hmatch.
  { intros o Ho. apply filter_In in Ho as [Ho E].
    apply andb_true_iff in E as [Ep Ec].
    apply String.eqb_eq in Ep, Ec. auto. }
  split; [|split; [|split; [|split; [|split]]]].
  - intros o. unfold OTP.is_expired. rewrite Z.ltb_lt. lia.
  - unfold VerifyOTPView.post, bind, gets, raise, ret.
    destruct (last_row _) as [o|]; [|reflexivity].
    destruct (OTP.is_expired _ _); [reflexivity|].
    now destruct (first _).
  - unfold OTPLoginVerifyView.post, bind, gets, raise, ret.
    destruct (exists_ _); [|reflexivity].
    now destruct (first _).
  - intros user db'.
    unfold VerifyOTPView.post, bind, gets, raise, ret.
    destruct (last_row _) as [o|] eqn:L; [|discriminate].
    destruct (OTP.is_expired _ _) eqn:X; [discriminate|].
    destruct (first _) as [ru|] eqn:F; [|discriminate].
    intros H; injection H as <- _. split.
    + exists o. split; [reflexivity|].
      apply in_last_row in L. apply Hmatch in L as (Ho & Hp & Hc).
      repeat split; auto.
      unfold OTP.is_expired in X. apply Z.ltb_ge in X. lia.
    + exists ru. apply reached_by_phone in F as [Hru Hreach]. auto.
  - intros user db'.
    unfold OTPLoginVerifyView.post, bind, gets, raise, ret. cbv beta.
    destruct (otps_matching phone code db) as [|o l] eqn:L;
      [discriminate|]. simpl.
    destruct (first _) as [ru|] eqn:F; [|discriminate].
    intros H; injection H as <- _. split.
    + exists o. apply Hmatch. now left.
    + exists ru. apply reached_by_phone in F as [Hru Hreach]. auto.
  - intros Hnone.
    assert (otps_matching phone code db = []) as Hempty.
    { destruct (otps_matching phone code db) as [|o l] eqn:L;
        [reflexivity|].
      destruct (Hmatch o) as (Ho & Hp & Hc); [now left|].
      now apply Hnone in Ho. }
    split.
    + now apply (proj1 (verify_otp_outcomes clk phone code db)).
    + now apply (proj1 (login_verify_outcomes clk phone code db)).
Qed.

Lemma tokens_need_code_witness :
  VerifyOTPView.post sample_clock "09123456789" "000000" sample_db
  = (Raise [NotFound], sample_db)
  /\ OTPLoginVerifyView.post sample_clock "09123456789" "000000" sample_db
     = (Raise [NotFound], sample_db).
Proof.
  apply (tokens_need_code sample_clock "09123456789" "000000" sample_db).
  intros o [].
Defined.

(* ================================================================== *)
(** * When a creation is accepted, and what an update writes *)
(* ================================================================== *)

Lemma not_taken (db : DB) (s : nat) (d : date) (tm : time) :
  ~ taken db s d tm <-> exists_ (appointments_at s d tm db) = false.
Proof.
  rewrite taken_exists. now destruct (exists_ _).
Qed.

Lemma taken_after_insert (db db' : DB) (a : Appointment.t) :
  appointments db' = (appointments db ++ [a])%list ->
  taken db' (Appointment.scheduler a) (Appointment.date a)
    (Appointment.time a).
Proof.
  intros H. exists a. split; [|reflexivity].
  rewrite H. apply in_or_app. right. now left.
Qed.

(** X18: when each panel accepts a creation.  The admin's is accepted
    exactly when the booker and scheduler keys name stored rows, the time
    lies in the window and the slot is free; a scheduler's exactly when a
    booker key that is supplied names a stored booker, the booker is
    identified and the slot is free; a booker's exactly when he holds no
    upcoming appointment, the scheduler is in his roster, the date and
    time are not in the past and the slot is free.  An accepted creation
    of the admin or of a scheduler stores the appointment under the next
    key, with the fields of the payload and the reading of the clock, and
    touches nothing else; the same request sent again is then refused
    with SlotAlreadyBooked and writes nothing. *)
Theorem creation_accepted (clk : Clock) (db : DB) :
  (forall d,
      (exists a db',
          AdminPanelViewSet.create_appointment clk d db = (Ok a, db'))
      <-> is_booker_pk (AppointmentCreateSerializer.booker d) db = true
          /\ is_scheduler_pk (AppointmentCreateSerializer.scheduler d) db
             = true
          /\ in_window (AppointmentCreateSerializer.time d) = true
          /\ ~ taken db (AppointmentCreateSerializer.scheduler d)
                 (AppointmentCreateSerializer.date d)
                 (AppointmentCreateSerializer.time d))
  /\ (forall s d,
        (exists r db',
            SchedulerPanelViewSet.manage_appointments clk s
              (SchedulerPanelViewSet.create d) db = (Ok r, db'))
        <-> (forall b,
                SchedulerPanelAppointmentCreateSerializer.booker d = Some b ->
                is_booker_pk b db = true)
            /\ no_identity (SchedulerPanelAppointmentCreateSerializer.booker d)
                 (SchedulerPanelAppointmentCreateSerializer.booker_name d)
               = false
            /\ ~ taken db s
                   (SchedulerPanelAppointmentCreateSerializer.date d)
                   (SchedulerPanelAppointmentCreateSerializer.time d))
  /\ (forall b d,
        (exists a db',
            BookerPanelViewSet.reserve_appointment clk b d db = (Ok a, db'))
        <-> ~ holds_upcoming db clk b
            /\ in_roster b (BookerAppointmentCreateSerializer.scheduler d) db
               = true
            /\ in_the_past clk (BookerAppointmentCreateSerializer.date d)
                 (BookerAppointmentCreateSerializer.time d) = false
            /\ ~ taken db (BookerAppointmentCreateSerializer.scheduler d)
                   (BookerAppointmentCreateSerializer.date d)
                   (BookerAppointmentCreateSerializer.time d))
  /\ (forall d a db',
        AdminPanelViewSet.create_appointment clk d db = (Ok a, db') ->
        a = Appointment.mk (appointment_seq db)
              (AppointmentCreateSerializer.scheduler d)
              (Some (AppointmentCreateSerializer.booker d)) ""
              (AppointmentCreateSerializer.date d)
              (AppointmentCreateSerializer.time d)
              (AppointmentCreateSerializer.note d) (instant clk)
        /\ appended db db' a
        /\ forall clk',
             AdminPanelViewSet.create_appointment clk' d db'
             = (Raise [SlotAlreadyBooked], db'))
  /\ (forall s d r db',
        SchedulerPanelViewSet.manage_appointments clk s
          (SchedulerPanelViewSet.create d) db = (Ok r, db') ->
        exists a display_name,
          r = Some (a, display_name)
          /\ a = Appointment.mk (appointment_seq db) s
                   (SchedulerPanelAppointmentCreateSerializer.booker d)
                   (match SchedulerPanelAppointmentCreateSerializer.booker_name
                            d with
                    | Some name => name
                    | None => ""
                    end)
                   (SchedulerPanelAppointmentCreateSerializer.date d)
                   (SchedulerPanelAppointmentCreateSerializer.time d)
                   (SchedulerPanelAppointmentCreateSerializer.note d)
                   (instant clk)
          /\ appended db db' a
          /\ forall clk',
               SchedulerPanelViewSet.manage_appointments clk' s
                 (SchedulerPanelViewSet.create d) db'
               = (Raise [SlotAlreadyBooked], db')).
Proof.
  split; [|split; [|split; [|split]]].
  - intros d. rewrite not_taken, admin_create_eq.
    unfold AppointmentCreateSerializer.save.
    rewrite insert_appointment_eq. simpl.
    destruct (AppointmentCreateSerializer.field_errors d db) as [|e l] eqn:F.
    + apply admin_fields_pass in F as (Hb & Hw & Hs).
      destruct (exists_ _); split.
      * intros (a & db' & H). discriminate.
      * intros (_ & _ & _ & H). discriminate.
      * auto.
      * eauto.
    + split; [intros (a & db' & H); discriminate|].
      intros (Hb & Hs & Hw & _).
      assert (AppointmentCreateSerializer.field_errors d db = []) as F'
        by now apply admin_fields_pass.
      congruence.
  - intros s d. rewrite not_taken, scheduler_create_eq.
    unfold SchedulerPanelAppointmentCreateSerializer.save.
    rewrite insert_appointment_eq. simpl.
    destruct (SchedulerPanelAppointmentCreateSerializer.field_errors d db)
      as [|e l] eqn:F.
    + pose proof (scheduler_create_fields_checked d db F) as Hkey.
      destruct (no_identity _ _); simpl.
      * split; [intros (a & db' & H)|intros (_ & H & _)]; discriminate.
      * destruct (exists_ _); split.
        -- intros (a & db' & H). discriminate.
        -- intros (_ & _ & H). discriminate.
        -- auto.
        -- eauto.
    + split; [intros (a & db' & H); discriminate|].
      intros (Hkey & _).
      rewrite (scheduler_create_fields_pass d db Hkey) in F. discriminate.
  - intros b d. rewrite not_taken, holds_upcoming_exists, reserve_eq.
    unfold BookerAppointmentCreateSerializer.save.
    rewrite insert_appointment_eq. simpl.
    destruct (exists_ (upcoming_of b clk db)).
    { split; [intros (a & db' & H); discriminate|].
      intros [H _]. now contradiction H. }
    destruct (in_roster b _ db); simpl.
    2:{ split; [intros (a & db' & H)|intros (_ & H & _)]; discriminate. }
    destruct (exists_ _).
    { split; [intros (a & db' & H)|intros (_ & _ & _ & H)]; discriminate. }
    destruct (in_the_past clk _ _).
    { split; [intros (a & db' & H)|intros (_ & _ & H & _)]; discriminate. }
    split; [intros _|eauto]. repeat split; auto; discriminate.
  - intros d a db' H. rewrite admin_create_eq in H.
    destruct (AppointmentCreateSerializer.field_errors d db) eqn:F;
      [|discriminate].
    destruct (exists_ _) eqn:T; [discriminate|].
    unfold AppointmentCreateSerializer.save in H.
    rewrite insert_appointment_eq in H. simpl in H. rewrite T in H.
    injection H as <- <-.
    split; [reflexivity|]. split; [repeat split|].
    intros clk'. rewrite admin_create_eq.
    change (AppointmentCreateSerializer.field_errors d
              (mkDB (otps db) (role_users db) (schedulers db) (bookers db)
                 (booker_schedulers db)
                 (appointments db
                  ++ [Appointment.mk (appointment_seq db)
                        (AppointmentCreateSerializer.scheduler d)
                        (Some (AppointmentCreateSerializer.booker d)) ""
                        (AppointmentCreateSerializer.date d)
                        (AppointmentCreateSerializer.time d)
                        (AppointmentCreateSerializer.note d)
                        (instant clk)])%list
                 (S (appointment_seq db))))
      with (AppointmentCreateSerializer.field_errors d db).
    rewrite F.
    rewrite (proj1 (taken_exists _ _ _ _)); [reflexivity|].
    eapply (taken_after_insert db _ (Appointment.mk _ _ _ _ _ _ _ _)).
    reflexivity.
  - intros s d r db' H. rewrite scheduler_create_eq in H.
    destruct (SchedulerPanelAppointmentCreateSerializer.field_errors d db)
      eqn:F; [|discriminate].
    destruct (no_identity _ _) eqn:I; [discriminate|].
    destruct (exists_ _) eqn:T; [discriminate|].
    unfold SchedulerPanelAppointmentCreateSerializer.save in H.
    rewrite insert_appointment_eq in H. simpl in H. rewrite T in H.
    injection H as <- <-.
    eexists. eexists. split; [reflexivity|].
    split; [reflexivity|]. split; [repeat split|].
    intros clk'. rewrite scheduler_create_eq.
    change (SchedulerPanelAppointmentCreateSerializer.field_errors d
              (mkDB (otps db) (role_users db) (schedulers db) (bookers db)
                 (booker_schedulers db)
                 (appointments db
                  ++ [Appointment.mk (appointment_seq db) s
                        (SchedulerPanelAppointmentCreateSerializer.booker d)
                        match
                          SchedulerPanelAppointmentCreateSerializer.booker_name
                            d
                        with
                        | Some s0 => s0
                        | None => ""
                        end
                        (SchedulerPanelAppointmentCreateSerializer.date d)
                        (SchedulerPanelAppointmentCreateSerializer.time d)
                        (SchedulerPanelAppointmentCreateSerializer.note d)
                        (instant clk)])%list
                 (S (appointment_seq db))))
      with (SchedulerPanelAppointmentCreateSerializer.field_errors d db).
    rewrite F, I.
    rewrite (proj1 (taken_exists _ _ _ _)); [reflexivity|].
    eapply (taken_after_insert db _ (Appointment.mk _ _ _ _ _ _ _ _)).
    reflexivity.
Qed.

Lemma creation_accepted_witness :
  exists a db',
    AdminPanelViewSet.create_appointment sample_clock admin_books sample_db
    = (Ok a, db').
Proof.
  apply (proj2 (proj1 (creation_accepted sample_clock sample_db)
                  admin_books)).
  split; [reflexivity|]. split; [reflexivity|]. split; [reflexivity|].
  intros (a & [<-|[]] & H). discriminate.
Defined.

Lemma written_others (a' : Appointment.t) (rows : list Appointment.t)
    (i : nat) (x : Appointment.t) :
  nth_error rows i = Some x ->
  nth_error (map (written a') rows) i
  = Some (if Appointment.id x =? Appointment.id a' then a' else x).
Proof.
  intros H. rewrite nth_error_map, H. reflexivity.
Qed.

(** X19: what an update by the admin or by a scheduler writes.  The
    admin's PUT is answered 404 exactly when no appointment has the key;
    when it is carried out, the appointment of that key is written with
    the supplied date, time and note, and its key, scheduler, booker,
    booker name and creation time are as before.  A scheduler's update
    that is carried out writes an appointment of that scheduler, with the
    supplied date, time, booker, booker name and note, and its key,
    scheduler and creation time are as before.  Either way every other
    row stays in its place, the row takes the place it had, and no other
    table is touched. *)
Theorem staff_update_frame (clk : Clock) (db : DB) :
  (forall pk d,
      AdminPanelViewSet.appointment_detail_put pk d db
      = (Raise [Http404], db)
      <-> forall x, In x (appointments db) -> Appointment.id x <> pk)
  /\ (forall pk d a' db',
        AdminPanelViewSet.appointment_detail_put pk d db = (Ok a', db') ->
        exists a,
          In a (appointments db)
          /\ Appointment.id a = pk
          /\ a' = apply_partial a d
          /\ Appointment.id a' = pk
          /\ Appointment.scheduler a' = Appointment.scheduler a
          /\ Appointment.booker a' = Appointment.booker a
          /\ Appointment.booker_name a' = Appointment.booker_name a
          /\ Appointment.created_at a' = Appointment.created_at a
          /\ rewritten db db' a'
          /\ forall i x,
               nth_error (appointments db) i = Some x ->
               nth_error (appointments db') i
               = Some (if Appointment.id x =? pk then a' else x))
  /\ (forall s pk d a' display_name db',
        SchedulerPanelViewSet.manage_appointments clk s
          (SchedulerPanelViewSet.update pk d) db
        = (Ok (Some (a', display_name)), db') ->
        exists a,
          In a (appointments db)
          /\ Appointment.id a = pk
          /\ Appointment.scheduler a = s
          /\ a' = SchedulerPanelAppointmentUpdateSerializer.update a d
          /\ Appointment.id a' = pk
          /\ Appointment.scheduler a' = s
          /\ Appointment.created_at a' = Appointment.created_at a
          /\ rewritten db db' a'
          /\ forall i x,
               nth_error (appointments db) i = Some x ->
               nth_error (appointments db') i
               = Some (if Appointment.id x =? pk then a' else x)).
Proof.
  split; [|split].
  - intros pk d. rewrite admin_put_eq.
    destruct (find _ _) as [a|] eqn:F.
    + split.
      * cbv zeta. destruct (exists_ _); discriminate.
      * intros Hnone. apply find_some in F as [Ha E].
        apply Nat.eqb_eq in E. now apply Hnone in Ha.
    + split; [|reflexivity]. intros _ x Hx E.
      apply (find_none _ _ F) in Hx. apply Nat.eqb_neq in Hx. tauto.
  - intros pk d a' db' H. rewrite admin_put_eq in H.
    destruct (find _ _) as [a|] eqn:F; [|discriminate].
    cbv zeta in H. destruct (exists_ _); [discriminate|].
    injection H as <- <-.
    apply find_some in F as [Ha E]. apply Nat.eqb_eq in E.
    exists a. repeat split; auto.
    intros i x Hx. simpl. rewrite (written_others _ _ _ _ Hx). simpl.
    now rewrite E.
  - intros s pk d a' display_name db' H. rewrite scheduler_update_eq in H.
    destruct (find _ _) as [a|] eqn:F; [|discriminate].
    destruct (SchedulerPanelAppointmentUpdateSerializer.field_errors d db);
      [|discriminate].
    destruct (no_identity _ _); [discriminate|].
    rewrite scheduler_save_eq in H. cbv zeta in H.
    destruct (exists_ _); [discriminate|].
    injection H as <- _ <-.
    apply find_some in F as [Ha E]. apply andb_true_iff in E as [E Es].
    apply Nat.eqb_eq in E, Es.
    exists a. repeat split; auto.
    intros i x Hx. simpl. rewrite (written_others _ _ _ _ Hx). simpl.
    now rewrite E.
Qed.

Lemma staff_update_frame_witness :
  exists a,
    In a (appointments two_appointments)
    /\ Appointment.id a = 2
    /\ fst (AdminPanelViewSet.appointment_detail_put 2 note_only
              two_appointments)
       = Ok (apply_partial a note_only).
Proof.
  destruct (staff_update_frame sample_clock two_appointments)
    as (_ & Hput & _).
  destruct (Hput 2 note_only _ _ eq_refl) as (a & Hin & Hid & Ha & _).
  exists a. split; [exact Hin|]. split; [exact Hid|].
  rewrite <- Ha. reflexivity.
Defined.

(* ================================================================== *)
(** * The first page of a listing *)
(* ================================================================== *)

Lemma sorted_app_le {A : Type} (R : A -> A -> Prop) (l1 l2 : list A) :
  StronglySorted R (l1 ++ l2) ->
  forall x y, In x l1 -> In y l2 -> R x y.
Proof.
  induction l1 as [|z l1 IH]; simpl; intros H x y Hx Hy; [tauto|].
  inversion H as [|? ? Hs Hall]; subst.
  destruct Hx as [->|Hx]; [|now apply IH].
  rewrite Forall_forall in Hall. apply Hall. apply in_or_app. now right.
Qed.

Lemma first_page (queryset : list Appointment.t) :
  AppointmentsCPagination.paginate_queryset queryset None
  = firstn 5 (order_by AppointmentsCPagination.ordering
                (order_by AppointmentsCPagination.pk_ordering queryset)).
Proof. reflexivity. Qed.

Lemma first_page_least (queryset : list Appointment.t)
    (x y : Appointment.t) :
  In x (AppointmentsCPagination.paginate_queryset queryset None) ->
  In y queryset ->
  ~ In y (AppointmentsCPagination.paginate_queryset queryset None) ->
  time_le (Appointment.time x) (Appointment.time y) = true.
Proof.
  rewrite first_page. intros Hx Hy Hout.
  pose proof (order_by_sorted AppointmentsCPagination.ordering
                (fun a b => time_le_total _ _)
                (fun a b c => time_le_trans _ _ _)
                (order_by AppointmentsCPagination.pk_ordering queryset))
    as Hsorted.
  apply (order_by_in AppointmentsCPagination.pk_ordering) in Hy.
  apply (order_by_in AppointmentsCPagination.ordering) in Hy.
  rewrite <- (firstn_skipn 5) in Hy, Hsorted.
  apply in_app_or in Hy as [Hy|Hy]; [contradiction|].
  apply (sorted_app_le _ _ _ Hsorted x y Hx Hy).
Qed.

(** X20: the first page of either listing has five appointments, or all
    of them when there are fewer, and they are the earliest by time of
    day: no appointment that is left for a later page has a time of day
    before that of an appointment on the page.  The listings never
    write. *)
Theorem first_page_earliest (db : DB) :
  (exists page,
     AdminPanelViewSet.list_appointments None db = (Ok page, db)
     /\ List.length page = Nat.min 5 (List.length (appointments db))
     /\ forall x y,
          In x page -> In y (appointments db) -> ~ In y page ->
          time_le (Appointment.time x) (Appointment.time y) = true)
  /\ (forall s,
        exists page,
          SchedulerPanelViewSet.appointments s None db = (Ok page, db)
          /\ List.length page
             = Nat.min 5
                 (List.length
                    (filter (fun a => Appointment.scheduler a =? s)
                            (appointments db)))
          /\ forall x y,
               In x page -> In y (appointments db) ->
               Appointment.scheduler y = s -> ~ In y page ->
               time_le (Appointment.time x) (Appointment.time y) = true).
Proof.
  split; [|intros s]; eexists; (split; [reflexivity|]); split.
  - rewrite first_page, length_firstn, !order_by_length. reflexivity.
  - intros x y Hx Hy Hout.
    apply (first_page_least _ x y Hx); [|exact Hout].
    now apply order_by_in.
  - rewrite first_page, length_firstn, !order_by_length. reflexivity.
  - intros x y Hx Hy Hs Hout.
    apply (first_page_least _ x y Hx); [|exact Hout].
    apply order_by_in. apply filter_In. split; [exact Hy|].
    now apply Nat.eqb_eq.
Qed.

Lemma first_page_earliest_witness :
  exists page,
    AdminPanelViewSet.list_appointments None three_appointments
    = (Ok page, three_appointments)
    /\ List.length page = 3.
Proof.
  destruct (first_page_earliest three_appointments)
    as ((page & Hpage & Hlength & _) & _).
  exists page. split; [exact Hpage|exact Hlength].
Defined.

(* ================================================================== *)
(** * The permissions of the panels and the profile behind an account *)
(* ================================================================== *)

(** X21: no account has both the permission of the scheduler panel and
    that of the booker panel; an account without a role profile has
    neither, and an account with a role profile has exactly the one of
    its role.  Past the permission the panel looks the profile up by its
    owner: it answers 404 when the role profile owns no profile, and
    whenever it finds a profile, that is a stored profile owned by it;
    it never writes. *)
Theorem panel_permissions (user : nat) (db : DB) :
  IsScheduler.has_permission user db && IsBooker.has_permission user db
  = false
  /\ (role_profile user db = None ->
      IsScheduler.has_permission user db = false
      /\ IsBooker.has_permission user db = false)
  /\ (forall ru,
        role_profile user db = Some ru ->
        In ru (role_users db)
        /\ RoleUser.user ru = user
        /\ (IsScheduler.has_permission user db = true
            <-> RoleUser.role ru = role_scheduler)
        /\ (IsBooker.has_permission user db = true
            <-> RoleUser.role ru = role_booker))
  /\ (forall ru,
        (get_booker ru db = (Raise [Http404], db)
         <-> forall b, In b (bookers db) ->
                       Booker.owner b <> Some (RoleUser.id ru))
        /\ (forall b db',
              get_booker ru db = (Ok b, db') ->
              db' = db /\ In b (bookers db)
              /\ Booker.owner b = Some (RoleUser.id ru))
        /\ (get_scheduler ru db = (Raise [Http404], db)
            <-> forall s, In s (schedulers db) ->
                          Scheduler.owner s <> Some (RoleUser.id ru))
        /\ (forall s db',
              get_scheduler ru db = (Ok s, db') ->
              db' = db /\ In s (schedulers db)
              /\ Scheduler.owner s = Some (RoleUser.id ru))).
Proof.
  assert (forall ru owner,
             owner_is ru owner = true <-> owner = Some (RoleUser.id ru))
    as Howner.
  { intros ru [o|]; simpl; [|split; discriminate].
    rewrite Nat.eqb_eq. split; congruence. }
  unfold IsScheduler.has_permission, IsBooker.has_permission.
  split; [|split; [|split]].
  - destruct (role_profile user db) as [ru|]; [|reflexivity].
    now destruct (RoleUser.role ru).
  - now intros ->.
  - intros ru Hru. rewrite Hru. unfold role_profile in Hru.
    apply find_some in Hru as [Hin E]. apply Nat.eqb_eq in E.
    repeat split; auto; destruct (RoleUser.role ru); congruence.
  - intros ru. unfold get_booker, get_scheduler. run.
    split; [|split; [|split]].
    + destruct (filter _ (bookers db)) as [|b [|b' l]] eqn:F; split;
        try discriminate; try reflexivity.
      * intros _ b Hb E. apply Howner in E.
        assert (In b (filter (fun b => owner_is ru (Booker.owner b))
                        (bookers db))) as Hin
          by (apply filter_In; now split).
        rewrite F in Hin. destruct Hin.
      * intros Hnone.
        assert (In b (filter (fun b => owner_is ru (Booker.owner b))
                        (bookers db))) as Hin by (rewrite F; now left).
        apply filter_In in Hin as [Hb E]. apply Howner in E.
        now apply Hnone in Hb.
      * intros Hnone.
        assert (In b (filter (fun b => owner_is ru (Booker.owner b))
                        (bookers db))) as Hin by (rewrite F; now left).
        apply filter_In in Hin as [Hb E]. apply Howner in E.
        now apply Hnone in Hb.
    + intros b db'.
      destruct (filter _ (bookers db)) as [|b0 [|b1 l]] eqn:F;
        try discriminate.
      intros H; injection H as <- <-.
      assert (In b0 (filter (fun b => owner_is ru (Booker.owner b))
                       (bookers db))) as Hin by (rewrite F; now left).
      apply filter_In in Hin as [Hb E]. apply Howner in E. auto.
    + destruct (filter _ (schedulers db)) as [|s [|s' l]] eqn:F; split;
        try discriminate; try reflexivity.
      * intros _ s Hs E. apply Howner in E.
        assert (In s (filter (fun s => owner_is ru (Scheduler.owner s))
                        (schedulers db))) as Hin
          by (apply filter_In; now split).
        rewrite F in Hin. destruct Hin.
      * intros Hnone.
        assert (In s (filter (fun s => owner_is ru (Scheduler.owner s))
                        (schedulers db))) as Hin by (rewrite F; now left).
        apply filter_In in Hin as [Hs E]. apply Howner in E.
        now apply Hnone in Hs.
      * intros Hnone.
        assert (In s (filter (fun s => owner_is ru (Scheduler.owner s))
                        (schedulers db))) as Hin by (rewrite F; now left).
        apply filter_In in Hin as [Hs E]. apply Howner in E.
        now apply Hnone in Hs.
    + intros s db'.
      destruct (filter _ (schedulers db)) as [|s0 [|s1 l]] eqn:F;
        try discriminate.
      intros H; injection H as <- <-.
      assert (In s0 (filter (fun s => owner_is ru (Scheduler.owner s))
                       (schedulers db))) as Hin by (rewrite F; now left).
      apply filter_In in Hin as [Hs E]. apply Howner in E. auto.
Qed.

Lemma panel_permissions_witness :
  IsBooker.has_permission 20 sample_db = true
  /\ IsScheduler.has_permission 20 sample_db = false.
Proof.
  destruct (panel_permissions 20 sample_db) as (Hnot_both & _ & Hrole & _).
  destruct (Hrole (RoleUser.mk 2 20 role_booker) eq_refl)
    as (_ & _ & _ & Hbooker).
  assert (IsBooker.has_permission 20 sample_db = true) as Hpass
    by now apply Hbooker.
  split; [exact Hpass|].
  rewrite Hpass, andb_true_r in Hnot_both. exact Hnot_both.
Defined.

(* ================================================================== *)
(** * The booker's appointment after an update *)
(* ================================================================== *)

(** A row that is neither past before nor after the write leaves the
    past rows of the booker as they were. *)
Lemma past_rows_after_write (clk : Clock) (b : nat) (a a' : Appointment.t)
    (rows : list Appointment.t) :
  NoDup (map Appointment.id rows) -> In a rows ->
  Appointment.id a' = Appointment.id a ->
  Appointment.past clk a = false -> Appointment.past clk a' = false ->
  filter (Appointment.past clk)
    (filter (Appointment.has_booker b) (map (written a') rows))
  = filter (Appointment.past clk) (filter (Appointment.has_booker b) rows).
Proof.
  intros Hn Hin Hid Hold Hnew.
  assert (forall x, In x rows ->
                    Appointment.id x = Appointment.id a' -> x = a) as Hrow.
  { intros x Hx E. apply (same_id_same_row rows); auto. congruence. }
  clear Hn Hin. induction rows as [|x rows IH]; [reflexivity|].
  assert (filter (Appointment.past clk)
            (filter (Appointment.has_booker b) (map (written a') rows))
          = filter (Appointment.past clk)
              (filter (Appointment.has_booker b) rows)) as IH'
    by (apply IH; intros y Hy; apply Hrow; now right).
  change (map (written a') (x :: rows))
    with (written a' x :: map (written a') rows).
  destruct (Nat.eqb_spec (Appointment.id x) (Appointment.id a')) as [E|E].
  - rewrite (Hrow x (or_introl eq_refl) E).
    assert (written a' a = a') as ->
      by (unfold written; now rewrite <- Hid, Nat.eqb_refl).
    simpl.
    destruct (Appointment.has_booker b a'), (Appointment.has_booker b a);
      simpl; rewrite ?Hold, ?Hnew; exact IH'.
  - assert (written a' x = x) as ->
      by (unfold written; apply Nat.eqb_neq in E; now rewrite E).
    simpl. destruct (Appointment.has_booker b x); simpl; [|exact IH'].
    now rewrite IH'.
Qed.

(** X22: an update of the booker that is carried out leaves him with an
    upcoming appointment.  The appointment as written is stored, is his,
    and is still to come at the reading of the clock; so my-appointment
    goes on answering with an appointment and every reservation of his is
    still refused with ActiveAppointmentExists.  When keys are unique the
    list of his past appointments is as before. *)
Theorem update_keeps_active (clk : Clock) (b : nat) (d : PartialData)
    (db db' : DB) (a' : Appointment.t)
    (Hdone : BookerPanelViewSet.update_my_appointment clk b d db
             = (Ok a', db')) :
  In a' (appointments db')
  /\ Appointment.booker a' = Some b
  /\ Appointment.upcoming clk a' = true
  /\ holds_upcoming db' clk b
  /\ (exists shown,
        BookerPanelViewSet.my_appointment clk b db' = (Ok shown, db'))
  /\ (forall d',
        BookerPanelViewSet.reserve_appointment clk b d' db'
        = (Raise [ActiveAppointmentExists], db'))
  /\ (table_ok db ->
      BookerPanelViewSet.past_appointments clk b db'
      = (fst (BookerPanelViewSet.past_appointments clk b db), db')).
Proof.
  rewrite booker_update_eq in Hdone.
  destruct (first (upcoming_of b clk db)) as [a|] eqn:F; [|discriminate].
  cbv zeta in Hdone.
  destruct (BookerPanelUpdateAppointmentProfileSerializer.field_errors clk d)
    eqn:FE; [|discriminate].
  destruct (date_eq _ _ && time_le _ _) eqn:V; [discriminate|].
  destruct (exists_ _); [discriminate|].
  injection Hdone as <- <-.
  destruct (first_upcoming_in clk b db a F) as (Hin & Hb & Hup).
  set (a' := apply_partial a d).
  assert (Appointment.upcoming clk a' = true) as Hup'.
  { rewrite upcoming_not_past. apply negb_true_iff.
    unfold a', Appointment.past. rewrite V, orb_false_r.
    unfold apply_partial; simpl.
    destruct (new_date d) as [v|] eqn:D; simpl.
    - revert FE.
      unfold BookerPanelUpdateAppointmentProfileSerializer.field_errors,
        BookerPanelUpdateAppointmentProfileSerializer.validate_date.
      rewrite D. destruct (date_lt v (today clk)); [discriminate|reflexivity].
    - rewrite upcoming_not_past in Hup. apply negb_true_iff in Hup.
      unfold Appointment.past in Hup. now apply orb_false_iff in Hup. }
  assert (In a' (map (written a') (appointments db))) as Hin'.
  { apply in_map_iff. exists a. split; [|exact Hin].
    unfold written, a'. simpl. now rewrite Nat.eqb_refl. }
  assert (holds_upcoming
            (set_appointments (map (written a') (appointments db)) db)
            clk b) as Hholds.
  { exists a'. repeat split; auto. }
  split; [exact Hin'|]. split; [exact Hb|]. split; [exact Hup'|].
  split; [exact Hholds|]. split; [|split].
  - destruct (my_appointment_shown clk b _ Hholds) as (shown & H).
    eauto.
  - intros d'. rewrite reserve_eq.
    apply holds_upcoming_exists in Hholds. now rewrite Hholds.
  - intros (Hids & _ & _).
    unfold BookerPanelViewSet.past_appointments, gets. simpl.
    f_equal. f_equal. f_equal.
    apply (past_rows_after_write clk b a a'); auto.
    + rewrite upcoming_not_past in Hup. now apply negb_true_iff in Hup.
    + rewrite upcoming_not_past in Hup'. now apply negb_true_iff in Hup'.
Qed.

Lemma update_keeps_active_witness :
  BookerPanelViewSet.reserve_appointment sample_clock 1 mary_reserves
    (snd (BookerPanelViewSet.update_my_appointment sample_clock 1 note_only
            sample_db))
  = (Raise [ActiveAppointmentExists],
     snd (BookerPanelViewSet.update_my_appointment sample_clock 1 note_only
            sample_db)).
Proof.
  destruct (update_keeps_active sample_clock 1 note_only sample_db _ _
              eq_refl) as (_ & _ & _ & _ & _ & Hrefused & _).
  apply Hrefused.
Defined.

(* ================================================================== *)
(** * A scheduler registers and is found by the bookers *)
(* ================================================================== *)

(** X23: the account of a scheduler who has just registered has the
    permission of the scheduler panel and not that of the booker panel,
    and the scheduler panel finds the profile that the registration
    stored.  The profile is publicly searchable: every booker who asks
    for the phone of the scheduler gets this scheduler added to his
    roster. *)
Theorem registered_scheduler_joins (clk : Clock)
    (d : RegisterSchedulerWithPhoneSerializer.data) (randint : N)
    (site site' : Site)
    (Hok : site_ok site)
    (Hsent : RegisterSchedulerWithPhoneView.post clk d randint site
             = (otp_sent, site')) :
  let user := user_seq site in
  let role_user := RoleUser.mk (role_user_seq site) user role_scheduler in
  let s := Scheduler.mk (scheduler_seq site) (Some (role_user_seq site))
             (RegisterSchedulerWithPhoneSerializer.name d)
             (RegisterSchedulerWithPhoneSerializer.family d)
             (RegisterSchedulerWithPhoneSerializer.phone d)
             (RegisterSchedulerWithPhoneSerializer.bio d) true in
  role_profile user (store site') = Some role_user
  /\ IsScheduler.has_permission user (store site') = true
  /\ IsBooker.has_permission user (store site') = false
  /\ get_scheduler role_user (store site') = (Ok s, store site')
  /\ forall b,
       exists db',
         BookerPanelViewSet.add_scheduler b
           (RegisterSchedulerWithPhoneSerializer.phone d) (store site')
         = (Ok s, db')
         /\ in_roster b (scheduler_seq site) db' = true.
Proof.
  rewrite register_scheduler_eq in Hsent. cbv zeta in Hsent.
  destruct (well_formed _) eqn:W; [|discriminate]. simpl in Hsent.
  destruct (existsb _ (schedulers (store site))) eqn:B; [discriminate|].
  destruct (existsb _ (users site)) eqn:U; [discriminate|].
  injection Hsent as <-.
  destruct Hok as (_ & Hru & _ & Hs & _).
  intros user role_user s.
  assert (role_profile user
            (store (scheduler_registered clk d (generate_otp randint) site))
          = Some role_user) as Hprofile.
  { unfold role_profile, scheduler_registered. simpl.
    apply find_snoc_new; [|apply Nat.eqb_refl].
    intros ru Hin. apply Hru in Hin as [_ Hin].
    apply Nat.eqb_neq. unfold user. lia. }
  split; [exact Hprofile|].
  unfold IsBooker.has_permission, IsScheduler.has_permission.
  rewrite Hprofile. simpl. split; [reflexivity|]. split; [reflexivity|].
  split.
  - unfold get_scheduler, bind, gets, ret. simpl.
    rewrite filter_app. simpl. rewrite Nat.eqb_refl.
    rewrite filter_none; [reflexivity|].
    intros x Hin. apply Hs in Hin as [_ Hin].
    unfold owner_is. destruct (Scheduler.owner x) as [k|]; [|reflexivity].
    simpl. apply Nat.eqb_neq. specialize (Hin k eq_refl). lia.
  - intros b. rewrite add_scheduler_eq. simpl.
    rewrite filter_app. simpl. rewrite String.eqb_refl. simpl.
    rewrite filter_none.
    2:{ intros x Hx. rewrite (existsb_none_inv _ _ B x Hx). reflexivity. }
    simpl. eexists. split; [reflexivity|].
    apply in_roster_true. split.
    + exists s. split; [|reflexivity].
      destruct (existsb (joined _ _) _); simpl; apply in_or_app; right;
        now left.
    + destruct (existsb (joined _ _) _) eqn:E; simpl.
      * apply existsb_exists in E as (row & Hrow & J).
        apply joined_true in J. now subst.
      * apply in_or_app. right. now left.
Qed.

Lemma registered_scheduler_joins_witness :
  IsScheduler.has_permission 1
    (store (snd (RegisterSchedulerWithPhoneView.post sample_clock
                   (RegisterSchedulerWithPhoneSerializer.mk "09987654321"
                      "Alice" "Smith" "Scheduler bio") 483920 empty_site)))
  = true.
Proof.
  apply (registered_scheduler_joins sample_clock
           (RegisterSchedulerWithPhoneSerializer.mk "09987654321" "Alice"
              "Smith" "Scheduler bio")
           483920 empty_site _ empty_site_ok eq_refl).
Defined.
